(** * handAbility: gesture classifiers and the repetition state machine

    A shallow embedding of [backend/state_manager.py], of the five detectors
    under [backend/exercises/] and of the label pipeline of [analyze] in
    [backend/app.py], with the properties the specification states about
    them.

    Conventions of the embedding.
    - Python [float] is IEEE 754 binary64, which is Rocq's primitive
      [float]; a decimal literal denotes the nearest binary64 value in both.
      JSON numbers are taken to be floats.
    - A Python [dict] with string keys is a [gmap string _]; the per-exercise
      state dictionary, whose four first keys are always present, is a record
      whose two last fields are optional keys.
    - A raised exception is the [Raise] case of [result]; every function that
      can raise returns a [result].
    - [time.time()] is an oracle [clock : nat → float]: [clock k] is what the
      (k+1)-th call of [time.time()] made by one invocation returns.
    - [print] calls write to the console only and are left out.
    - The C library's [pow], which [float ** 2] calls, is not correctly
      rounded and differs between platforms: it is an interface of the
      model, the class [Libm], and every property of a function that
      squares holds for every instance of it. *)

From Stdlib Require Import Floats Uint63 ZArith String Ascii List Bool Lia.
From stdpp Require Import gmap strings list.

Set Warnings "-inexact-float,-clear-no-such-hyp".

Local Open Scope Z_scope.

(** ** Exceptions *)

Inductive exn : Type :=
| ValueError (msg : string)
| KeyError (key : string)
| IndexError
| TypeError
| ZeroDivisionError
| OverflowError.

Inductive result (A : Type) : Type :=
| Ok (a : A)
| Raise (e : exn).
Arguments Ok {A} a.
Arguments Raise {A} e.

Global Instance result_ret : MRet result := λ A a, Ok a.
Global Instance result_bind : MBind result := λ A B f m,
  match m with
  | Ok a => f a
  | Raise e => Raise e
  end.

(** ** The C library

    What a call of a C math function leaves in [errno]: nothing, a range
    error or a domain error. *)
Inductive errno : Type :=
| ENONE
| ERANGE
| EDOM.

(** [libm_pow_2 v] is what the platform's [pow(v, 2.0)] returns, with the
    [errno] it leaves, for the finite positive [v] that [float.__pow__]
    hands to it. *)
Class Libm : Type := {
  libm_pow_2 : float → float * errno
}.

(** A C library whose [pow] rounds the square correctly and reports its
    overflow. Every [pow] accurate to less than one unit in the last place
    agrees with it wherever the square is a binary64 value; the concrete
    frames below are evaluated with it. *)
#[global] Instance libm_exact : Libm := {|
  libm_pow_2 v :=
    let ix := PrimFloat.mul v v in
    (ix, if PrimFloat.is_infinity ix then ERANGE else ENONE)
|}.

(** ** Python built-ins used by the sources *)

Module Py.

(** [a == b] on [str]. *)
Definition str_eq (a b : string) : bool := String.eqb a b.

(** [s.startswith(p)]. *)
Definition startswith (s p : string) : bool := String.prefix p s.

(** [s.endswith(p)]. *)
Definition endswith (s p : string) : bool :=
  let n := String.length s in
  let k := String.length p in
  (k <=? n)%nat && String.eqb (String.substring (n - k) k s) p.

(** [s.replace(old, new)] for a non-empty [old]: the occurrences of [old]
    are found from left to right without overlap and each becomes [new].
    [skip] counts the characters of the occurrence being consumed. *)
Fixpoint replace_from (skip : nat) (old new s : string) : string :=
  match s with
  | EmptyString => EmptyString
  | String c s' =>
      match skip with
      | S k => replace_from k old new s'
      | O =>
          if String.prefix old s
          then String.append new (replace_from (String.length old - 1) old new s')
          else String c (replace_from 0 old new s')
      end
  end.

Definition replace (s old new : string) : string := replace_from 0 old new s.


(** [x in t] for a tuple of strings. *)
Definition str_in (x : string) (t : list string) : bool :=
  existsb (str_eq x) t.

(** [t[i]] on a tuple or list with an integer index: negative indices count
    from the end, anything else out of range raises [IndexError]. *)
Definition getitem {A} (t : list A) (i : Z) : result A :=
  let n := Z.of_nat (length t) in
  let j := if i <? 0 then i + n else i in
  if (0 <=? j) && (j <? n)
  then match t !! Z.to_nat j with
       | Some a => Ok a
       | None => Raise IndexError
       end
  else Raise IndexError.

(** [d[k]] on a dict. *)
Definition dict_getitem {V} (d : gmap string V) (k : string) : result V :=
  match d !! k with
  | Some v => Ok v
  | None => Raise (KeyError k)
  end.

(** [max(a, b)] on floats: the second argument wins only if it compares
    greater than the first. *)
Definition max (a b : float) : float :=
  if PrimFloat.ltb a b then b else a.

(** [a >= b], [a > b], [a <= b] and [a < b] on floats. *)
Definition ge (a b : float) : bool := PrimFloat.leb b a.
Definition gt (a b : float) : bool := PrimFloat.ltb b a.
Definition le (a b : float) : bool := PrimFloat.leb a b.
Definition lt (a b : float) : bool := PrimFloat.ltb a b.

(** [a / b] on floats: a zero divisor raises. *)
Definition truediv (a b : float) : result float :=
  if PrimFloat.eqb b 0%float then Raise ZeroDivisionError
  else Ok (PrimFloat.div a b).

(** [x ** 2] on a float, which is CPython's [float_pow] with the exponent
    2.0. NaN, the infinities, zero and, after the sign is dropped, 1.0 are
    answered without the C library. Otherwise the value is that of the
    platform's [pow]; an infinite value counts as a range error, the range
    error of an underflow to zero is forgiven, and a remaining [errno]
    raises [OverflowError] for [ERANGE] and [ValueError] for anything
    else. *)
Definition pow_2 {libm : Libm} (iv : float) : result float :=
  if PrimFloat.is_nan iv then Ok iv
  else if PrimFloat.is_infinity iv then Ok (PrimFloat.abs iv)
  else if PrimFloat.eqb iv 0%float then Ok 0%float
  else
    let iv := if PrimFloat.ltb iv 0%float then PrimFloat.opp iv else iv in
    if PrimFloat.eqb iv 1%float then Ok 1%float
    else
      let '(ix, e) := libm_pow_2 iv in
      let e :=
        match e with
        | ENONE => if PrimFloat.is_infinity ix then ERANGE else ENONE
        | ERANGE => if PrimFloat.eqb ix 0%float then ENONE else ERANGE
        | EDOM => EDOM
        end in
      match e with
      | ENONE => Ok ix
      | ERANGE => Raise OverflowError
      | EDOM => Raise (ValueError "[Errno 33] Numerical argument out of domain")
      end.

(** [math.sqrt(x)]: the correctly rounded square root; a NaN that does not
    come from a NaN, as for a negative [x], and an infinity that comes from
    a finite [x] raise. *)
Definition sqrt (x : float) : result float :=
  let r := PrimFloat.sqrt x in
  if PrimFloat.is_nan r && negb (PrimFloat.is_nan x)
  then Raise (ValueError "math domain error")
  else if PrimFloat.is_infinity r && PrimFloat.is_finite x
  then Raise (ValueError "math domain error")
  else Ok r.

(** The float an integer [len(...)] is converted to when it meets a float. *)
Definition float_of_len (n : nat) : float :=
  PrimFloat.of_uint63 (Uint63.of_Z (Z.of_nat n)).

(** [sum(xs)] on a list of floats: the additions start from [0]. *)
Definition sum (xs : list float) : float :=
  fold_left PrimFloat.add xs 0%float.

(** [not xs] on a list. *)
Definition not_list {A} (xs : list A) : bool :=
  match xs with [] => true | _ => false end.

(** [len(xs) < n]. *)
Definition len_lt {A} (xs : list A) (n : nat) : bool := (length xs <? n)%nat.

End Py.

(** ** state_manager.py *)

(** One value of [StateManager.states]. [sequence_index] and [is_touching]
    are keys that only the thumb-opposition dictionary has, and only until it
    is reset; the code reads them with [.get(key, default)]. *)
Record ExerciseState : Type := {
  current_state : string;
  previous_state : string;
  repetitions : Z;
  last_state_change : float;
  sequence_index : option Z;
  is_touching : option bool;
}.

Record StateManager : Type := {
  states : gmap string ExerciseState;
  MIN_STATE_DURATION : float;
}.

(** Item assignments [exercise_state[key] = v]. *)
Definition set_current_state (v : string) (s : ExerciseState) : ExerciseState :=
  {| current_state := v; previous_state := previous_state s;
     repetitions := repetitions s; last_state_change := last_state_change s;
     sequence_index := sequence_index s; is_touching := is_touching s |}.
Definition set_previous_state (v : string) (s : ExerciseState) : ExerciseState :=
  {| current_state := current_state s; previous_state := v;
     repetitions := repetitions s; last_state_change := last_state_change s;
     sequence_index := sequence_index s; is_touching := is_touching s |}.
Definition set_repetitions (v : Z) (s : ExerciseState) : ExerciseState :=
  {| current_state := current_state s; previous_state := previous_state s;
     repetitions := v; last_state_change := last_state_change s;
     sequence_index := sequence_index s; is_touching := is_touching s |}.
Definition set_last_state_change (v : float) (s : ExerciseState) : ExerciseState :=
  {| current_state := current_state s; previous_state := previous_state s;
     repetitions := repetitions s; last_state_change := v;
     sequence_index := sequence_index s; is_touching := is_touching s |}.
Definition set_sequence_index (v : Z) (s : ExerciseState) : ExerciseState :=
  {| current_state := current_state s; previous_state := previous_state s;
     repetitions := repetitions s; last_state_change := last_state_change s;
     sequence_index := Some v; is_touching := is_touching s |}.
Definition set_is_touching (v : bool) (s : ExerciseState) : ExerciseState :=
  {| current_state := current_state s; previous_state := previous_state s;
     repetitions := repetitions s; last_state_change := last_state_change s;
     sequence_index := sequence_index s; is_touching := Some v |}.

(** [exercise_state.get('sequence_index', 0)] and
    [exercise_state.get('is_touching', False)]. *)
Definition get_sequence_index (s : ExerciseState) : Z := default 0 (sequence_index s).
Definition get_is_touching (s : ExerciseState) : bool := default false (is_touching s).

(** The mutated dictionary is the one stored in [self.states]: writing it back
    under its key is what the aliasing amounts to. *)
Definition store (self : StateManager) (exercise_type : string) (s : ExerciseState)
  : StateManager :=
  {| states := <[exercise_type := s]> (states self);
     MIN_STATE_DURATION := MIN_STATE_DURATION self |}.

(** The state every exercise but the thumb opposition starts in. *)
Definition plain_state (label : string) (now : float) : ExerciseState :=
  {| current_state := label; previous_state := label; repetitions := 0;
     last_state_change := now; sequence_index := None; is_touching := None |}.

(** [StateManager.__init__]. *)
Definition __init__ (clock : nat → float) : StateManager :=
  {| states :=
       <["finger_lifts" := plain_state "NONE" (clock 4%nat)]>
       (<["thumb_opposition" :=
            {| current_state := "TRACKING"; previous_state := "TRACKING";
               repetitions := 0; last_state_change := clock 3%nat;
               sequence_index := Some 0; is_touching := Some false |}]>
       (<["abduction_adduction" := plain_state "CLOSED" (clock 2%nat)]>
       (<["pinch" := plain_state "OPEN" (clock 1%nat)]>
       (<["open_close" := plain_state "OPEN" (clock 0%nat)]> ∅))));
     MIN_STATE_DURATION := 0.2%float |}.

(** The tuple [('INDEX', 'MIDDLE', 'RING', 'PINKY')]. *)
Definition finger_sequence : list string := ["INDEX"; "MIDDLE"; "RING"; "PINKY"].

(** The [+= 1] on the repetition count. *)
Definition count_repetition (s : ExerciseState) : ExerciseState :=
  set_repetitions (repetitions s + 1) s.

(** The three assignments that commit an accepted label. *)
Definition commit (cur new : string) (now : float) (s : ExerciseState) : ExerciseState :=
  set_last_state_change now (set_current_state new (set_previous_state cur s)).

(** [StateManager.update_state]. The result is the returned pair
    [(state_changed, repetitions)] and the manager after the call. *)
Definition update_state (clock : nat → float) (self : StateManager)
    (exercise_type new_state : string) : result (bool * Z * StateManager) :=
  match states self !! exercise_type with
  | None => Raise (ValueError ("Unknown exercise type: " +:+ exercise_type))
  | Some exercise_state =>
    let cur := current_state exercise_state in
    if Py.str_eq exercise_type "thumb_opposition" then
      if Py.startswith new_state "TOUCH_" then
        let finger := Py.replace new_state "TOUCH_" "" in
        expected ← Py.getitem finger_sequence (get_sequence_index exercise_state);
        if Py.str_eq finger expected && negb (get_is_touching exercise_state) then
          let s1 := set_is_touching true exercise_state in
          let s2 := set_sequence_index ((get_sequence_index s1 + 1) `mod` 4) s1 in
          let s3 := if get_sequence_index s2 =? 0 then count_repetition s2 else s2 in
          let s4 := commit cur new_state (clock 0%nat) s3 in
          Ok (true, repetitions s4, store self exercise_type s4)
        else Ok (false, repetitions exercise_state, self)
      else if Py.str_in new_state ["RELEASE"; "TRANSITION"] then
        if get_is_touching exercise_state then
          let s1 := set_is_touching false exercise_state in
          let s2 := commit cur new_state (clock 0%nat) s1 in
          Ok (true, repetitions s2, store self exercise_type s2)
        else Ok (false, repetitions exercise_state, self)
      else Ok (false, repetitions exercise_state, self)
    else if Py.str_eq exercise_type "finger_lifts" then
      let new_state :=
        if Py.str_eq new_state "TRANSITIONING" then "TRANSITION" else new_state in
      if Py.str_eq new_state "TRANSITION" then
        Ok (false, repetitions exercise_state, self)
      else
        let s1 :=
          if Py.endswith cur "_UP" && Py.str_eq new_state "NONE"
          then count_repetition exercise_state else exercise_state in
        if negb (Py.str_eq new_state cur) then
          let s2 := commit cur new_state (clock 0%nat) s1 in
          Ok (true, repetitions s2, store self exercise_type s2)
        else Ok (false, repetitions s1, store self exercise_type s1)
    else
      let time_since_change :=
        PrimFloat.sub (clock 0%nat) (last_state_change exercise_state) in
      let new_state :=
        if Py.str_eq new_state "TRANSITIONING" then "TRANSITION" else new_state in
      if Py.str_eq new_state "TRANSITION" then
        Ok (false, repetitions exercise_state, self)
      else if negb (Py.str_eq new_state cur)
              && Py.ge time_since_change (MIN_STATE_DURATION self) then
        let s1 :=
          if Py.str_in exercise_type ["open_close"; "pinch"] then
            if Py.str_eq cur "CLOSED" && Py.str_eq new_state "OPEN"
            then count_repetition exercise_state else exercise_state
          else if Py.str_eq exercise_type "abduction_adduction" then
            if Py.str_eq cur "CLOSED" && Py.str_eq new_state "SPREAD"
            then count_repetition exercise_state else exercise_state
          else exercise_state in
        let s2 := commit cur new_state (clock 1%nat) s1 in
        Ok (true, repetitions s2, store self exercise_type s2)
      else Ok (false, repetitions exercise_state, self)
  end.

(** [StateManager.reset]. *)
Definition reset (clock : nat → float) (self : StateManager) (exercise_type : string)
  : StateManager :=
  match states self !! exercise_type with
  | Some _ => store self exercise_type (plain_state "OPEN" (clock 0%nat))
  | None => self
  end.

(** [StateManager.get_current_state] and [StateManager.get_repetitions]. *)
Definition get_current_state (self : StateManager) (exercise_type : string) : string :=
  match states self !! exercise_type with
  | Some s => current_state s
  | None => "OPEN"
  end.

Definition get_repetitions (self : StateManager) (exercise_type : string) : Z :=
  match states self !! exercise_type with
  | Some s => repetitions s
  | None => 0
  end.

(** The fixed enumeration of exercise types. *)
Definition exercise_types : list string :=
  ["open_close"; "pinch"; "abduction_adduction"; "thumb_opposition"; "finger_lifts"].


(** ** exercises/: the five detectors

    A landmark is a JSON object, a dictionary from coordinate names to
    numbers; a frame is a list of landmarks. *)

Abbreviation Landmark := (gmap string float).

(** The loop [for x in xs: ys.append(f(x))], stopping at the first raise. *)
Fixpoint for_each {A B} (f : A → result B) (xs : list A) : result (list B) :=
  match xs with
  | [] => Ok []
  | x :: xs' => y ← f x; ys ← for_each f xs'; Ok (y :: ys)
  end.

Module HandOpenCloseDetector.

Definition OPEN_THRESHOLD : float := 0.25.
Definition CLOSED_THRESHOLD : float := 0.15.
Definition WRIST : Z := 0.
Definition FINGERTIPS : list Z := [8; 12; 16; 20].

Definition calculate_distance (point1 point2 : Landmark) : result float :=
  x1 ← Py.dict_getitem point1 "x"; x2 ← Py.dict_getitem point2 "x";
  let dx := PrimFloat.sub x1 x2 in
  y1 ← Py.dict_getitem point1 "y"; y2 ← Py.dict_getitem point2 "y";
  let dy := PrimFloat.sub y1 y2 in
  z1 ← Py.dict_getitem point1 "z"; z2 ← Py.dict_getitem point2 "z";
  let dz := PrimFloat.sub z1 z2 in
  Ok (PrimFloat.sqrt (dx * dx + dy * dy + dz * dz))%float.

(** The body of the [try] block. *)
Definition detect_state_body (landmarks : list Landmark) : result string :=
  wrist ← Py.getitem landmarks WRIST;
  distances ← for_each (λ fingertip_index,
      fingertip ← Py.getitem landmarks fingertip_index;
      calculate_distance wrist fingertip) FINGERTIPS;
  avg_distance ← Py.truediv (Py.sum distances) (Py.float_of_len (length distances));
  if Py.gt avg_distance OPEN_THRESHOLD then Ok "OPEN"
  else if Py.lt avg_distance CLOSED_THRESHOLD then Ok "CLOSED"
  else Ok "TRANSITION".

Definition detect_state (landmarks : list Landmark) : result string :=
  if Py.not_list landmarks || Py.len_lt landmarks 21 then Ok "TRANSITION"
  else
    match detect_state_body landmarks with
    | Ok label => Ok label
    | Raise (KeyError _ | IndexError | TypeError) => Ok "TRANSITION"
    | Raise e => Raise e
    end.

End HandOpenCloseDetector.

Module PinchDetector.

Definition OPEN_THRESHOLD : float := 0.08.
Definition CLOSED_THRESHOLD : float := 0.04.
Definition THUMB_TIP : Z := 4.
Definition INDEX_TIP : Z := 8.

Definition calculate_distance (point1 point2 : Landmark) : result float :=
  x1 ← Py.dict_getitem point1 "x"; x2 ← Py.dict_getitem point2 "x";
  let dx := PrimFloat.sub x1 x2 in
  y1 ← Py.dict_getitem point1 "y"; y2 ← Py.dict_getitem point2 "y";
  let dy := PrimFloat.sub y1 y2 in
  z1 ← Py.dict_getitem point1 "z"; z2 ← Py.dict_getitem point2 "z";
  let dz := PrimFloat.sub z1 z2 in
  Ok (PrimFloat.sqrt (dx * dx + dy * dy + dz * dz))%float.

Definition detect_state_body (landmarks : list Landmark) : result string :=
  thumb ← Py.getitem landmarks THUMB_TIP;
  index ← Py.getitem landmarks INDEX_TIP;
  distance ← calculate_distance thumb index;
  if Py.gt distance OPEN_THRESHOLD then Ok "OPEN"
  else if Py.lt distance CLOSED_THRESHOLD then Ok "CLOSED"
  else Ok "TRANSITION".

Definition detect_state (landmarks : list Landmark) : result string :=
  if Py.not_list landmarks || Py.len_lt landmarks 21 then Ok "TRANSITION"
  else
    match detect_state_body landmarks with
    | Ok label => Ok label
    | Raise (KeyError _ | IndexError | TypeError) => Ok "TRANSITION"
    | Raise e => Raise e
    end.

End PinchDetector.

(** [_dist] and [_palm_size] are written out, with the same body, in each of
    the three classes that normalise by the palm. The two squares are
    [Py.pow_2], evaluated left to right between the lookups, and the root is
    [Py.sqrt]. *)
Module AbductionAdductionDetector.

Definition spread_threshold : float := 0.34.
Definition closed_threshold : float := 0.20.

Definition _dist {libm : Libm} (a b : Landmark) : result float :=
  ax ← Py.dict_getitem a "x"; bx ← Py.dict_getitem b "x";
  sx ← Py.pow_2 (PrimFloat.sub ax bx);
  ay ← Py.dict_getitem a "y"; by_ ← Py.dict_getitem b "y";
  sy ← Py.pow_2 (PrimFloat.sub ay by_);
  Py.sqrt (PrimFloat.add sx sy).

Definition _palm_size {libm : Libm} (landmarks : list Landmark) : result float :=
  if Py.len_lt landmarks 10 then Ok 1.0%float
  else
    l0 ← Py.getitem landmarks 0; l9 ← Py.getitem landmarks 9;
    size ← _dist l0 l9;
    Ok (Py.max size 1e-6%float).

(** One entry of [gaps]. *)
Definition gap {libm : Libm} (landmarks : list Landmark) (i j : Z) (palm : float) : result float :=
  a ← Py.getitem landmarks i; b ← Py.getitem landmarks j;
  d ← _dist a b;
  Py.truediv d palm.

Definition calculate_finger_spread {libm : Libm} (landmarks : list Landmark) : result float :=
  if Py.len_lt landmarks 21 then Ok 0.0%float
  else
    palm ← _palm_size landmarks;
    g1 ← gap landmarks 8 12 palm;
    g2 ← gap landmarks 12 16 palm;
    g3 ← gap landmarks 16 20 palm;
    let gaps := [g1; g2; g3] in
    Py.truediv (Py.sum gaps) (Py.float_of_len (length gaps)).

Definition detect_state {libm : Libm} (landmarks : list Landmark) : result string :=
  if Py.not_list landmarks || Py.len_lt landmarks 21 then Ok "UNKNOWN"
  else
    gap ← calculate_finger_spread landmarks;
    if Py.ge gap spread_threshold then Ok "SPREAD"
    else if Py.le gap closed_threshold then Ok "CLOSED"
    else Ok "TRANSITIONING".

End AbductionAdductionDetector.

Module FingerLiftsDetector.

(** The dictionary [fingers], in its iteration (insertion) order. *)
Definition fingers : list (string * (Z * Z)) :=
  [("INDEX", (8, 6)); ("MIDDLE", (12, 10)); ("RING", (16, 14)); ("PINKY", (20, 18))].
Definition up_threshold : float := 0.055.
Definition down_threshold : float := 0.035.

Definition _dist {libm : Libm} (a b : Landmark) : result float :=
  ax ← Py.dict_getitem a "x"; bx ← Py.dict_getitem b "x";
  sx ← Py.pow_2 (PrimFloat.sub ax bx);
  ay ← Py.dict_getitem a "y"; by_ ← Py.dict_getitem b "y";
  sy ← Py.pow_2 (PrimFloat.sub ay by_);
  Py.sqrt (PrimFloat.add sx sy).

Definition _palm_size {libm : Libm} (landmarks : list Landmark) : result float :=
  if Py.len_lt landmarks 10 then Ok 1.0%float
  else
    l0 ← Py.getitem landmarks 0; l9 ← Py.getitem landmarks 9;
    size ← _dist l0 l9;
    Ok (Py.max size 1e-6%float).

(** The loop over [fingers], threading [(best_finger, best_score)]. *)
Fixpoint best_of (landmarks : list Landmark) (palm : float)
    (items : list (string * (Z * Z))) (best : option string * float)
  : result (option string * float) :=
  match items with
  | [] => Ok best
  | (name, (tip_idx, pip_idx)) :: items' =>
      tip ← Py.getitem landmarks tip_idx;
      pip ← Py.getitem landmarks pip_idx;
      pip_y ← Py.dict_getitem pip "y"; tip_y ← Py.dict_getitem tip "y";
      score ← Py.truediv (PrimFloat.sub pip_y tip_y) palm;
      best_of landmarks palm items'
        (if Py.gt score (snd best) then (Some name, score) else best)
  end.

(** Truth value of [best_finger]: [None] and the empty string are false. *)
Definition truthy (best_finger : option string) : bool :=
  match best_finger with
  | Some name => negb (Py.str_eq name "")
  | None => false
  end.

Definition detect_state {libm : Libm} (landmarks : list Landmark) : result string :=
  if Py.not_list landmarks || Py.len_lt landmarks 21 then Ok "UNKNOWN"
  else
    palm ← _palm_size landmarks;
    best ← best_of landmarks palm fingers (None, 0.0%float);
    let '(best_finger, best_score) := best in
    if truthy best_finger && Py.ge best_score up_threshold
    then Ok (default "" best_finger +:+ "_UP")
    else if Py.le best_score down_threshold then Ok "NONE"
    else Ok "TRANSITION".

End FingerLiftsDetector.

Module ThumbOppositionDetector.

Definition thumb_tip : Z := 4.
Definition finger_tips : gmap string Z :=
  {[ "INDEX" := 8; "MIDDLE" := 12; "RING" := 16; "PINKY" := 20 ]}.
Definition sequence : list string := ["INDEX"; "MIDDLE"; "RING"; "PINKY"].
Definition touch_threshold : float := 0.22.
Definition release_threshold : float := 0.28.

Definition _dist {libm : Libm} (a b : Landmark) : result float :=
  ax ← Py.dict_getitem a "x"; bx ← Py.dict_getitem b "x";
  sx ← Py.pow_2 (PrimFloat.sub ax bx);
  ay ← Py.dict_getitem a "y"; by_ ← Py.dict_getitem b "y";
  sy ← Py.pow_2 (PrimFloat.sub ay by_);
  Py.sqrt (PrimFloat.add sx sy).

Definition _palm_size {libm : Libm} (landmarks : list Landmark) : result float :=
  if Py.len_lt landmarks 10 then Ok 1.0%float
  else
    l0 ← Py.getitem landmarks 0; l9 ← Py.getitem landmarks 9;
    size ← _dist l0 l9;
    Ok (Py.max size 1e-6%float).

Definition detect_state (landmarks : list Landmark) : result string :=
  if Py.not_list landmarks || Py.len_lt landmarks 21 then Ok "UNKNOWN"
  else Ok "TRACKING".

(** The quantity [d] both probes compare: the thumb-tip to fingertip
    distance over the palm size. *)
Definition normalized_distance {libm : Libm} (landmarks : list Landmark) (target_finger : string)
  : result float :=
  palm ← _palm_size landmarks;
  thumb ← Py.getitem landmarks thumb_tip;
  tip_idx ← Py.dict_getitem finger_tips target_finger;
  tip ← Py.getitem landmarks tip_idx;
  dist ← _dist thumb tip;
  Py.truediv dist palm.

Definition detect_touch_target {libm : Libm} (landmarks : list Landmark) (target_finger : string)
  : result bool :=
  d ← normalized_distance landmarks target_finger;
  Ok (Py.le d touch_threshold).

Definition detect_released {libm : Libm} (landmarks : list Landmark) (target_finger : string)
  : result bool :=
  d ← normalized_distance landmarks target_finger;
  Ok (Py.ge d release_threshold).

End ThumbOppositionDetector.

(** ** app.py: the label pipeline of [analyze]

    The JSON request is taken as already read: [landmarks] is the value of
    its ["landmarks"] key and [exercise_type] the stripped selector. The
    response keeps the fields [state], [repetitions] and [state_changed];
    the feedback text is computed apart, by [analyze_feedback]. *)

Record Response : Type := {
  state : string;
  response_repetitions : Z;
  state_changed : bool;
}.

Inductive HttpResult : Type :=
| Success (r : Response)
| Failure (status : Z).

(** The probing loop of the thumb-opposition branch: the first finger of the
    sequence whose touch test answers true; a test that raises is skipped. *)
Fixpoint probe_touched {libm : Libm}
    (landmarks : list Landmark) (seq : list string) : option string :=
  match seq with
  | [] => None
  | finger :: seq' =>
      match ThumbOppositionDetector.detect_touch_target landmarks finger with
      | Ok true => Some finger
      | Ok false => probe_touched landmarks seq'
      | Raise _ => probe_touched landmarks seq'
      end
  end.

(** The label the thumb-opposition branch composes from the touched finger
    and the expected one. *)
Definition compose_label (touched : option string) (expected : string) : string :=
  match touched with
  | Some finger =>
      if Py.str_eq finger expected then "TOUCH_" +:+ finger else "TRANSITION"
  | None => "RELEASE"
  end.

(** The detector chosen for the exercise types that call [detect_state]. *)
Definition detector_detect_state {libm : Libm} (exercise_type : string)
  : option (list Landmark → result string) :=
  if Py.str_eq exercise_type "open_close" then Some HandOpenCloseDetector.detect_state
  else if Py.str_eq exercise_type "pinch" then Some PinchDetector.detect_state
  else if Py.str_eq exercise_type "abduction_adduction"
    then Some AbductionAdductionDetector.detect_state
  else if Py.str_eq exercise_type "thumb_opposition"
    then Some ThumbOppositionDetector.detect_state
  else if Py.str_eq exercise_type "finger_lifts" then Some FingerLiftsDetector.detect_state
  else None.

(** The label of the frame, as [analyze] computes it: composed from the
    probing loop for thumb_opposition, the answer of [detect_state]
    otherwise. No [try] of its own surrounds it, so whatever it raises
    reaches the outer [except Exception]. *)
Definition analyze_label {libm : Libm} (state_manager : StateManager)
    (detect : list Landmark → result string)
    (landmarks : list Landmark) (exercise_type : string) : result string :=
  if Py.str_eq exercise_type "thumb_opposition" then
    let seq := finger_sequence in
    thumb ← Py.dict_getitem (states state_manager) "thumb_opposition";
    expected ← Py.getitem seq (get_sequence_index thumb);
    let touched := probe_touched landmarks seq in
    Ok (compose_label touched expected)
  else detect landmarks.

(** [analyze]: status 400 for missing landmarks, for an unknown exercise type
    and for the [ValueError] of [update_state], which has its own [try];
    status 500 for every other exception, whether the label or
    [update_state] raises it; the manager is the module-level
    [state_manager]. *)
Definition analyze {libm : Libm} (clock : nat → float) (state_manager : StateManager)
    (landmarks : list Landmark) (exercise_type : string)
  : HttpResult * StateManager :=
  if Py.not_list landmarks then (Failure 400, state_manager)
  else
    match detector_detect_state exercise_type with
    | None => (Failure 400, state_manager)
    | Some detect =>
        match analyze_label state_manager detect landmarks exercise_type with
        | Raise _ => (Failure 500, state_manager)
        | Ok current_state =>
            match update_state clock state_manager exercise_type current_state with
            | Ok (changed, reps, state_manager') =>
                (Success {| state := current_state; response_repetitions := reps;
                            state_changed := changed |}, state_manager')
            | Raise (ValueError _) => (Failure 400, state_manager)
            | Raise _ => (Failure 500, state_manager)
            end
        end
    end.

(** ** Sequences of calls and the states they reach *)

Inductive call : Type :=
| Update (clock : nat → float) (exercise_type new_state : string)
| Reset (clock : nat → float) (exercise_type : string).

(** Running a sequence of calls on a manager, stopping at the first raise. *)
Fixpoint run (calls : list call) (self : StateManager) : result StateManager :=
  match calls with
  | [] => Ok self
  | Update clock e l :: calls' =>
      '(_, _, self') ← update_state clock self e l; run calls' self'
  | Reset clock e :: calls' => run calls' (reset clock self e)
  end.

(** The sequence holds no reset. *)
Definition no_reset (calls : list call) : Prop :=
  Forall (λ c, match c with Update _ _ _ => True | Reset _ _ => False end) calls.

(** The managers a program can hold: the fresh one, and what calls of
    [update_state] that return and calls of [reset] make of it. *)
Inductive reachable : StateManager → Prop :=
| reachable_init clock : reachable (__init__ clock)
| reachable_update clock self e l c r self' :
    reachable self →
    update_state clock self e l = Ok (c, r, self') →
    reachable self'
| reachable_reset clock self e :
    reachable self → reachable (reset clock self e).

(** The sequence cursor of a record indexes the four-finger tuple. *)
Definition cursor_ok (s : ExerciseState) : Prop :=
  0 ≤ get_sequence_index s < 4.

(** The touching flag is set exactly while the current label is a touch. *)
Definition touch_consistent (s : ExerciseState) : Prop :=
  get_is_touching s = Py.startswith (current_state s) "TOUCH_".

(** Every exercise type of the enumeration has its record, and the
    thumb-opposition record is coherent. *)
Definition well_formed (self : StateManager) : Prop :=
  (∀ e, e ∈ exercise_types → is_Some (states self !! e))
  ∧ (∀ s, states self !! "thumb_opposition" = Some s → cursor_ok s ∧ touch_consistent s)
  ∧ MIN_STATE_DURATION self = 0.2%float.

(** The label is one of the two in-between labels. *)
Definition is_transition (l : string) : Prop :=
  l = "TRANSITION" ∨ l = "TRANSITIONING".

(** The edge of an exercise's cycle that completes a repetition under the
    debounce rule. *)
Definition closing_edge (e cur new : string) : Prop :=
  cur = "CLOSED" ∧
  ((e = "open_close" ∨ e = "pinch") ∧ new = "OPEN"
   ∨ e = "abduction_adduction" ∧ new = "SPREAD").

(** The two label sequences the finger_lifts property names, each call with
    its own clock. *)
Definition lift_index (c1 c2 : nat → float) : list call :=
  [Update c1 "finger_lifts" "INDEX_UP"; Update c2 "finger_lifts" "NONE"].

Definition lift_index_middle (c1 c2 c3 : nat → float) : list call :=
  [Update c1 "finger_lifts" "INDEX_UP"; Update c2 "finger_lifts" "MIDDLE_UP";
   Update c3 "finger_lifts" "NONE"].

(** The eight-label sequence of one thumb-opposition cycle; [clocks k] is the
    clock of the k-th call. *)
Definition thumb_cycle (clocks : nat → nat → float) : list call :=
  [Update (clocks 0%nat) "thumb_opposition" "TOUCH_INDEX";
   Update (clocks 1%nat) "thumb_opposition" "RELEASE";
   Update (clocks 2%nat) "thumb_opposition" "TOUCH_MIDDLE";
   Update (clocks 3%nat) "thumb_opposition" "RELEASE";
   Update (clocks 4%nat) "thumb_opposition" "TOUCH_RING";
   Update (clocks 5%nat) "thumb_opposition" "RELEASE";
   Update (clocks 6%nat) "thumb_opposition" "TOUCH_PINKY";
   Update (clocks 7%nat) "thumb_opposition" "RELEASE"].

(** Every call of the sequence is an [update_state] on an exercise type of
    the enumeration. *)
Definition known_updates (calls : list call) : Prop :=
  Forall (λ c, match c with
               | Update _ e _ => e ∈ exercise_types
               | Reset _ _ => False
               end) calls.

(** ** Frames used as concrete inputs *)

(** A landmark with its three coordinates. *)
Definition point (x y z : float) : Landmark :=
  {[ "x" := x; "y" := y; "z" := z ]}.

(** Twenty-one landmarks at one and the same place. *)
Definition frame_coincident : list Landmark :=
  replicate 21 (point 0.5 0.5 0).

(** Twenty-one landmarks that all lack their ["x"] and ["y"] fields. *)
Definition frame_malformed : list Landmark :=
  replicate 21 ({[ "z" := 0%float ]} : Landmark).

(** A frame of palm size 1 (wrist at the origin, middle-finger base one unit
    above it) whose thumb tip is at the origin and whose four fingertips are
    at distance 0.25 from it. *)
Definition frame_between : list Landmark :=
  let o := point 0 0 0 in
  let tip := point 0.25 0 0 in
  [o; o; o; o; o; o; o; o; tip; point 0 1 0; o; o; tip; o; o; o; tip; o; o; o; tip].

(** The exceptions the [try] blocks of the open_close and pinch detectors
    catch. *)
Definition caught (e : exn) : Prop :=
  match e with
  | KeyError _ | IndexError | TypeError => True
  | _ => False
  end.

(** ** Further invariants of the managers a program can hold *)

(** The records are those of the five exercise types and no other. *)
Definition exact_domain (self : StateManager) : Prop :=
  ∀ e, is_Some (states self !! e) ↔ e ∈ exercise_types.

(** No count is negative. *)
Definition counts_nonneg (self : StateManager) : Prop :=
  ∀ e st, states self !! e = Some st → 0 ≤ repetitions st.

(** Outside thumb_opposition no record holds an in-between label, a cursor
    or a touching flag. *)
Definition plain_records (self : StateManager) : Prop :=
  ∀ e st, states self !! e = Some st → e ≠ "thumb_opposition" →
    ¬ is_transition (current_state st)
    ∧ sequence_index st = None ∧ is_touching st = None.

(** ** The feedback texts *)

(** [c.lower()] on one character and [s.lower()] on a string of ASCII
    characters, which all labels and finger names of the program are. *)
Definition ascii_lower (c : ascii) : ascii :=
  let n := nat_of_ascii c in
  if (65 <=? n)%nat && (n <=? 90)%nat then ascii_of_nat (n + 32) else c.

Fixpoint str_lower (s : string) : string :=
  match s with
  | EmptyString => EmptyString
  | String c s' => String (ascii_lower c) (str_lower s')
  end.

(** [d.get(k, default)] on a dict. *)
Definition dict_get {V} (d : gmap string V) (k : string) (dflt : V) : V :=
  default dflt (d !! k).

(** [HandOpenCloseDetector.generate_feedback]. *)
Definition open_close_generate_feedback (state : string) (state_changed : bool) : string :=
  if negb state_changed then ""
  else
    let feedback_messages : gmap string string :=
      {[ "OPEN" := "Magaling! Bukas na ang kamay";
         "CLOSED" := "Magaling! Sarado na ang kamay";
         "TRANSITION" := "Ipagpatuloy..." ]} in
    dict_get feedback_messages state "".

(** [PinchDetector.generate_feedback]. *)
Definition pinch_generate_feedback (state : string) (state_changed : bool) : string :=
  if negb state_changed then ""
  else
    let feedback_messages : gmap string string :=
      {[ "OPEN" := "Magaling! Hiwalay ang mga daliri";
         "CLOSED" := "Perpekto ang pagkapit!";
         "TRANSITION" := "Ipagpatuloy..." ]} in
    dict_get feedback_messages state "".

(** [AbductionAdductionDetector.get_feedback]. *)
Definition abduction_adduction_get_feedback (state : string) : string :=
  let feedback_map : gmap string string :=
    {[ "SPREAD" := "Maganda! Ikalat ang mga daliri mo.";
       "CLOSED" := "Maayos! Magkabig na ang mga daliri.";
       "TRANSITIONING" := "Konti na lang!";
       "UNKNOWN" := "Hindi mahanap ang kamay." ]} in
  dict_get feedback_map state "Hindi mahanap ang kamay.".

(** [FingerLiftsDetector.get_feedback]. *)
Definition finger_lifts_get_feedback (state : string) : string :=
  if Py.endswith state "_UP" then
    let finger := str_lower (Py.replace state "_UP" "") in
    "Good! Lift the " +:+ finger +:+ " finger."
  else if Py.str_eq state "NONE" then "Keep your hand flat, then lift one finger."
  else if Py.str_eq state "TRANSITION" then "Slow and steady."
  else "Hand not detected.".

(** [ThumbOppositionDetector.get_feedback]. *)
Definition thumb_opposition_get_feedback (phase target_finger : string) : string :=
  if Py.str_eq phase "TOUCH" then
    "Good! Thumb to " +:+ str_lower target_finger +:+ " finger."
  else if Py.str_eq phase "RELEASE" then "Release, then go to the next finger."
  else "Move slowly and touch each finger in order.".

(** The [phase] the thumb-opposition branch of [analyze] sets beside its
    label. *)
Definition compose_phase (touched : option string) (expected : string) : string :=
  match touched with
  | Some finger => if Py.str_eq finger expected then "TOUCH" else "TRANSITION"
  | None => "RELEASE"
  end.

(** [hasattr(detector, 'get_feedback')] for the detector of an exercise
    type: the open_close and pinch detectors have [generate_feedback]
    instead. *)
Definition has_get_feedback (exercise_type : string) : bool :=
  negb (Py.str_in exercise_type ["open_close"; "pinch"]).

(** The [feedback] field of the response of [analyze], when it answers with
    a result: for thumb_opposition the text of the phase and of the finger
    expected before the update, otherwise the text of the detector for the
    label, which for open_close and pinch also reads [state_changed]. *)
Definition analyze_feedback {libm : Libm} (clock : nat → float) (state_manager : StateManager)
    (landmarks : list Landmark) (exercise_type : string) : option string :=
  match analyze clock state_manager landmarks exercise_type with
  | (Success r, _) =>
      if Py.str_eq exercise_type "thumb_opposition" then
        match
          thumb ← Py.dict_getitem (states state_manager) "thumb_opposition";
          Py.getitem finger_sequence (get_sequence_index thumb)
        with
        | Ok expected =>
            Some (thumb_opposition_get_feedback
                    (compose_phase (probe_touched landmarks finger_sequence) expected)
                    expected)
        | Raise _ => None
        end
      else if has_get_feedback exercise_type then
        if Py.str_eq exercise_type "abduction_adduction"
        then Some (abduction_adduction_get_feedback (state r))
        else Some (finger_lifts_get_feedback (state r))
      else if Py.str_eq exercise_type "open_close"
        then Some (open_close_generate_feedback (state r) (state_changed r))
        else Some (pinch_generate_feedback (state r) (state_changed r))
  | (Failure _, _) => None
  end.

(** ** Vocabulary for the properties of the detectors *)

(** The landmark has its ["x"] and ["y"] fields. *)
Definition has_xy (p : Landmark) : Prop :=
  is_Some (p !! "x") ∧ is_Some (p !! "y").

(** The exception of a lookup of ["x"] or ["y"] in a landmark that lacks it. *)
Definition missing_coordinate (ex : exn) : Prop :=
  ex = KeyError "x" ∨ ex = KeyError "y".

(** The exceptions of the arithmetic of [_dist]: the [OverflowError] of a
    square that overflows and the [ValueError] of a C library call that
    reports a domain error. *)
Definition arithmetic_error (ex : exn) : Prop :=
  ex = OverflowError ∨ ∃ msg, ex = ValueError msg.

(** A frame like [frame_between] but for its middle-finger base, which is
    1e200 above the wrist: the square of that difference overflows. *)
Definition frame_huge : list Landmark :=
  <[9%nat := point 0 1e200 0]> frame_between.

(** The landmarks the abduction_adduction detector reads: wrist,
    middle-finger base and the four fingertips. *)
Definition abduction_points : list nat := [0; 9; 8; 12; 16; 20]%nat.

(** The score the finger_lifts loop computes for one finger. *)
Definition finger_score (landmarks : list Landmark) (palm : float) (tip_idx pip_idx : Z)
  : result float :=
  tip ← Py.getitem landmarks tip_idx;
  pip ← Py.getitem landmarks pip_idx;
  pip_y ← Py.dict_getitem pip "y"; tip_y ← Py.dict_getitem tip "y";
  Py.truediv (PrimFloat.sub pip_y tip_y) palm.

(** The outcome of a float comparison read as "at most" and as "below". *)
Definition le_code (c : option comparison) : bool :=
  match c with Some Lt | Some Eq => true | _ => false end.
Definition lt_code (c : option comparison) : bool :=
  match c with Some Lt => true | _ => false end.

(** What the finger_lifts loop knows of [best] once it has gone through the
    fingers [seen]: the best score is not negative, it is 0 with no best
    finger or the score of the best finger, which is one of [seen], and no
    finger of [seen] scores above it. *)
Definition best_so_far (landmarks : list Landmark) (palm : float)
    (seen : list (string * (Z * Z))) (best : option string * float) : Prop :=
  PrimFloat.ltb (snd best) 0 = false
  ∧ (fst best = None
     ∨ ∃ name tip pip, (name, (tip, pip)) ∈ seen ∧ fst best = Some name
         ∧ finger_score landmarks palm tip pip = Ok (snd best))
  ∧ ∀ name tip pip, (name, (tip, pip)) ∈ seen →
      ∃ s, finger_score landmarks palm tip pip = Ok s
        ∧ Py.gt s (snd best) = false.

(** The two frames hold the same landmark at every index of [idxs]. *)
Definition agree_on (idxs : list nat) (landmarks landmarks' : list Landmark) : Prop :=
  ∀ i, i ∈ idxs → landmarks !! i = landmarks' !! i.

(** The landmarks each detector names: the wrist and the four fingertips,
    the thumb and index tips, and for finger_lifts the wrist, the
    middle-finger base and the tip and middle joint of four fingers. *)
Definition open_close_points : list nat := [0; 8; 12; 16; 20]%nat.
Definition pinch_points : list nat := [4; 8]%nat.
Definition finger_lifts_points : list nat := [0; 9; 8; 6; 12; 10; 16; 14; 20; 18]%nat.
Example replace_touch : Py.replace "TOUCH_INDEX" "TOUCH_" "" = "INDEX".
Proof. reflexivity. Qed.

Example endswith_up : Py.endswith "INDEX_UP" "_UP" = true ∧ Py.endswith "NONE" "_UP" = false.
Proof. split; reflexivity. Qed.

(** ** Basic facts about the built-ins *)

Lemma str_eq_spec (a b : string) : reflect (a = b) (Py.str_eq a b).
Proof. unfold Py.str_eq. apply String.eqb_spec. Qed.

Lemma str_eq_true (a b : string) : Py.str_eq a b = true ↔ a = b.
Proof. unfold Py.str_eq. apply String.eqb_eq. Qed.

Lemma str_eq_false (a b : string) : Py.str_eq a b = false ↔ a ≠ b.
Proof. unfold Py.str_eq. apply String.eqb_neq. Qed.

Lemma str_eq_refl (a : string) : Py.str_eq a a = true.
Proof. by apply str_eq_true. Qed.

Lemma store_id (self : StateManager) (e : string) (s : ExerciseState) :
  states self !! e = Some s → store self e s = self.
Proof.
  intros Hs. destruct self as [m d]. unfold store; simpl in *.
  f_equal. by apply insert_id.
Qed.

Lemma states_store (self : StateManager) (e : string) (s : ExerciseState) :
  states (store self e s) = <[e := s]> (states self).
Proof. reflexivity. Qed.

Lemma get_repetitions_store (self : StateManager) (e e' : string) (s : ExerciseState) :
  get_repetitions (store self e s) e' =
  if decide (e = e') then repetitions s else get_repetitions self e'.
Proof.
  unfold get_repetitions. rewrite states_store, lookup_insert.
  by case_decide.
Qed.

Lemma get_repetitions_store_eq (self : StateManager) (e : string) (s : ExerciseState) :
  get_repetitions (store self e s) e = repetitions s.
Proof. rewrite get_repetitions_store. by rewrite decide_True. Qed.

Lemma get_current_state_store (self : StateManager) (e e' : string) (s : ExerciseState) :
  get_current_state (store self e s) e' =
  if decide (e = e') then current_state s else get_current_state self e'.
Proof.
  unfold get_current_state. rewrite states_store, lookup_insert.
  by case_decide.
Qed.

Lemma get_current_state_store_eq (self : StateManager) (e : string) (s : ExerciseState) :
  get_current_state (store self e s) e = current_state s.
Proof. rewrite get_current_state_store. by rewrite decide_True. Qed.

(** Tactic: case analysis on the next string comparison of the goal. *)
Ltac str_case :=
  match goal with
  | |- context [Py.str_eq ?a ?b] =>
      destruct (str_eq_spec a b); simplify_eq; simpl
  end.

(** ** What one call can do to the store *)

Lemma endswith_none_up (l cur : string) :
  l = cur → Py.endswith cur "_UP" && Py.str_eq l "NONE" = false.
Proof.
  intros ->. destruct (str_eq_spec cur "NONE") as [->|]; [reflexivity|].
  apply andb_false_r.
Qed.

(** Every returning call touches at most the record of its exercise, and
    leaves the count alone or adds one to it; a call that reports no change
    leaves the record as it was. *)
Lemma update_state_cases (clock : nat → float) (self self' : StateManager)
    (e l : string) (c : bool) (r : Z) :
  update_state clock self e l = Ok (c, r, self') →
  ∃ st st', states self !! e = Some st
    ∧ self' = store self e st'
    ∧ r = repetitions st'
    ∧ (repetitions st' = repetitions st ∨ repetitions st' = repetitions st + 1)
    ∧ (c = false → st' = st).
Proof.
  unfold update_state.
  destruct (states self !! e) as [st|] eqn:Hst; [|discriminate].
  intros H. exists st.
  assert (Hid : store self e st = self) by by apply store_id.
  destruct (Py.str_eq e "thumb_opposition").
  - destruct (Py.startswith l "TOUCH_").
    + destruct (Py.getitem _ _) as [expected|]; [|discriminate]. simpl in H.
      destruct (_ && _).
      * simplify_eq. eexists; split_and!; try done.
        simpl. destruct (_ =? _); simpl; lia.
      * simplify_eq. exists st. rewrite Hid. split_and!; auto.
    + destruct (Py.str_in _ _); [destruct (get_is_touching st)|];
        simplify_eq; try (exists st; rewrite Hid; split_and!; by auto).
      eexists; split_and!; try done. simpl; lia.
  - destruct (Py.str_eq e "finger_lifts").
    + destruct (Py.str_eq (if Py.str_eq l "TRANSITIONING" then _ else _) _);
        [simplify_eq; exists st; rewrite Hid; split_and!; by auto|].
      set (l' := if Py.str_eq l "TRANSITIONING" then _ else _) in *.
      destruct (str_eq_spec l' (current_state st)) as [Heq|Hne]; simpl in H.
      * rewrite (endswith_none_up _ _ Heq) in H. simplify_eq.
        exists st. split_and!; by auto.
      * simplify_eq. eexists; split_and!; try done.
        simpl. destruct (_ && _); simpl; lia.
    + destruct (Py.str_eq (if Py.str_eq l "TRANSITIONING" then _ else _) _);
        [simplify_eq; exists st; rewrite Hid; split_and!; by auto|].
      destruct (_ && _); simplify_eq;
        [|exists st; rewrite Hid; split_and!; by auto].
      eexists; split_and!; try done.
      simpl. repeat (destruct (_ : bool); simpl); lia.
Qed.

(** ** The debounce rule of open_close, pinch and abduction_adduction *)

Lemma is_transition_normalized (l : string) :
  Py.str_eq (if Py.str_eq l "TRANSITIONING" then "TRANSITION" else l) "TRANSITION" = true
  ↔ is_transition l.
Proof.
  unfold is_transition. destruct (str_eq_spec l "TRANSITIONING") as [->|Hn].
  - split; [by right | reflexivity].
  - rewrite str_eq_true. naive_solver.
Qed.

Lemma not_transition_normalized (l : string) :
  ¬ is_transition l →
  (if Py.str_eq l "TRANSITIONING" then "TRANSITION" else l) = l
  ∧ Py.str_eq l "TRANSITION" = false.
Proof.
  unfold is_transition. intros Hn.
  destruct (str_eq_spec l "TRANSITIONING") as [->|_]; [naive_solver|].
  split; [done|]. apply str_eq_false. naive_solver.
Qed.

(** The counting test of the debounced branch, as a proposition. *)
Lemma closing_edge_count (e cur l : string) (st : ExerciseState) :
  e ∈ ["open_close"; "pinch"; "abduction_adduction"] →
  ∃ b : bool,
    (if Py.str_in e ["open_close"; "pinch"] then
       if Py.str_eq cur "CLOSED" && Py.str_eq l "OPEN"
       then count_repetition st else st
     else if Py.str_eq e "abduction_adduction" then
       if Py.str_eq cur "CLOSED" && Py.str_eq l "SPREAD"
       then count_repetition st else st
     else st) = (if b then count_repetition st else st)
    ∧ (b = true ↔ closing_edge e cur l).
Proof.
  intros He. unfold closing_edge.
  repeat (apply elem_of_cons in He as [->|He]); [| | |by apply elem_of_nil in He];
    cbn [Py.str_in existsb].
  - exists (Py.str_eq cur "CLOSED" && Py.str_eq l "OPEN"). split; [reflexivity|].
    rewrite andb_true_iff, !str_eq_true. naive_solver.
  - exists (Py.str_eq cur "CLOSED" && Py.str_eq l "OPEN"). split; [reflexivity|].
    rewrite andb_true_iff, !str_eq_true. naive_solver.
  - exists (Py.str_eq cur "CLOSED" && Py.str_eq l "SPREAD"). split; [reflexivity|].
    rewrite andb_true_iff, !str_eq_true. naive_solver.
Qed.

(** [update_state] on one of the three debounced exercise types. *)
Lemma update_debounced (clock : nat → float) (self : StateManager) (e l : string)
    (st : ExerciseState) :
  e ∈ ["open_close"; "pinch"; "abduction_adduction"] →
  states self !! e = Some st →
  update_state clock self e l =
    let l' := if Py.str_eq l "TRANSITIONING" then "TRANSITION" else l in
    if Py.str_eq l' "TRANSITION" then Ok (false, repetitions st, self)
    else if negb (Py.str_eq l' (current_state st))
            && Py.ge (PrimFloat.sub (clock 0%nat) (last_state_change st))
                 (MIN_STATE_DURATION self)
    then
      let s1 :=
        if Py.str_in e ["open_close"; "pinch"] then
          if Py.str_eq (current_state st) "CLOSED" && Py.str_eq l' "OPEN"
          then count_repetition st else st
        else if Py.str_eq e "abduction_adduction" then
          if Py.str_eq (current_state st) "CLOSED" && Py.str_eq l' "SPREAD"
          then count_repetition st else st
        else st in
      let s2 := commit (current_state st) l' (clock 1%nat) s1 in
      Ok (true, repetitions s2, store self e s2)
    else Ok (false, repetitions st, self).
Proof.
  intros He Hst. unfold update_state. rewrite Hst.
  repeat (apply elem_of_cons in He as [->|He]); [| | |by apply elem_of_nil in He];
    reflexivity.
Qed.

(** A label equal to the current one changes nothing under the debounce
    rule. *)
Lemma update_debounced_same_label (clock : nat → float) (self : StateManager)
    (e : string) (st : ExerciseState) :
  e ∈ ["open_close"; "pinch"; "abduction_adduction"] →
  states self !! e = Some st →
  update_state clock self e (current_state st) = Ok (false, repetitions st, self).
Proof.
  intros He Hst. rewrite (update_debounced clock self e _ st He Hst). cbv zeta.
  destruct (Py.str_eq (if Py.str_eq _ _ then _ else _) "TRANSITION") eqn:Ht; [done|].
  destruct (str_eq_spec (current_state st) "TRANSITIONING") as [Heq|_].
  - discriminate Ht.
  - by rewrite str_eq_refl.
Qed.

(** C1. For open_close, pinch and abduction_adduction: a TRANSITION or
    TRANSITIONING label is ignored; a label equal to the current one changes
    nothing; a different label is dropped unless at least 0.2 s (the
    [MIN_STATE_DURATION]) passed since the last accepted change. An accepted
    label is written to the manager: the record read back for the exercise
    type has the label as its current one, the replaced label as its
    previous one and the second clock reading as its timestamp, the readers
    answer the label and the returned count, and no other record is touched.
    The count grows by one exactly on CLOSED → OPEN (open_close, pinch) or
    CLOSED → SPREAD (abduction_adduction). *)
Theorem debounce_rule (clock : nat → float) (self : StateManager) (e l : string)
    (st : ExerciseState) :
  e ∈ ["open_close"; "pinch"; "abduction_adduction"] →
  states self !! e = Some st →
  MIN_STATE_DURATION self = 0.2%float →
  (is_transition l → update_state clock self e l = Ok (false, repetitions st, self))
  ∧ (l = current_state st →
       update_state clock self e l = Ok (false, repetitions st, self))
  ∧ (¬ is_transition l → l ≠ current_state st →
       PrimFloat.leb 0.2 (PrimFloat.sub (clock 0%nat) (last_state_change st)) = false →
       update_state clock self e l = Ok (false, repetitions st, self))
  ∧ (¬ is_transition l → l ≠ current_state st →
       PrimFloat.leb 0.2 (PrimFloat.sub (clock 0%nat) (last_state_change st)) = true →
       ∃ r self' st',
         update_state clock self e l = Ok (true, r, self')
         ∧ states self' !! e = Some st'
         ∧ (∀ e', e' ≠ e → states self' !! e' = states self !! e')
         ∧ MIN_STATE_DURATION self' = MIN_STATE_DURATION self
         ∧ get_current_state self' e = l
         ∧ get_repetitions self' e = r
         ∧ current_state st' = l
         ∧ previous_state st' = current_state st
         ∧ last_state_change st' = clock 1%nat
         ∧ repetitions st' = r
         ∧ sequence_index st' = sequence_index st
         ∧ is_touching st' = is_touching st
         ∧ (closing_edge e (current_state st) l → r = repetitions st + 1)
         ∧ (¬ closing_edge e (current_state st) l → r = repetitions st)).
Proof.
  intros He Hst Hmin.
  pose proof (update_debounced clock self e l st He Hst) as Hgen.
  rewrite Hmin in Hgen. unfold Py.ge in Hgen. cbv zeta in Hgen.
  split_and!.
  - intros Ht. rewrite Hgen. apply is_transition_normalized in Ht. by rewrite Ht.
  - intros ->. by apply update_debounced_same_label.
  - intros Hnt Hne Hel. rewrite Hgen.
    destruct (not_transition_normalized l Hnt) as [-> ->].
    by rewrite Hel, andb_false_r.
  - intros Hnt Hne Hel. rewrite Hgen.
    destruct (not_transition_normalized l Hnt) as [-> ->].
    apply str_eq_false in Hne. rewrite Hne, Hel. cbn [negb andb].
    destruct (closing_edge_count e (current_state st) l st He) as (b & -> & Hb).
    eexists _, _, _. split; [reflexivity|].
    split_and!.
    + apply lookup_insert_eq.
    + intros e' Hne'. cbn [store states]. by rewrite lookup_insert_ne.
    + reflexivity.
    + unfold get_current_state. cbn [store states]. by rewrite lookup_insert_eq.
    + unfold get_repetitions. cbn [store states]. by rewrite lookup_insert_eq.
    + reflexivity.
    + by destruct b.
    + reflexivity.
    + reflexivity.
    + by destruct b.
    + by destruct b.
    + intros H. apply Hb in H as ->. reflexivity.
    + intros H. destruct b; [|reflexivity]. destruct H. by apply Hb.
Qed.

Lemma debounce_rule_witness :
  let self := __init__ (λ _, 0%float) in
  let clock := λ _ : nat, 1%float in
  PrimFloat.leb 0.2 (PrimFloat.sub (clock 0%nat) 0) = true
  ∧ update_state clock self "open_close" "TRANSITIONING" = Ok (false, 0, self)
  ∧ ∃ self' st', update_state clock self "open_close" "CLOSED" = Ok (true, 0, self')
      ∧ states self' !! "open_close" = Some st'
      ∧ get_current_state self' "open_close" = "CLOSED"
      ∧ get_repetitions self' "open_close" = 0
      ∧ previous_state st' = "OPEN"
      ∧ last_state_change st' = 1%float.
Proof.
  cbv zeta. split; [reflexivity|].
  destruct (debounce_rule (λ _, 1%float) (__init__ (λ _, 0%float)) "open_close" "CLOSED"
              (plain_state "OPEN" 0%float)) as (_ & _ & _ & Hacc);
    [repeat constructor | reflexivity | reflexivity |].
  destruct (debounce_rule (λ _, 1%float) (__init__ (λ _, 0%float)) "open_close"
              "TRANSITIONING" (plain_state "OPEN" 0%float)) as (Htr & _);
    [repeat constructor | reflexivity | reflexivity |].
  split; [apply Htr; by right|].
  destruct Hacc as (r & self' & st' & Hup & Hst' & _ & _ & Hcur & Hrep & _ & Hprev
                    & Hlast & _ & _ & _ & _ & Hcount).
  - by intros [|].
  - discriminate.
  - reflexivity.
  - assert (Hr : r = 0).
    { apply Hcount. unfold closing_edge. intros [Hc _]. discriminate Hc. }
    rewrite Hr in Hup, Hrep.
    exists self', st'. split_and!; done.
Defined.

(** ** The finger_lifts rule *)

Lemma lookup_store_eq (self : StateManager) (e : string) (s : ExerciseState) :
  states (store self e s) !! e = Some s.
Proof. apply lookup_insert_eq. Qed.

Lemma lookup_store_ne (self : StateManager) (e e' : string) (s : ExerciseState) :
  e ≠ e' → states (store self e s) !! e' = states self !! e'.
Proof. intros. by apply lookup_insert_ne. Qed.

(** An in-between label on finger_lifts. *)
Lemma update_finger_lifts_transition (clock : nat → float) (self : StateManager)
    (st : ExerciseState) (l : string) :
  states self !! "finger_lifts" = Some st →
  is_transition l →
  update_state clock self "finger_lifts" l = Ok (false, repetitions st, self).
Proof.
  intros Hst Ht. unfold update_state. rewrite Hst.
  apply is_transition_normalized in Ht.
  cbn [Py.str_eq String.eqb Ascii.eqb Bool.eqb] in *. by rewrite Ht.
Qed.

(** One call on finger_lifts with a label that is not an in-between one. *)
Lemma update_finger_lifts (clock : nat → float) (self : StateManager)
    (st : ExerciseState) (l : string) :
  states self !! "finger_lifts" = Some st →
  ¬ is_transition l →
  ∃ st',
    update_state clock self "finger_lifts" l =
      Ok (negb (Py.str_eq l (current_state st)), repetitions st',
          store self "finger_lifts" st')
    ∧ current_state st' = l
    ∧ (l ≠ current_state st →
         previous_state st' = current_state st ∧ last_state_change st' = clock 0%nat)
    ∧ (l = current_state st → st' = st)
    ∧ sequence_index st' = sequence_index st
    ∧ is_touching st' = is_touching st
    ∧ repetitions st' = repetitions st +
        (if Py.endswith (current_state st) "_UP" && Py.str_eq l "NONE" then 1 else 0).
Proof.
  intros Hst Hnt. unfold update_state. rewrite Hst. cbn [Py.str_eq String.eqb Ascii.eqb Bool.eqb].
  fold (Py.str_eq l "TRANSITIONING").
  destruct (not_transition_normalized l Hnt) as [-> Hf].
  fold (Py.str_eq l "TRANSITION"). rewrite Hf.
  fold (Py.str_eq l (current_state st)). fold (Py.str_eq l "NONE").
  destruct (str_eq_spec l (current_state st)) as [Heq|Hne]; cbn [negb].
  - rewrite (endswith_none_up _ _ Heq). exists st. split_and!; try done. lia.
  - eexists. split; [reflexivity|].
    split_and!; try (by destruct (_ && _)).
    destruct (_ && _); simpl; lia.
Qed.

(** The state of finger_lifts after one call with a plain label: the label
    is the current one and the count grew by one exactly on an [_UP] to NONE
    edge. *)
Lemma run_finger_lifts_step (clock : nat → float) (self : StateManager)
    (st : ExerciseState) (l : string) (calls : list call) :
  states self !! "finger_lifts" = Some st →
  ¬ is_transition l →
  ∃ self' st',
    run (Update clock "finger_lifts" l :: calls) self = run calls self'
    ∧ states self' !! "finger_lifts" = Some st'
    ∧ current_state st' = l
    ∧ repetitions st' = repetitions st +
        (if Py.endswith (current_state st) "_UP" && Py.str_eq l "NONE" then 1 else 0).
Proof.
  intros Hst Hnt.
  destruct (update_finger_lifts clock self st l Hst Hnt)
    as (st' & Hup & Hcur & _ & _ & _ & _ & Hrep).
  exists (store self "finger_lifts" st'), st'.
  cbn [run]. rewrite Hup. split_and!; try done. apply lookup_store_eq.
Qed.

(** C3. finger_lifts has no time debounce: TRANSITION and TRANSITIONING are
    ignored; any other label different from the current one is committed
    whatever the clock says, and the count grows by one exactly when the
    label being replaced ends in [_UP] and the new one is NONE; so INDEX_UP
    then NONE counts one repetition, and so does INDEX_UP, MIDDLE_UP, NONE. *)
Theorem finger_lifts_rule (clock : nat → float) (self : StateManager)
    (st : ExerciseState) (l : string) :
  states self !! "finger_lifts" = Some st →
  (is_transition l →
     update_state clock self "finger_lifts" l = Ok (false, repetitions st, self))
  ∧ (¬ is_transition l → l = current_state st →
     update_state clock self "finger_lifts" l = Ok (false, repetitions st, self))
  ∧ (¬ is_transition l → l ≠ current_state st →
     ∃ st', update_state clock self "finger_lifts" l =
              Ok (true, repetitions st', store self "finger_lifts" st')
       ∧ current_state st' = l
       ∧ previous_state st' = current_state st
       ∧ last_state_change st' = clock 0%nat
       ∧ (Py.endswith (current_state st) "_UP" = true ∧ l = "NONE" →
            repetitions st' = repetitions st + 1)
       ∧ (¬ (Py.endswith (current_state st) "_UP" = true ∧ l = "NONE") →
            repetitions st' = repetitions st))
  ∧ (∀ c1 c2, ∃ self',
       run (lift_index c1 c2) self = Ok self'
       ∧ get_repetitions self' "finger_lifts" = repetitions st + 1)
  ∧ (∀ c1 c2 c3, ∃ self',
       run (lift_index_middle c1 c2 c3) self = Ok self'
       ∧ get_repetitions self' "finger_lifts" = repetitions st + 1).
Proof.
  intros Hst. split_and!.
  - by apply update_finger_lifts_transition.
  - intros Hnt Heq.
    destruct (update_finger_lifts clock self st l Hst Hnt)
      as (st' & Hup & _ & _ & Hsame & _).
    rewrite Hup, (Hsame Heq), (store_id _ _ _ Hst).
    apply str_eq_true in Heq. by rewrite Heq.
  - intros Hnt Hne.
    destruct (update_finger_lifts clock self st l Hst Hnt)
      as (st' & Hup & Hcur & Hprev & _ & _ & _ & Hrep).
    destruct (Hprev Hne) as [Hp Hl].
    exists st'. rewrite Hup. apply str_eq_false in Hne. rewrite Hne.
    split_and!; try done.
    + intros [Hu ->]. rewrite Hrep, Hu. reflexivity.
    + intros Hn. rewrite Hrep.
      destruct (Py.endswith _ _) eqn:Hu; [|simpl; lia].
      destruct (str_eq_spec l "NONE") as [->|_]; [|simpl; lia].
      by destruct Hn.
  - intros c1 c2. unfold lift_index.
    destruct (run_finger_lifts_step c1 self st "INDEX_UP"
                [Update c2 "finger_lifts" "NONE"] Hst)
      as (s1 & st1 & -> & Hst1 & Hc1 & Hr1); [by intros [|]|].
    destruct (run_finger_lifts_step c2 s1 st1 "NONE" [] Hst1)
      as (s2 & st2 & -> & Hst2 & Hc2 & Hr2); [by intros [|]|].
    exists s2. split; [reflexivity|].
    unfold get_repetitions. rewrite Hst2, Hr2, Hc1, Hr1.
    rewrite andb_false_r. simpl. lia.
  - intros c1 c2 c3. unfold lift_index_middle.
    destruct (run_finger_lifts_step c1 self st "INDEX_UP"
                [Update c2 "finger_lifts" "MIDDLE_UP"; Update c3 "finger_lifts" "NONE"] Hst)
      as (s1 & st1 & -> & Hst1 & Hc1 & Hr1); [by intros [|]|].
    destruct (run_finger_lifts_step c2 s1 st1 "MIDDLE_UP"
                [Update c3 "finger_lifts" "NONE"] Hst1)
      as (s2 & st2 & -> & Hst2 & Hc2 & Hr2); [by intros [|]|].
    destruct (run_finger_lifts_step c3 s2 st2 "NONE" [] Hst2)
      as (s3 & st3 & -> & Hst3 & Hc3 & Hr3); [by intros [|]|].
    exists s3. split; [reflexivity|].
    unfold get_repetitions. rewrite Hst3, Hr3, Hc2, Hr2, Hr1.
    rewrite !andb_false_r. simpl. lia.
Qed.

Lemma finger_lifts_rule_witness :
  let self := __init__ (λ _, 0%float) in
  (∃ self', run (lift_index (λ _, 1%float) (λ _, 2%float)) self = Ok self'
     ∧ get_repetitions self' "finger_lifts" = 1)
  ∧ (∃ self',
       run (lift_index_middle (λ _, 1%float) (λ _, 2%float) (λ _, 3%float)) self = Ok self'
       ∧ get_repetitions self' "finger_lifts" = 1).
Proof.
  cbv zeta.
  destruct (finger_lifts_rule (λ _, 1%float) (__init__ (λ _, 0%float))
              (plain_state "NONE" 0%float) "INDEX_UP") as (_ & _ & _ & H1 & H2);
    [reflexivity|].
  split; [apply H1 | apply H2].
Defined.

(** ** The thumb_opposition rule *)

Lemma getitem_finger_sequence (i : Z) (expected : string) :
  0 ≤ i < 4 →
  finger_sequence !! Z.to_nat i = Some expected →
  Py.getitem finger_sequence i = Ok expected.
Proof.
  intros Hi Hl. unfold Py.getitem.
  change (Z.of_nat (length finger_sequence)) with 4.
  destruct (Z.ltb_spec i 0); [lia|].
  destruct (Z.leb_spec 0 i); [|lia].
  destruct (Z.ltb_spec i 4); [|lia].
  simpl. by rewrite Hl.
Qed.

Lemma cursor_ok_expected (s : ExerciseState) :
  cursor_ok s → ∃ expected, finger_sequence !! Z.to_nat (get_sequence_index s) = Some expected.
Proof.
  unfold cursor_ok. intros Hc. apply lookup_lt_is_Some. simpl. lia.
Qed.

(** An accepted touch. *)
Lemma update_thumb_touch (clock : nat → float) (self : StateManager)
    (st : ExerciseState) (l expected : string) :
  states self !! "thumb_opposition" = Some st →
  cursor_ok st →
  finger_sequence !! Z.to_nat (get_sequence_index st) = Some expected →
  Py.startswith l "TOUCH_" = true →
  Py.replace l "TOUCH_" "" = expected →
  get_is_touching st = false →
  ∃ st', update_state clock self "thumb_opposition" l =
           Ok (true, repetitions st', store self "thumb_opposition" st')
    ∧ is_touching st' = Some true
    ∧ sequence_index st' = Some ((get_sequence_index st + 1) `mod` 4)
    ∧ repetitions st' = repetitions st +
        (if (get_sequence_index st + 1) `mod` 4 =? 0 then 1 else 0)
    ∧ current_state st' = l
    ∧ previous_state st' = current_state st
    ∧ last_state_change st' = clock 0%nat.
Proof.
  intros Hst Hc Hexp Hpre Hrep Hnt.
  unfold update_state. rewrite Hst. cbn [Py.str_eq String.eqb Ascii.eqb Bool.eqb].
  rewrite Hpre, (getitem_finger_sequence _ _ Hc Hexp). cbn [mbind result_bind].
  fold (Py.str_eq (Py.replace l "TOUCH_" "") expected).
  rewrite Hrep, str_eq_refl, Hnt. cbn [negb andb].
  eexists. split; [reflexivity|].
  unfold get_sequence_index at 1. cbn [set_sequence_index set_is_touching sequence_index default].
  destruct (_ =? 0); split_and!; try reflexivity. simpl. lia.
Qed.

(** A rejected touch. *)
Lemma update_thumb_touch_rejected (clock : nat → float) (self : StateManager)
    (st : ExerciseState) (l expected : string) :
  states self !! "thumb_opposition" = Some st →
  cursor_ok st →
  finger_sequence !! Z.to_nat (get_sequence_index st) = Some expected →
  Py.startswith l "TOUCH_" = true →
  Py.replace l "TOUCH_" "" ≠ expected ∨ get_is_touching st = true →
  update_state clock self "thumb_opposition" l = Ok (false, repetitions st, self).
Proof.
  intros Hst Hc Hexp Hpre Hrej.
  unfold update_state. rewrite Hst. cbn [Py.str_eq String.eqb Ascii.eqb Bool.eqb].
  rewrite Hpre, (getitem_finger_sequence _ _ Hc Hexp). cbn [mbind result_bind].
  fold (Py.str_eq (Py.replace l "TOUCH_" "") expected).
  destruct Hrej as [Hne| ->].
  - apply str_eq_false in Hne. by rewrite Hne.
  - by rewrite andb_false_r.
Qed.

Lemma release_not_touch (l : string) :
  l = "RELEASE" ∨ l = "TRANSITION" →
  Py.startswith l "TOUCH_" = false ∧ Py.str_in l ["RELEASE"; "TRANSITION"] = true.
Proof. intros [-> | ->]; split; reflexivity. Qed.

(** A release, accepted or not. *)
Lemma update_thumb_release (clock : nat → float) (self : StateManager)
    (st : ExerciseState) (l : string) :
  states self !! "thumb_opposition" = Some st →
  l = "RELEASE" ∨ l = "TRANSITION" →
  update_state clock self "thumb_opposition" l =
    if get_is_touching st
    then Ok (true, repetitions st,
             store self "thumb_opposition"
               (commit (current_state st) l (clock 0%nat) (set_is_touching false st)))
    else Ok (false, repetitions st, self).
Proof.
  intros Hst Hl. destruct (release_not_touch l Hl) as [Hp Hin].
  unfold update_state. rewrite Hst. cbn [Py.str_eq String.eqb Ascii.eqb Bool.eqb].
  rewrite Hp, Hin. reflexivity.
Qed.

(** Any label that is neither a touch nor a release. *)
Lemma update_thumb_other (clock : nat → float) (self : StateManager)
    (st : ExerciseState) (l : string) :
  states self !! "thumb_opposition" = Some st →
  Py.startswith l "TOUCH_" = false → l ≠ "RELEASE" → l ≠ "TRANSITION" →
  update_state clock self "thumb_opposition" l = Ok (false, repetitions st, self).
Proof.
  intros Hst Hp Hr Ht.
  unfold update_state. rewrite Hst. cbn [Py.str_eq String.eqb Ascii.eqb Bool.eqb].
  rewrite Hp. cbn [Py.str_in existsb].
  apply str_eq_false in Hr, Ht. by rewrite Hr, Ht.
Qed.

(** Running past an accepted touch and past an accepted release. *)
Lemma run_thumb_touch (clock : nat → float) (self : StateManager)
    (st : ExerciseState) (l expected : string) (calls : list call) :
  states self !! "thumb_opposition" = Some st →
  cursor_ok st →
  finger_sequence !! Z.to_nat (get_sequence_index st) = Some expected →
  Py.startswith l "TOUCH_" = true →
  Py.replace l "TOUCH_" "" = expected →
  get_is_touching st = false →
  ∃ self' st',
    run (Update clock "thumb_opposition" l :: calls) self = run calls self'
    ∧ states self' !! "thumb_opposition" = Some st'
    ∧ get_is_touching st' = true
    ∧ get_sequence_index st' = (get_sequence_index st + 1) `mod` 4
    ∧ repetitions st' = repetitions st +
        (if (get_sequence_index st + 1) `mod` 4 =? 0 then 1 else 0).
Proof.
  intros Hst Hc Hexp Hpre Hrep Hnt.
  destruct (update_thumb_touch clock self st l expected Hst Hc Hexp Hpre Hrep Hnt)
    as (st' & Hup & Ht & Hi & Hr & _).
  exists (store self "thumb_opposition" st'), st'.
  cbn [run]. rewrite Hup. unfold get_is_touching, get_sequence_index at 1.
  rewrite Ht, Hi. split_and!; try done. apply lookup_store_eq.
Qed.

Lemma run_thumb_release (clock : nat → float) (self : StateManager)
    (st : ExerciseState) (l : string) (calls : list call) :
  states self !! "thumb_opposition" = Some st →
  l = "RELEASE" ∨ l = "TRANSITION" →
  get_is_touching st = true →
  ∃ self' st',
    run (Update clock "thumb_opposition" l :: calls) self = run calls self'
    ∧ states self' !! "thumb_opposition" = Some st'
    ∧ get_is_touching st' = false
    ∧ get_sequence_index st' = get_sequence_index st
    ∧ repetitions st' = repetitions st.
Proof.
  intros Hst Hl Ht.
  eexists _, _. cbn [run].
  rewrite (update_thumb_release clock self st l Hst Hl), Ht.
  split; [reflexivity|]. split; [apply lookup_store_eq|]. done.
Qed.

(** The full cycle counts one repetition. *)
Lemma thumb_cycle_counts_one (clocks : nat → nat → float) (self : StateManager)
    (st : ExerciseState) :
  states self !! "thumb_opposition" = Some st →
  get_sequence_index st = 0 →
  get_is_touching st = false →
  ∃ self', run (thumb_cycle clocks) self = Ok self'
    ∧ get_repetitions self' "thumb_opposition" = repetitions st + 1.
Proof.
  intros Hst Hi Ht. unfold thumb_cycle.
  edestruct (run_thumb_touch (clocks 0%nat) self st "TOUCH_INDEX" "INDEX")
    as (s1 & st1 & -> & Hst1 & Ht1 & Hi1 & Hr1);
    [done | unfold cursor_ok; lia | by rewrite Hi | done | done | done |].
  rewrite Hi in Hi1, Hr1.
  change (get_sequence_index st1 = 1) in Hi1.
  change (repetitions st1 = repetitions st + 0) in Hr1.
  edestruct (run_thumb_release (clocks 1%nat) s1 st1 "RELEASE")
    as (s2 & st2 & -> & Hst2 & Ht2 & Hi2 & Hr2); [done | by left | done |].
  rewrite Hi1 in Hi2.
  edestruct (run_thumb_touch (clocks 2%nat) s2 st2 "TOUCH_MIDDLE" "MIDDLE")
    as (s3 & st3 & -> & Hst3 & Ht3 & Hi3 & Hr3);
    [done | unfold cursor_ok; lia | by rewrite Hi2 | done | done | done |].
  rewrite Hi2 in Hi3, Hr3.
  change (get_sequence_index st3 = 2) in Hi3.
  change (repetitions st3 = repetitions st2 + 0) in Hr3.
  edestruct (run_thumb_release (clocks 3%nat) s3 st3 "RELEASE")
    as (s4 & st4 & -> & Hst4 & Ht4 & Hi4 & Hr4); [done | by left | done |].
  rewrite Hi3 in Hi4.
  edestruct (run_thumb_touch (clocks 4%nat) s4 st4 "TOUCH_RING" "RING")
    as (s5 & st5 & -> & Hst5 & Ht5 & Hi5 & Hr5);
    [done | unfold cursor_ok; lia | by rewrite Hi4 | done | done | done |].
  rewrite Hi4 in Hi5, Hr5.
  change (get_sequence_index st5 = 3) in Hi5.
  change (repetitions st5 = repetitions st4 + 0) in Hr5.
  edestruct (run_thumb_release (clocks 5%nat) s5 st5 "RELEASE")
    as (s6 & st6 & -> & Hst6 & Ht6 & Hi6 & Hr6); [done | by left | done |].
  rewrite Hi5 in Hi6.
  edestruct (run_thumb_touch (clocks 6%nat) s6 st6 "TOUCH_PINKY" "PINKY")
    as (s7 & st7 & -> & Hst7 & Ht7 & Hi7 & Hr7);
    [done | unfold cursor_ok; lia | by rewrite Hi6 | done | done | done |].
  rewrite Hi6 in Hi7, Hr7.
  change (get_sequence_index st7 = 0) in Hi7.
  change (repetitions st7 = repetitions st6 + 1) in Hr7.
  edestruct (run_thumb_release (clocks 7%nat) s7 st7 "RELEASE")
    as (s8 & st8 & -> & Hst8 & Ht8 & Hi8 & Hr8); [done | by left | done |].
  exists s8. split; [reflexivity|].
  unfold get_repetitions. rewrite Hst8. lia.
Qed.







(** C2, the failing input evaluated: from the fresh manager (cursor at
    INDEX, not touching) the label TOUCH_TOUCH_INDEX is accepted, although
    what follows its TOUCH_ prefix is not the finger at the cursor. *)
Lemma thumb_touch_label_not_prefix_stripped :
  let self := __init__ (λ _, 0%float) in
  Py.getitem finger_sequence 0 = Ok "INDEX"
  ∧ "TOUCH_INDEX" ≠ "INDEX"
  ∧ get_repetitions self "thumb_opposition" = 0
  ∧ ∃ self', update_state (λ _, 1%float) self "thumb_opposition"
               ("TOUCH_" +:+ "TOUCH_INDEX") = Ok (true, 0, self')
      ∧ get_current_state self' "thumb_opposition" = "TOUCH_TOUCH_INDEX".
Proof.
  cbv zeta. split_and!; [reflexivity | discriminate | reflexivity |].
  eexists. split; [vm_compute; reflexivity | vm_compute; reflexivity].
Qed.


(** ** Well-formed managers *)

Lemma elem_of_exercise_types (e : string) :
  e ∈ exercise_types ↔
  e ∈ ["open_close"; "pinch"; "abduction_adduction"]
  ∨ e = "thumb_opposition" ∨ e = "finger_lifts".
Proof. unfold exercise_types. rewrite !elem_of_cons, !elem_of_nil. naive_solver. Qed.

Lemma init_well_formed (clock : nat → float) : well_formed (__init__ clock).
Proof.
  split_and!.
  - intros e He. unfold exercise_types in He.
    repeat (apply elem_of_cons in He as [->|He]); [| | | | |by apply elem_of_nil in He];
      by eexists.
  - intros s Hs. vm_compute in Hs. injection Hs as <-.
    split; [unfold cursor_ok, get_sequence_index; simpl; lia | reflexivity].
  - reflexivity.
Qed.

Lemma reset_well_formed (clock : nat → float) (self : StateManager) (e : string) :
  well_formed self → well_formed (reset clock self e).
Proof.
  intros (Hdom & Hthumb & Hmin). unfold reset.
  destruct (states self !! e) as [st|] eqn:Hst; [|done].
  split_and!.
  - intros e' He'. rewrite states_store. apply lookup_insert_is_Some'. auto.
  - intros s. rewrite states_store, lookup_insert. case_decide as Heq.
    + intros [= <-]. split; [unfold cursor_ok, get_sequence_index; simpl; lia | reflexivity].
    + apply Hthumb.
  - done.
Qed.

(** What a call on thumb_opposition keeps true of its record. *)
Lemma update_thumb_well_formed (clock : nat → float) (self self' : StateManager)
    (st : ExerciseState) (l : string) (c : bool) (r : Z) :
  states self !! "thumb_opposition" = Some st →
  cursor_ok st → touch_consistent st →
  update_state clock self "thumb_opposition" l = Ok (c, r, self') →
  ∃ st', self' = store self "thumb_opposition" st'
    ∧ cursor_ok st' ∧ touch_consistent st'.
Proof.
  intros Hst Hc Ht Hup.
  assert (Hid : self = store self "thumb_opposition" st)
    by (symmetry; by apply store_id).
  destruct (cursor_ok_expected st Hc) as [expected Hexp].
  destruct (Py.startswith l "TOUCH_") eqn:Hpre.
  - destruct (decide (Py.replace l "TOUCH_" "" = expected)) as [Hrep|Hrep];
      [destruct (get_is_touching st) eqn:Htouch|].
    + rewrite (update_thumb_touch_rejected clock self st l expected) in Hup by auto.
      simplify_eq. eauto.
    + destruct (update_thumb_touch clock self st l expected Hst Hc Hexp Hpre Hrep Htouch)
        as (st' & Hup' & Hit & Hsi & _ & Hcur & _).
      exists st'. split; [congruence|].
      unfold cursor_ok, touch_consistent, get_sequence_index, get_is_touching.
      rewrite Hit, Hsi, Hcur, Hpre. split; [|done]. simpl.
      apply Z.mod_pos_bound. lia.
    + rewrite (update_thumb_touch_rejected clock self st l expected) in Hup by auto.
      simplify_eq. eauto.
  - destruct (decide (l = "RELEASE" ∨ l = "TRANSITION")) as [Hl|Hl].
    + rewrite (update_thumb_release clock self st l Hst Hl) in Hup.
      destruct (get_is_touching st); simplify_eq; [|by eauto].
      eexists. split; [reflexivity|].
      unfold cursor_ok, touch_consistent, get_sequence_index, get_is_touching.
      simpl. by rewrite Hpre.
    + rewrite (update_thumb_other clock self st l Hst Hpre) in Hup by naive_solver.
      simplify_eq. eauto.
Qed.

Lemma update_well_formed (clock : nat → float) (self self' : StateManager)
    (e l : string) (c : bool) (r : Z) :
  well_formed self →
  update_state clock self e l = Ok (c, r, self') →
  well_formed self'.
Proof.
  intros (Hdom & Hthumb & Hmin) Hup.
  destruct (update_state_cases _ _ _ _ _ _ _ Hup) as (st & st' & Hst & -> & _).
  split_and!; [| |done].
  - intros e' He'. rewrite states_store. apply lookup_insert_is_Some'. auto.
  - intros s. destruct (decide (e = "thumb_opposition")) as [->|Hne].
    + destruct (Hthumb st Hst) as [Hc Ht].
      destruct (update_thumb_well_formed _ _ _ _ _ _ _ Hst Hc Ht Hup)
        as (st2 & Heq & Hc2 & Ht2).
      rewrite Heq, lookup_store_eq. by intros [= <-].
    + rewrite lookup_store_ne by done. apply Hthumb.
Qed.

Lemma reachable_well_formed (self : StateManager) :
  reachable self → well_formed self.
Proof.
  induction 1; eauto using init_well_formed, update_well_formed, reset_well_formed.
Qed.

(** On a well-formed manager a call on an exercise type of the enumeration
    returns. *)
Lemma update_state_returns (clock : nat → float) (self : StateManager) (e l : string) :
  well_formed self → e ∈ exercise_types →
  ∃ c r self', update_state clock self e l = Ok (c, r, self').
Proof.
  intros (Hdom & Hthumb & Hmin) He.
  destruct (Hdom e He) as [st Hst].
  apply elem_of_exercise_types in He as [He|[->| ->]].
  - rewrite (update_debounced clock self e l st He Hst). cbv zeta.
    repeat case_match; eauto.
  - destruct (Hthumb st Hst) as [Hc _].
    destruct (cursor_ok_expected st Hc) as [expected Hexp].
    unfold update_state. rewrite Hst. cbn [Py.str_eq String.eqb Ascii.eqb Bool.eqb].
    rewrite (getitem_finger_sequence _ _ Hc Hexp). cbn [mbind result_bind].
    repeat case_match; eauto.
  - unfold update_state. rewrite Hst. cbn [Py.str_eq String.eqb Ascii.eqb Bool.eqb].
    repeat case_match; eauto.
Qed.

(** ** Monotone count *)

Lemma update_state_monotone (clock : nat → float) (self self' : StateManager)
    (e l : string) (c : bool) (r : Z) (e' : string) :
  update_state clock self e l = Ok (c, r, self') →
  get_repetitions self e' ≤ get_repetitions self' e'.
Proof.
  intros Hup.
  destruct (update_state_cases _ _ _ _ _ _ _ Hup) as (st & st' & Hst & -> & _ & Hr & _).
  rewrite get_repetitions_store. case_decide as Heq; [|lia].
  subst e'. unfold get_repetitions. rewrite Hst. lia.
Qed.

Lemma run_monotone (calls : list call) (self self' : StateManager) (e : string) :
  no_reset calls →
  run calls self = Ok self' →
  get_repetitions self e ≤ get_repetitions self' e.
Proof.
  intros Hnr. revert self. induction Hnr as [|[clock e0 l|] calls Hc _ IH]; intros self Hrun.
  - simpl in Hrun. by simplify_eq.
  - cbn [run] in Hrun.
    destruct (update_state clock self e0 l) as [[[c r] s1]|] eqn:Hup; [|discriminate].
    simpl in Hrun. etrans; [by eapply update_state_monotone | by apply IH].
  - done.
Qed.

Lemma run_app (calls1 calls2 : list call) (self : StateManager) :
  run (calls1 ++ calls2) self = s ← run calls1 self; run calls2 s.
Proof.
  revert self. induction calls1 as [|[clock e l|clock e] calls1 IH]; intros self.
  - reflexivity.
  - cbn [run app]. destruct (update_state clock self e l) as [[[c r] s1]|]; [|done].
    apply IH.
  - cbn [run app]. apply IH.
Qed.

Lemma known_updates_no_reset (calls : list call) :
  known_updates calls → no_reset calls.
Proof.
  unfold known_updates, no_reset. intros Hk.
  eapply Forall_impl; [exact Hk|]. by intros [? ? ?|].
Qed.

Lemma run_returns (calls : list call) (self : StateManager) :
  well_formed self → known_updates calls →
  ∃ self', run calls self = Ok self' ∧ well_formed self'.
Proof.
  intros Hwf Hk. revert self Hwf.
  induction Hk as [|[clock e l|] calls He _ IH]; intros self Hwf; [by eauto| |done].
  destruct (update_state_returns clock self e l Hwf He) as (c & r & s1 & Hup).
  cbn [run]. rewrite Hup. apply IH. by eapply update_well_formed.
Qed.

(** C4. From a well-formed manager every sequence of [update_state] calls on
    exercise types of the enumeration returns, whatever the labels and the
    clocks, and along it the repetition count of every exercise never
    decreases: it is no smaller after a first part of the sequence than
    before, and no smaller after the rest than after the first part. A single
    call that returns never lowers a count either, in any state, and returns
    the count it leaves; [reset] is what brings a count back to 0. *)
Theorem repetitions_never_decrease (calls1 calls2 : list call) (self : StateManager) :
  well_formed self →
  known_updates calls1 → known_updates calls2 →
  (∃ s1 s2,
      run calls1 self = Ok s1
      ∧ run calls2 s1 = Ok s2
      ∧ run (calls1 ++ calls2) self = Ok s2
      ∧ ∀ e, get_repetitions self e ≤ get_repetitions s1 e
             ∧ get_repetitions s1 e ≤ get_repetitions s2 e)
  ∧ (∀ clock e l c r self',
       update_state clock self e l = Ok (c, r, self') →
       r = get_repetitions self' e
       ∧ ∀ e', get_repetitions self e' ≤ get_repetitions self' e')
  ∧ (∀ clock e, e ∈ exercise_types → get_repetitions (reset clock self e) e = 0).
Proof.
  intros Hwf Hk1 Hk2. split_and!.
  - destruct (run_returns calls1 self Hwf Hk1) as (s1 & Hr1 & Hwf1).
    destruct (run_returns calls2 s1 Hwf1 Hk2) as (s2 & Hr2 & _).
    exists s1, s2. split_and!; try done.
    + rewrite run_app, Hr1. exact Hr2.
    + intros e. split.
      * apply (run_monotone calls1); [by apply known_updates_no_reset | done].
      * apply (run_monotone calls2); [by apply known_updates_no_reset | done].
  - intros clock e l c r self' Hup. split.
    + destruct (update_state_cases _ _ _ _ _ _ _ Hup) as (st & st' & _ & -> & -> & _).
      by rewrite get_repetitions_store_eq.
    + intros e'. by eapply update_state_monotone.
  - intros clock e He. destruct Hwf as (Hdom & _).
    destruct (Hdom e He) as [st Hst]. unfold reset. rewrite Hst.
    by rewrite get_repetitions_store_eq.
Qed.

Lemma repetitions_never_decrease_witness :
  ∃ s1 s2,
    run [Update (λ _, 1%float) "open_close" "CLOSED"] (__init__ (λ _, 0%float)) = Ok s1
    ∧ run [Update (λ _, 2%float) "open_close" "OPEN"] s1 = Ok s2
    ∧ run ([Update (λ _, 1%float) "open_close" "CLOSED"]
             ++ [Update (λ _, 2%float) "open_close" "OPEN"])
          (__init__ (λ _, 0%float)) = Ok s2
    ∧ ∀ e, get_repetitions (__init__ (λ _, 0%float)) e ≤ get_repetitions s1 e
           ∧ get_repetitions s1 e ≤ get_repetitions s2 e.
Proof.
  apply (repetitions_never_decrease
           [Update (λ _, 1%float) "open_close" "CLOSED"]
           [Update (λ _, 2%float) "open_close" "OPEN"]
           (__init__ (λ _, 0%float))).
  - apply init_well_formed.
  - repeat constructor.
  - repeat constructor.
Defined.

(** ** Reset *)

(** C5 (as amended). After [reset] of an exercise type that has a record, its
    count is 0 and its current label is OPEN, whatever label the exercise was
    initialised with; the record is the plain one, without cursor and
    touching flag, stamped with the clock; the other records are left as they
    were. *)
Theorem reset_yields_open (clock : nat → float) (self : StateManager) (e : string) :
  well_formed self → e ∈ exercise_types →
  get_repetitions (reset clock self e) e = 0
  ∧ get_current_state (reset clock self e) e = "OPEN"
  ∧ states (reset clock self e) !! e = Some (plain_state "OPEN" (clock 0%nat))
  ∧ (∀ e', e' ≠ e → states (reset clock self e) !! e' = states self !! e').
Proof.
  intros (Hdom & _) He. destruct (Hdom e He) as [st Hst].
  unfold reset. rewrite Hst. split_and!.
  - by rewrite get_repetitions_store_eq.
  - by rewrite get_current_state_store_eq.
  - apply lookup_store_eq.
  - intros e' Hne. by apply lookup_store_ne.
Qed.

Lemma reset_yields_open_witness :
  let self := __init__ (λ _, 0%float) in
  let clock := λ _ : nat, 5%float in
  get_repetitions (reset clock self "thumb_opposition") "thumb_opposition" = 0
  ∧ get_current_state (reset clock self "thumb_opposition") "thumb_opposition" = "OPEN"
  ∧ states (reset clock self "thumb_opposition") !! "thumb_opposition"
      = Some (plain_state "OPEN" (clock 0%nat))
  ∧ (∀ e', e' ≠ "thumb_opposition" →
       states (reset clock self "thumb_opposition") !! e' = states self !! e').
Proof.
  apply (reset_yields_open (λ _, 5%float) (__init__ (λ _, 0%float)) "thumb_opposition").
  - apply init_well_formed.
  - repeat constructor.
Defined.

(** C5, counterexample to the claim as stated: abduction_adduction is
    initialised with CLOSED, thumb_opposition with TRACKING and finger_lifts
    with NONE, and each of them has the label OPEN right after its reset. *)
Lemma reset_label_is_not_the_initial_one :
  let self := __init__ (λ _, 0%float) in
  let clock := λ _ : nat, 5%float in
  (get_current_state self "abduction_adduction" = "CLOSED"
   ∧ get_current_state (reset clock self "abduction_adduction") "abduction_adduction"
       ≠ "CLOSED")
  ∧ (get_current_state self "thumb_opposition" = "TRACKING"
     ∧ get_current_state (reset clock self "thumb_opposition") "thumb_opposition"
         ≠ "TRACKING")
  ∧ (get_current_state self "finger_lifts" = "NONE"
     ∧ get_current_state (reset clock self "finger_lifts") "finger_lifts" ≠ "NONE").
Proof.
  cbv zeta. split_and!; try (vm_compute; reflexivity); vm_compute; discriminate.
Qed.

(** ** Calls that report no change *)

(** C10. Whenever [update_state] returns [changed = false], the manager after
    the call is the manager before it: the record of every exercise type,
    with its labels, count, timestamp, cursor and touching flag, is what it
    was, and the count returned is the count stored. *)
Theorem unchanged_when_not_changed (clock : nat → float) (self self' : StateManager)
    (e l : string) (r : Z) :
  update_state clock self e l = Ok (false, r, self') →
  self' = self
  ∧ r = get_repetitions self e
  ∧ ∀ e', states self' !! e' = states self !! e'.
Proof.
  intros Hup.
  destruct (update_state_cases _ _ _ _ _ _ _ Hup) as (st & st' & Hst & -> & -> & _ & Hsame).
  rewrite (Hsame eq_refl), (store_id _ _ _ Hst).
  unfold get_repetitions. by rewrite Hst.
Qed.

Lemma unchanged_when_not_changed_witness :
  let self := __init__ (λ _, 0%float) in
  self = self
  ∧ 0 = get_repetitions self "finger_lifts"
  ∧ ∀ e', states self !! e' = states self !! e'.
Proof.
  apply (unchanged_when_not_changed (λ _, 1%float) (__init__ (λ _, 0%float))
           (__init__ (λ _, 0%float)) "finger_lifts" "TRANSITION" 0).
  vm_compute. reflexivity.
Defined.

(** ** The current label submitted again *)

Lemma update_thumb_same_label (clock : nat → float) (self : StateManager)
    (st : ExerciseState) :
  states self !! "thumb_opposition" = Some st →
  cursor_ok st → touch_consistent st →
  update_state clock self "thumb_opposition" (current_state st)
    = Ok (false, repetitions st, self).
Proof.
  intros Hst Hc Ht. unfold touch_consistent in Ht.
  destruct (cursor_ok_expected st Hc) as [expected Hexp].
  destruct (Py.startswith (current_state st) "TOUCH_") eqn:Hpre.
  - apply (update_thumb_touch_rejected clock self st _ expected); auto.
  - destruct (decide (current_state st = "RELEASE" ∨ current_state st = "TRANSITION"))
      as [Hl|Hl].
    + by rewrite (update_thumb_release clock self st _ Hst Hl), Ht.
    + apply update_thumb_other; naive_solver.
Qed.

Lemma update_same_label (clock : nat → float) (self : StateManager) (e : string) :
  well_formed self → e ∈ exercise_types →
  update_state clock self e (get_current_state self e)
    = Ok (false, get_repetitions self e, self).
Proof.
  intros (Hdom & Hthumb & _) He. destruct (Hdom e He) as [st Hst].
  unfold get_current_state, get_repetitions. rewrite Hst.
  apply elem_of_exercise_types in He as [He|[->| ->]].
  - by apply update_debounced_same_label.
  - destruct (Hthumb st Hst). by apply update_thumb_same_label.
  - destruct (decide (is_transition (current_state st))) as [Ht|Hnt].
    + by apply update_finger_lifts_transition.
    + destruct (update_finger_lifts clock self st _ Hst Hnt)
        as (st' & Hup & _ & _ & Hsame & _).
      rewrite Hup, (Hsame eq_refl), (store_id _ _ _ Hst), str_eq_refl. reflexivity.
Qed.

(** C9. In every reachable manager and for every exercise type of the
    enumeration, two calls in a row with the label that is the exercise's
    current one both return, neither changes the count, the manager stays as
    it was, and the second call (as the first) reports [changed = false]. *)
Theorem same_label_twice (clock1 clock2 : nat → float) (self : StateManager)
    (e : string) :
  reachable self → e ∈ exercise_types →
  ∃ c1 r1 s1 r2 s2,
    update_state clock1 self e (get_current_state self e) = Ok (c1, r1, s1)
    ∧ update_state clock2 s1 e (get_current_state s1 e) = Ok (false, r2, s2)
    ∧ get_current_state s1 e = get_current_state self e
    ∧ r1 = get_repetitions self e
    ∧ r2 = get_repetitions self e
    ∧ get_repetitions s2 e = get_repetitions self e
    ∧ c1 = false ∧ s1 = self ∧ s2 = self.
Proof.
  intros Hreach He. apply reachable_well_formed in Hreach.
  exists false, (get_repetitions self e), self, (get_repetitions self e), self.
  split_and!; try done; by apply update_same_label.
Qed.

Lemma same_label_twice_witness :
  let self := __init__ (λ _, 0%float) in
  ∃ c1 r1 s1 r2 s2,
    update_state (λ _, 1%float) self "thumb_opposition"
      (get_current_state self "thumb_opposition") = Ok (c1, r1, s1)
    ∧ update_state (λ _, 2%float) s1 "thumb_opposition"
        (get_current_state s1 "thumb_opposition") = Ok (false, r2, s2)
    ∧ get_current_state s1 "thumb_opposition" = get_current_state self "thumb_opposition"
    ∧ r1 = get_repetitions self "thumb_opposition"
    ∧ r2 = get_repetitions self "thumb_opposition"
    ∧ get_repetitions s2 "thumb_opposition" = get_repetitions self "thumb_opposition"
    ∧ c1 = false ∧ s1 = self ∧ s2 = self.
Proof.
  apply (same_label_twice (λ _, 1%float) (λ _, 2%float) (__init__ (λ _, 0%float))
           "thumb_opposition").
  - apply reachable_init.
  - repeat constructor.
Defined.

(** ** Comparisons of binary64 floats *)

Section FloatOrder.

Lemma SFcompare_antisym (x y : spec_float) :
  SFcompare y x = option_map CompOpp (SFcompare x y).
Proof.
  destruct x as [sx|sx| |sx mx ex], y as [sy|sy| |sy my ey];
    try reflexivity;
    try (by destruct sx); try (by destruct sy); try (by destruct sx, sy).
  unfold SFcompare.
  rewrite (Z.compare_antisym ex ey).
  change (Pos.compare_cont Eq my mx) with (my ?= mx)%positive.
  change (Pos.compare_cont Eq mx my) with (mx ?= my)%positive.
  rewrite (Pos.compare_antisym mx my).
  destruct sx, sy; simpl; try reflexivity;
    destruct (ex ?= ey); simpl; try reflexivity;
    destruct (mx ?= my)%positive; reflexivity.
Qed.



End FloatOrder.

(** ** The palm size *)


Lemma getitem_nat_Some {A} (t : list A) (i : nat) (a : A) :
  Py.getitem t (Z.of_nat i) = Ok a → t !! i = Some a.
Proof.
  unfold Py.getitem.
  destruct (Z.ltb_spec (Z.of_nat i) 0); [lia|].
  destruct (_ && _); [|discriminate].
  rewrite Nat2Z.id. destruct (t !! i); [congruence|discriminate].
Qed.

Lemma getitem_nat_lt {A} (t : list A) (i : nat) :
  (i < length t)%nat → ∃ a, Py.getitem t (Z.of_nat i) = Ok a ∧ a ∈ t.
Proof.
  intros Hi. destruct (lookup_lt_is_Some_2 t i Hi) as [a Ha].
  exists a. split; [|by eapply list_elem_of_lookup_2].
  unfold Py.getitem.
  destruct (Z.ltb_spec (Z.of_nat i) 0); [lia|].
  destruct (Z.leb_spec 0 (Z.of_nat i)); [|lia].
  destruct (Z.ltb_spec (Z.of_nat i) (Z.of_nat (length t))); [|lia].
  simpl. by rewrite Nat2Z.id, Ha.
Qed.

(** The square raises nothing but an arithmetic error, and the root nothing
    but a [ValueError]. *)
Lemma pow_2_raise {libm : Libm} (x : float) (ex : exn) :
  Py.pow_2 x = Raise ex → arithmetic_error ex.
Proof.
  unfold Py.pow_2, arithmetic_error.
  destruct (PrimFloat.is_nan x); [done|].
  destruct (PrimFloat.is_infinity x); [done|].
  destruct (PrimFloat.eqb x 0); [done|].
  destruct (PrimFloat.eqb _ 1); [done|].
  destruct (libm_pow_2 _) as [ix [| |]].
  - destruct (PrimFloat.is_infinity ix); [|done]. intros [= <-]. by left.
  - destruct (PrimFloat.eqb ix 0); [done|]. intros [= <-]. by left.
  - intros [= <-]. right. by eexists.
Qed.

Lemma sqrt_raise (x : float) (ex : exn) :
  Py.sqrt x = Raise ex → arithmetic_error ex.
Proof.
  unfold Py.sqrt, arithmetic_error. cbv zeta.
  destruct (_ && _); [intros [= <-]; right; by eexists|].
  destruct (_ && _); [intros [= <-]; right; by eexists|done].
Qed.

(** [_dist] returns only when both landmarks have their x and y; it raises
    the [KeyError] of the first missing one, or an arithmetic error. *)
Lemma dist_outcome {libm : Libm} (a b : Landmark) :
  match AbductionAdductionDetector._dist a b with
  | Ok _ => has_xy a ∧ has_xy b
  | Raise ex =>
      missing_coordinate ex ∧ ¬ (has_xy a ∧ has_xy b)
      ∨ arithmetic_error ex ∧ is_Some (a !! "x") ∧ is_Some (b !! "x")
  end.
Proof.
  unfold AbductionAdductionDetector._dist, Py.dict_getitem, has_xy, missing_coordinate.
  destruct (a !! "x") as [ax|] eqn:Hax; cbn [mbind result_bind];
    [|left; split; [by left|intros [[[? ?] _] _]; congruence]].
  destruct (b !! "x") as [bx|] eqn:Hbx; cbn [mbind result_bind];
    [|left; split; [by left|intros [_ [[? ?] _]]; congruence]].
  destruct (Py.pow_2 (PrimFloat.sub ax bx)) as [sx|ex] eqn:Hsx; cbn [mbind result_bind];
    [|right; split; [by eapply pow_2_raise|by split]].
  destruct (a !! "y") as [ay|] eqn:Hay; cbn [mbind result_bind];
    [|left; split; [by right|intros [[_ [? ?]] _]; congruence]].
  destruct (b !! "y") as [by_|] eqn:Hby; cbn [mbind result_bind];
    [|left; split; [by right|intros [_ [_ [? ?]]]; congruence]].
  destruct (Py.pow_2 (PrimFloat.sub ay by_)) as [sy|ex] eqn:Hsy; cbn [mbind result_bind];
    [|right; split; [by eapply pow_2_raise|by split]].
  destruct (Py.sqrt (PrimFloat.add sx sy)) as [d|ex] eqn:Hd;
    [by repeat split|right; split; [by eapply sqrt_raise|by split]].
Qed.




(** ** The detectors on short and on malformed frames *)

Lemma getitem_raise {A} (t : list A) (i : Z) (e : exn) :
  Py.getitem t i = Raise e → e = IndexError.
Proof.
  unfold Py.getitem. destruct (_ && _); [destruct (t !! _)|]; congruence.
Qed.

Lemma dict_getitem_raise {V} (d : gmap string V) (k : string) (e : exn) :
  Py.dict_getitem d k = Raise e → e = KeyError k.
Proof. unfold Py.dict_getitem. destruct (d !! k); congruence. Qed.

(** Case analysis on the outcome of the call at the head of a sequence of
    binds; a raising lookup leaves the goal to its exception. *)
Ltac step_bind H :=
  match type of H with
  | mbind _ ?m = _ =>
      let E := fresh "E" in
      destruct m eqn:E; cbn [mbind result_bind] in H;
      [| simplify_eq;
         first [apply dict_getitem_raise in E | apply getitem_raise in E | idtac];
         subst ]
  end.

Lemma open_close_distance_raise (p q : Landmark) (e : exn) :
  HandOpenCloseDetector.calculate_distance p q = Raise e → caught e.
Proof.
  unfold HandOpenCloseDetector.calculate_distance. intros H.
  repeat (step_bind H; [|exact I]). discriminate H.
Qed.

Lemma pinch_distance_raise (p q : Landmark) (e : exn) :
  PinchDetector.calculate_distance p q = Raise e → caught e.
Proof.
  unfold PinchDetector.calculate_distance. intros H.
  repeat (step_bind H; [|exact I]). discriminate H.
Qed.

Lemma for_each_outcome {A B} (f : A → result B) (xs : list A) :
  (∀ x e, f x = Raise e → caught e) →
  match for_each f xs with
  | Ok ys => length ys = length xs
  | Raise e => caught e
  end.
Proof.
  intros Hf. induction xs as [|x xs IH]; [reflexivity|].
  cbn [for_each]. destruct (f x) as [y|e] eqn:Hx; cbn [mbind result_bind].
  - destruct (for_each f xs) as [ys|e]; cbn [mbind result_bind]; [|done].
    simpl. by rewrite IH.
  - by eapply Hf.
Qed.

Lemma truediv_len_four (s : float) (ys : list float) :
  length ys = 4%nat →
  Py.truediv s (Py.float_of_len (length ys)) = Ok (PrimFloat.div s 4).
Proof. intros ->. reflexivity. Qed.

(** The [try] body of the open_close detector raises nothing its handler does
    not catch, and returns one of the three labels. *)
Lemma open_close_body_outcome (landmarks : list Landmark) :
  match HandOpenCloseDetector.detect_state_body landmarks with
  | Ok label => label ∈ ["OPEN"; "CLOSED"; "TRANSITION"]
  | Raise e => caught e
  end.
Proof.
  unfold HandOpenCloseDetector.detect_state_body.
  destruct (Py.getitem landmarks HandOpenCloseDetector.WRIST) as [wrist|e] eqn:Hw;
    cbn [mbind result_bind]; [|by apply getitem_raise in Hw as ->].
  match goal with |- context [for_each ?f ?xs] =>
    pose proof (for_each_outcome f xs) as Hfe; destruct (for_each f xs) as [ds|e]
  end; cbn [mbind result_bind].
  - rewrite truediv_len_four; cbn [mbind result_bind].
    + repeat case_match; set_solver.
    + apply Hfe. intros x e H. step_bind H; [|exact I].
      by eapply open_close_distance_raise.
  - apply Hfe. intros x e' H. step_bind H; [|exact I].
    by eapply open_close_distance_raise.
Qed.

Lemma pinch_body_outcome (landmarks : list Landmark) :
  match PinchDetector.detect_state_body landmarks with
  | Ok label => label ∈ ["OPEN"; "CLOSED"; "TRANSITION"]
  | Raise e => caught e
  end.
Proof.
  unfold PinchDetector.detect_state_body.
  destruct (Py.getitem landmarks PinchDetector.THUMB_TIP) as [thumb|e] eqn:Ht;
    cbn [mbind result_bind]; [|by apply getitem_raise in Ht as ->].
  destruct (Py.getitem landmarks PinchDetector.INDEX_TIP) as [index|e] eqn:Hi;
    cbn [mbind result_bind]; [|by apply getitem_raise in Hi as ->].
  destruct (PinchDetector.calculate_distance thumb index) as [d|e] eqn:Hd;
    cbn [mbind result_bind]; [|by eapply pinch_distance_raise].
  repeat case_match; set_solver.
Qed.

Lemma short_frame_guard (landmarks : list Landmark) :
  (length landmarks < 21)%nat →
  Py.not_list landmarks || Py.len_lt landmarks 21 = true.
Proof.
  intros H. unfold Py.len_lt. apply Nat.ltb_lt in H. rewrite H. apply orb_true_r.
Qed.

(** C6. What holds of the claim, and where the code departs from it. Every
    detector answers its fallback label on a frame of fewer than 21 points,
    and the open_close, pinch and thumb_opposition detectors return a label
    of theirs on every frame. On the 21-point frame whose points lack their
    x and y fields, open_close and pinch fall back to TRANSITION, but the
    abduction_adduction and finger_lifts detectors raise [KeyError]. *)
Theorem detect_state_on_bad_frames {libm : Libm} :
  (∀ landmarks : list Landmark, (length landmarks < 21)%nat →
     HandOpenCloseDetector.detect_state landmarks = Ok "TRANSITION"
     ∧ PinchDetector.detect_state landmarks = Ok "TRANSITION"
     ∧ AbductionAdductionDetector.detect_state landmarks = Ok "UNKNOWN"
     ∧ FingerLiftsDetector.detect_state landmarks = Ok "UNKNOWN"
     ∧ ThumbOppositionDetector.detect_state landmarks = Ok "UNKNOWN")
  ∧ (∀ landmarks : list Landmark,
       (∃ label, HandOpenCloseDetector.detect_state landmarks = Ok label
          ∧ label ∈ ["OPEN"; "CLOSED"; "TRANSITION"])
       ∧ (∃ label, PinchDetector.detect_state landmarks = Ok label
          ∧ label ∈ ["OPEN"; "CLOSED"; "TRANSITION"])
       ∧ (∃ label, ThumbOppositionDetector.detect_state landmarks = Ok label
          ∧ label ∈ ["UNKNOWN"; "TRACKING"]))
  ∧ length frame_malformed = 21%nat
  ∧ HandOpenCloseDetector.detect_state frame_malformed = Ok "TRANSITION"
  ∧ PinchDetector.detect_state frame_malformed = Ok "TRANSITION"
  ∧ AbductionAdductionDetector.detect_state frame_malformed = Raise (KeyError "x")
  ∧ FingerLiftsDetector.detect_state frame_malformed = Raise (KeyError "x").
Proof.
  split_and!; try (vm_compute; reflexivity).
  - intros landmarks Hlen. pose proof (short_frame_guard landmarks Hlen) as Hg.
    unfold HandOpenCloseDetector.detect_state, PinchDetector.detect_state,
      AbductionAdductionDetector.detect_state, FingerLiftsDetector.detect_state,
      ThumbOppositionDetector.detect_state.
    by rewrite Hg.
  - intros landmarks. split_and!.
    + unfold HandOpenCloseDetector.detect_state.
      destruct (_ || _); [eexists; split; [done|set_solver]|].
      pose proof (open_close_body_outcome landmarks) as Hb.
      destruct (HandOpenCloseDetector.detect_state_body landmarks) as [label|[]];
        try done; eexists; split; try done; set_solver.
    + unfold PinchDetector.detect_state.
      destruct (_ || _); [eexists; split; [done|set_solver]|].
      pose proof (pinch_body_outcome landmarks) as Hb.
      destruct (PinchDetector.detect_state_body landmarks) as [label|[]];
        try done; eexists; split; try done; set_solver.
    + unfold ThumbOppositionDetector.detect_state.
      destruct (_ || _); eexists; (split; [done|set_solver]).
Qed.

(** ** The composed thumb-opposition label *)

Lemma probe_touched_None {libm : Libm} (landmarks : list Landmark) (seq : list string) :
  probe_touched landmarks seq = None
  ↔ ∀ f, f ∈ seq → ThumbOppositionDetector.detect_touch_target landmarks f ≠ Ok true.
Proof.
  induction seq as [|g seq IH]; cbn [probe_touched].
  - split; [|done]. intros _ f Hf. by apply elem_of_nil in Hf.
  - destruct (ThumbOppositionDetector.detect_touch_target landmarks g) as [[]|e] eqn:Hg.
    + split; [done|]. intros H. destruct (H g); [by left|done].
    + rewrite IH. split.
      * intros H f [->|Hf]%elem_of_cons; [by rewrite Hg|by apply H].
      * intros H f Hf. apply H. by right.
    + rewrite IH. split.
      * intros H f [->|Hf]%elem_of_cons; [by rewrite Hg|by apply H].
      * intros H f Hf. apply H. by right.
Qed.

Lemma compose_label_release (touched : option string) (expected : string) :
  compose_label touched expected = "RELEASE" ↔ touched = None.
Proof.
  unfold compose_label. destruct touched as [finger|]; [|done].
  split; [|done]. by destruct (Py.str_eq finger expected).
Qed.

Lemma touch_and_release_tests {libm : Libm} (landmarks : list Landmark) (f : string) (d : float) :
  ThumbOppositionDetector.normalized_distance landmarks f = Ok d →
  ThumbOppositionDetector.detect_touch_target landmarks f = Ok (PrimFloat.leb d 0.22)
  ∧ ThumbOppositionDetector.detect_released landmarks f = Ok (PrimFloat.leb 0.28 d).
Proof.
  intros Hd.
  unfold ThumbOppositionDetector.detect_touch_target,
    ThumbOppositionDetector.detect_released.
  rewrite Hd. split; reflexivity.
Qed.

(** The thumb-opposition branch of [analyze] on a well-formed manager. *)
Lemma analyze_thumb {libm : Libm} (clock : nat → float) (state_manager : StateManager)
    (landmarks : list Landmark) :
  well_formed state_manager → landmarks ≠ [] →
  ∃ st expected c r state_manager',
    states state_manager !! "thumb_opposition" = Some st
    ∧ finger_sequence !! Z.to_nat (get_sequence_index st) = Some expected
    ∧ update_state clock state_manager "thumb_opposition"
        (compose_label (probe_touched landmarks finger_sequence) expected)
      = Ok (c, r, state_manager')
    ∧ analyze clock state_manager landmarks "thumb_opposition"
      = (Success {| state := compose_label (probe_touched landmarks finger_sequence) expected;
                    response_repetitions := r; state_changed := c |},
         state_manager').
Proof.
  intros Hwf Hne.
  pose proof Hwf as (Hdom & Hthumb & _).
  destruct (Hdom "thumb_opposition") as [st Hst];
    [apply elem_of_exercise_types; auto|].
  destruct (Hthumb st Hst) as [Hc _].
  destruct (cursor_ok_expected st Hc) as [expected Hexp].
  destruct (update_state_returns clock state_manager "thumb_opposition"
              (compose_label (probe_touched landmarks finger_sequence) expected) Hwf)
    as (c & r & sm' & Hup); [apply elem_of_exercise_types; auto|].
  exists st, expected, c, r, sm'. split_and!; try done.
  unfold analyze. destruct landmarks as [|p landmarks]; [done|]. cbn [Py.not_list].
  change (detector_detect_state "thumb_opposition")
    with (Some ThumbOppositionDetector.detect_state).
  unfold analyze_label. cbn [Py.str_eq String.eqb Ascii.eqb Bool.eqb].
  unfold Py.dict_getitem. rewrite Hst. cbn [mbind result_bind].
  rewrite (getitem_finger_sequence _ _ Hc Hexp). cbn [mbind result_bind].
  rewrite Hup. reflexivity.
Qed.

(** C7 (as amended). A target finger tests as touched iff its normalized
    distance is at most 0.22 and as released iff it is at least 0.28. The
    pipeline probes INDEX, MIDDLE, RING, PINKY with the touch test only, and
    its label is RELEASE exactly when no finger tests as touched: then every
    finger whose distance can be computed has it above the touch threshold
    0.22 (or not comparable with it), and the release threshold plays no
    part. *)
Theorem release_label_rule {libm : Libm} (clock : nat → float) (state_manager : StateManager)
    (landmarks : list Landmark) :
  well_formed state_manager → landmarks ≠ [] →
  (∀ f d, ThumbOppositionDetector.normalized_distance landmarks f = Ok d →
     ThumbOppositionDetector.detect_touch_target landmarks f = Ok (PrimFloat.leb d 0.22)
     ∧ ThumbOppositionDetector.detect_released landmarks f = Ok (PrimFloat.leb 0.28 d))
  ∧ ∃ st expected r state_manager',
      states state_manager !! "thumb_opposition" = Some st
      ∧ finger_sequence !! Z.to_nat (get_sequence_index st) = Some expected
      ∧ analyze clock state_manager landmarks "thumb_opposition"
          = (Success r, state_manager')
      ∧ state r = compose_label (probe_touched landmarks finger_sequence) expected
      ∧ (state r = "RELEASE" ↔
           ∀ f, f ∈ finger_sequence →
             ThumbOppositionDetector.detect_touch_target landmarks f ≠ Ok true)
      ∧ (state r = "RELEASE" →
           ∀ f d, f ∈ finger_sequence →
             ThumbOppositionDetector.normalized_distance landmarks f = Ok d →
             PrimFloat.leb d 0.22 = false).
Proof.
  intros Hwf Hne. split; [apply touch_and_release_tests|].
  destruct (analyze_thumb clock state_manager landmarks Hwf Hne)
    as (st & expected & c & r & sm' & Hst & Hexp & _ & Han).
  eexists st, expected, _, sm'. split_and!; try done; cbn [state].
  - by rewrite compose_label_release, probe_touched_None.
  - rewrite compose_label_release, probe_touched_None. intros H f d Hf Hd.
    specialize (H f Hf).
    destruct (touch_and_release_tests landmarks f d Hd) as [Ht _].
    rewrite Ht in H. destruct (PrimFloat.leb d 0.22); [by destruct H|done].
Qed.

Lemma release_label_rule_witness :
  (∀ f d, ThumbOppositionDetector.normalized_distance frame_between f = Ok d →
     ThumbOppositionDetector.detect_touch_target frame_between f = Ok (PrimFloat.leb d 0.22)
     ∧ ThumbOppositionDetector.detect_released frame_between f = Ok (PrimFloat.leb 0.28 d))
  ∧ ∃ st expected r state_manager',
      states (__init__ (λ _, 0%float)) !! "thumb_opposition" = Some st
      ∧ finger_sequence !! Z.to_nat (get_sequence_index st) = Some expected
      ∧ analyze (λ _, 1%float) (__init__ (λ _, 0%float)) frame_between "thumb_opposition"
          = (Success r, state_manager')
      ∧ state r = compose_label (probe_touched frame_between finger_sequence) expected
      ∧ (state r = "RELEASE" ↔
           ∀ f, f ∈ finger_sequence →
             ThumbOppositionDetector.detect_touch_target frame_between f ≠ Ok true)
      ∧ (state r = "RELEASE" →
           ∀ f d, f ∈ finger_sequence →
             ThumbOppositionDetector.normalized_distance frame_between f = Ok d →
             PrimFloat.leb d 0.22 = false).
Proof.
  apply (release_label_rule (λ _, 1%float) (__init__ (λ _, 0%float)) frame_between).
  - apply init_well_formed.
  - discriminate.
Defined.

(** C7, counterexample to the claim as stated: on a frame whose four
    fingertips are at normalized distance 0.25 from the thumb tip, strictly
    between 0.22 and 0.28, the pipeline of the fresh manager (expected finger
    INDEX) answers RELEASE although no finger passes the release test. The
    differences squared on this frame are 0, 1 and 0.25, whose squares are
    binary64 values. *)
Lemma release_inside_hysteresis_band :
  (∃ state_manager',
     analyze (λ _, 1%float) (__init__ (λ _, 0%float)) frame_between "thumb_opposition"
     = (Success {| state := "RELEASE"; response_repetitions := 0;
                   state_changed := false |}, state_manager'))
  ∧ Forall (λ f,
       ThumbOppositionDetector.normalized_distance frame_between f = Ok 0.25%float
       ∧ ThumbOppositionDetector.detect_touch_target frame_between f = Ok false
       ∧ ThumbOppositionDetector.detect_released frame_between f = Ok false)
      finger_sequence
  ∧ PrimFloat.ltb 0.22 0.25 = true
  ∧ PrimFloat.ltb 0.25 0.28 = true.
Proof.
  split_and!; [eexists; vm_compute; reflexivity | | reflexivity | reflexivity].
  repeat constructor; vm_compute; reflexivity.
Qed.

(** * Further properties of the state manager *)

(** What an accepted call leaves in the record of its exercise. *)
Lemma update_state_accepted (clock : nat → float) (self self' : StateManager)
    (e l : string) (r : Z) :
  update_state clock self e l = Ok (true, r, self') →
  ∃ st st', states self !! e = Some st
    ∧ self' = store self e st'
    ∧ r = repetitions st'
    ∧ current_state st' = l
    ∧ previous_state st' = current_state st
    ∧ (last_state_change st' = clock 0%nat ∨ last_state_change st' = clock 1%nat)
    ∧ (e ≠ "thumb_opposition" →
         ¬ is_transition l ∧ l ≠ current_state st
         ∧ sequence_index st' = sequence_index st
         ∧ is_touching st' = is_touching st).
Proof.
  unfold update_state.
  destruct (states self !! e) as [st|] eqn:Hst; [|discriminate].
  intros H. exists st.
  destruct (str_eq_spec e "thumb_opposition") as [->|Hne].
  - destruct (Py.startswith l "TOUCH_").
    + destruct (Py.getitem _ _) as [expected|]; [|discriminate]. simpl in H.
      destruct (_ && _); [|discriminate]. simplify_eq.
      eexists. split_and!; try done; try by left.
      all: by destruct (_ =? _).
    + destruct (Py.str_in _ _); [destruct (get_is_touching st)|]; simplify_eq.
      eexists. split_and!; try done. by left.
  - destruct (Py.str_eq e "finger_lifts").
    + destruct (decide (is_transition l)) as [Ht|Hnt].
      { apply is_transition_normalized in Ht. rewrite Ht in H. discriminate H. }
      destruct (not_transition_normalized l Hnt) as [Hl Hf].
      rewrite Hl, Hf in H.
      destruct (str_eq_spec l (current_state st)) as [Heq|Hneq]; simpl in H;
        [discriminate|]. simplify_eq.
      eexists. split_and!; try done; try by left.
      all: intros _; split_and!; try done; by destruct (_ && _).
    + destruct (decide (is_transition l)) as [Ht|Hnt].
      { apply is_transition_normalized in Ht. rewrite Ht in H. discriminate H. }
      destruct (not_transition_normalized l Hnt) as [Hl Hf].
      rewrite Hl, Hf in H.
      destruct (str_eq_spec l (current_state st)) as [Heq|Hneq]; cbn [negb andb] in H;
        [discriminate|].
      destruct (Py.ge _ _); [|discriminate]. cbv zeta in H. simplify_eq.
      eexists. split_and!; try done; try by right.
      intros _. split_and!; try done.
      * destruct (_ || _); [by destruct (_ && _)|].
        destruct (Py.str_eq e "abduction_adduction"); [by destruct (_ && _)|done].
      * destruct (_ || _); [by destruct (_ && _)|].
        destruct (Py.str_eq e "abduction_adduction"); [by destruct (_ && _)|done].
Qed.

Lemma init_domain (clock : nat → float) :
  dom (states (__init__ clock)) = list_to_set exercise_types.
Proof.
  unfold __init__, exercise_types. cbn [states].
  rewrite !dom_insert_L, dom_empty_L. set_solver.
Qed.

Lemma dom_store (self : StateManager) (e : string) (st st' : ExerciseState) :
  states self !! e = Some st →
  dom (states (store self e st')) = dom (states self).
Proof.
  intros Hst. rewrite states_store, dom_insert_L.
  apply (elem_of_dom_2 (D := gset string)) in Hst. set_solver.
Qed.

Lemma reachable_domain (self : StateManager) :
  reachable self → dom (states self) = list_to_set exercise_types.
Proof.
  induction 1 as [clock|clock self e l c r self' _ IH Hup|clock self e _ IH].
  - apply init_domain.
  - destruct (update_state_cases _ _ _ _ _ _ _ Hup) as (st & st' & Hst & -> & _).
    by rewrite (dom_store _ _ st).
  - unfold reset. destruct (states self !! e) as [st|] eqn:Hst; [|done].
    by rewrite (dom_store _ _ st).
Qed.

Lemma reachable_counts_nonneg (self : StateManager) :
  reachable self → counts_nonneg self.
Proof.
  induction 1 as [clock|clock self e l c r self' _ IH Hup|clock self e _ IH].
  - intros e st Hst. unfold __init__ in Hst. cbn [states] in Hst.
    repeat (apply lookup_insert_Some in Hst as [[_ <-]|[_ Hst]]; [done|]).
    by rewrite lookup_empty in Hst.
  - destruct (update_state_cases _ _ _ _ _ _ _ Hup) as (st & st' & Hst & -> & _ & Hr & _).
    intros e0 s0. rewrite states_store, lookup_insert. case_decide as Heq.
    + intros [= <-]. specialize (IH e st Hst). lia.
    + apply IH.
  - unfold reset. destruct (states self !! e) as [st|] eqn:Hst; [|done].
    intros e0 s0. rewrite states_store, lookup_insert. case_decide as Heq.
    + by intros [= <-].
    + apply IH.
Qed.

(** X1. In every manager reachable from [__init__] by calls of
    [update_state] and [reset], the records are exactly those of the five
    exercise types, no repetition count is negative, and the minimum hold
    time is 0.2 s. *)
Theorem reachable_records (self : StateManager) :
  reachable self →
  exact_domain self ∧ counts_nonneg self ∧ MIN_STATE_DURATION self = 0.2%float.
Proof.
  intros Hr. split_and!.
  - intros e. rewrite <- (elem_of_dom (D := gset string)), (reachable_domain self Hr).
    apply elem_of_list_to_set.
  - by apply reachable_counts_nonneg.
  - by apply reachable_well_formed in Hr as (_ & _ & Hmin).
Qed.

Lemma reachable_records_witness :
  let self := reset (λ _, 2%float) (__init__ (λ _, 0%float)) "pinch" in
  exact_domain self ∧ counts_nonneg self ∧ MIN_STATE_DURATION self = 0.2%float.
Proof.
  apply (reachable_records (reset (λ _, 2%float) (__init__ (λ _, 0%float)) "pinch")).
  apply reachable_reset, reachable_init.
Defined.

(** X2. In every reachable manager the sequence cursor of thumb_opposition
    is one of 0, 1, 2, 3, so that the lookup of the expected finger never
    leaves the four-finger tuple, and the touching flag is set exactly while
    the current label starts with TOUCH_. *)
Theorem reachable_thumb_record (self : StateManager) (st : ExerciseState) :
  reachable self →
  states self !! "thumb_opposition" = Some st →
  0 ≤ get_sequence_index st < 4
  ∧ (∃ expected, Py.getitem finger_sequence (get_sequence_index st) = Ok expected
       ∧ expected ∈ finger_sequence)
  ∧ (get_is_touching st = true ↔ Py.startswith (current_state st) "TOUCH_" = true).
Proof.
  intros Hr Hst. apply reachable_well_formed in Hr as (_ & Hthumb & _).
  destruct (Hthumb st Hst) as [Hc Ht]. split_and!; try apply Hc.
  - destruct (cursor_ok_expected st Hc) as [expected Hexp]. exists expected.
    split; [by apply getitem_finger_sequence|by eapply list_elem_of_lookup_2].
  - unfold touch_consistent in Ht. by rewrite Ht.
Qed.

Lemma reachable_thumb_record_witness :
  ∃ st, states (__init__ (λ _, 0%float)) !! "thumb_opposition" = Some st
    ∧ 0 ≤ get_sequence_index st < 4
    ∧ (∃ expected, Py.getitem finger_sequence (get_sequence_index st) = Ok expected
         ∧ expected ∈ finger_sequence)
    ∧ (get_is_touching st = true ↔ Py.startswith (current_state st) "TOUCH_" = true).
Proof.
  eexists. split; [reflexivity|].
  apply (reachable_thumb_record (__init__ (λ _, 0%float))); [apply reachable_init|].
  reflexivity.
Defined.

Lemma reachable_plain_records (self : StateManager) :
  reachable self → plain_records self.
Proof.
  induction 1 as [clock|clock self e l c r self' _ IH Hup|clock self e _ IH].
  - intros e st Hst Hne. unfold __init__ in Hst. cbn [states] in Hst.
    repeat (apply lookup_insert_Some in Hst as [[<- <-]|[_ Hst]];
            [try done; split_and!; try done; by intros [|]|]).
    by rewrite lookup_empty in Hst.
  - intros e0 s0 Hs0 Hne. destruct c.
    + destruct (update_state_accepted _ _ _ _ _ _ Hup)
        as (st & st' & Hst & -> & _ & Hcur & _ & _ & Hplain).
      rewrite states_store, lookup_insert in Hs0. case_decide as Heq.
      * simplify_eq. destruct (Hplain Hne) as (Hnt & _ & Hsi & Hit).
        destruct (IH e0 st Hst Hne) as (_ & Hsi0 & Hit0).
        split_and!; congruence.
      * by apply (IH e0).
    + destruct (update_state_cases _ _ _ _ _ _ _ Hup)
        as (st & st' & Hst & -> & _ & _ & Hsame).
      rewrite (Hsame eq_refl), (store_id _ _ _ Hst) in Hs0. by apply (IH e0).
  - unfold reset. destruct (states self !! e) as [st|] eqn:Hst; [|done].
    intros e0 s0. rewrite states_store, lookup_insert. case_decide as Heq.
    + intros [= <-] _. split_and!; try done. by intros [|].
    + apply IH.
Qed.

(** X3. In every reachable manager the current label of open_close, pinch,
    abduction_adduction and finger_lifts is never TRANSITION or
    TRANSITIONING, and their records never acquire a sequence cursor or a
    touching flag. *)
Theorem transition_label_never_stored (self : StateManager) (e : string) :
  reachable self →
  e ∈ exercise_types → e ≠ "thumb_opposition" →
  get_current_state self e ≠ "TRANSITION"
  ∧ get_current_state self e ≠ "TRANSITIONING"
  ∧ ∃ st, states self !! e = Some st
      ∧ sequence_index st = None ∧ is_touching st = None.
Proof.
  intros Hr He Hne.
  pose proof (reachable_well_formed self Hr) as (Hdom & _).
  destruct (Hdom e He) as [st Hst].
  destruct (reachable_plain_records self Hr e st Hst Hne) as (Hnt & Hsi & Hit).
  unfold get_current_state. rewrite Hst. unfold is_transition in Hnt.
  split_and!; [naive_solver..|]. by exists st.
Qed.

Lemma transition_label_never_stored_witness :
  let self := __init__ (λ _, 0%float) in
  get_current_state self "finger_lifts" ≠ "TRANSITION"
  ∧ get_current_state self "finger_lifts" ≠ "TRANSITIONING"
  ∧ ∃ st, states self !! "finger_lifts" = Some st
      ∧ sequence_index st = None ∧ is_touching st = None.
Proof.
  apply (transition_label_never_stored (__init__ (λ _, 0%float)) "finger_lifts").
  - apply reachable_init.
  - repeat constructor.
  - discriminate.
Defined.

(** X4. In a reachable manager an exercise type outside the enumeration is
    refused and inert: [update_state] raises the [ValueError] naming it,
    [reset] changes nothing and the readers answer OPEN and 0; on a type of
    the enumeration [update_state] returns, so that [ValueError] is the only
    exception it ever raises there. *)
Theorem unknown_exercise_type (clock : nat → float) (self : StateManager)
    (e l : string) :
  reachable self →
  (e ∉ exercise_types →
     update_state clock self e l = Raise (ValueError ("Unknown exercise type: " +:+ e))
     ∧ reset clock self e = self
     ∧ get_current_state self e = "OPEN"
     ∧ get_repetitions self e = 0)
  ∧ (e ∈ exercise_types → ∃ c r self', update_state clock self e l = Ok (c, r, self'))
  ∧ (∀ ex, update_state clock self e l = Raise ex →
       (e ∉ exercise_types) ∧ ex = ValueError ("Unknown exercise type: " +:+ e)).
Proof.
  intros Hr.
  assert (Hnone : e ∉ exercise_types → states self !! e = None).
  { intros Hn. apply (not_elem_of_dom (D := gset string)).
    rewrite (reachable_domain self Hr). by rewrite elem_of_list_to_set. }
  pose proof (reachable_well_formed self Hr) as Hwf.
  split_and!.
  - intros Hn. unfold update_state, reset, get_current_state, get_repetitions.
    by rewrite (Hnone Hn).
  - by apply update_state_returns.
  - intros ex Hex. destruct (decide (e ∈ exercise_types)) as [He|Hn].
    + destruct (update_state_returns clock self e l Hwf He) as (c & r & s & Hok).
      congruence.
    + split; [done|]. unfold update_state in Hex. rewrite (Hnone Hn) in Hex. congruence.
Qed.

Lemma unknown_exercise_type_witness :
  let self := __init__ (λ _, 0%float) in
  update_state (λ _, 1%float) self "squat" "OPEN"
    = Raise (ValueError "Unknown exercise type: squat")
  ∧ reset (λ _, 1%float) self "squat" = self
  ∧ get_current_state self "squat" = "OPEN"
  ∧ get_repetitions self "squat" = 0.
Proof.
  cbv zeta.
  destruct (unknown_exercise_type (λ _, 1%float) (__init__ (λ _, 0%float)) "squat" "OPEN")
    as (Hunknown & _); [apply reachable_init|].
  apply Hunknown. unfold exercise_types. rewrite !elem_of_cons, elem_of_nil.
  intros [H|[H|[H|[H|[H|[]]]]]]; discriminate H.
Defined.

(** X5. A call of [update_state] that returns touches the record of its own
    exercise type only: the record of every other exercise type, the set of
    exercise types and the minimum hold time are as before. *)
Theorem update_state_isolated (clock : nat → float) (self self' : StateManager)
    (e l : string) (c : bool) (r : Z) :
  update_state clock self e l = Ok (c, r, self') →
  (∀ e', e' ≠ e →
     states self' !! e' = states self !! e'
     ∧ get_current_state self' e' = get_current_state self e'
     ∧ get_repetitions self' e' = get_repetitions self e')
  ∧ dom (states self') = dom (states self)
  ∧ MIN_STATE_DURATION self' = MIN_STATE_DURATION self.
Proof.
  intros Hup.
  destruct (update_state_cases _ _ _ _ _ _ _ Hup) as (st & st' & Hst & -> & _).
  split_and!; [|by apply (dom_store _ _ st)|done].
  intros e' Hne.
  assert (Hl : states (store self e st') !! e' = states self !! e')
    by (by apply lookup_store_ne).
  unfold get_current_state, get_repetitions. by rewrite Hl.
Qed.

Lemma update_state_isolated_witness :
  ∃ self',
    update_state (λ _, 1%float) (__init__ (λ _, 0%float)) "finger_lifts" "INDEX_UP"
      = Ok (true, 0, self')
    ∧ (∀ e', e' ≠ "finger_lifts" →
         states self' !! e' = states (__init__ (λ _, 0%float)) !! e'
         ∧ get_current_state self' e' = get_current_state (__init__ (λ _, 0%float)) e'
         ∧ get_repetitions self' e' = get_repetitions (__init__ (λ _, 0%float)) e')
    ∧ dom (states self') = dom (states (__init__ (λ _, 0%float)))
    ∧ MIN_STATE_DURATION self' = MIN_STATE_DURATION (__init__ (λ _, 0%float)).
Proof.
  eexists. split; [vm_compute; reflexivity|].
  eapply (update_state_isolated (λ _, 1%float) (__init__ (λ _, 0%float)) _
            "finger_lifts" "INDEX_UP" true 0).
  vm_compute. reflexivity.
Defined.

(** X6. A call that reports a change has committed the submitted label: it
    is the current label afterwards, the label it replaced is the previous
    one, and the timestamp is a clock reading of the call; outside
    thumb_opposition the committed label is never an in-between one and
    differs from the one it replaced. A call that changes the count reports a
    change, and the count it leaves is one more than before. *)
Theorem accepted_call_commits_label (clock : nat → float) (self self' : StateManager)
    (e l : string) (c : bool) (r : Z) :
  update_state clock self e l = Ok (c, r, self') →
  (c = true →
     get_current_state self' e = l
     ∧ (e ≠ "thumb_opposition" → ¬ is_transition l ∧ l ≠ get_current_state self e)
     ∧ ∃ st st', states self !! e = Some st ∧ states self' !! e = Some st'
         ∧ previous_state st' = current_state st
         ∧ (last_state_change st' = clock 0%nat ∨ last_state_change st' = clock 1%nat))
  ∧ (get_repetitions self' e ≠ get_repetitions self e →
       c = true ∧ get_repetitions self' e = get_repetitions self e + 1).
Proof.
  intros Hup. split.
  - intros ->.
    destruct (update_state_accepted _ _ _ _ _ _ Hup)
      as (st & st' & Hst & -> & _ & Hcur & Hprev & Hlast & Hplain).
    rewrite get_current_state_store_eq. split_and!; [done| |].
    + intros Hne. destruct (Hplain Hne) as (Hnt & Hdiff & _).
      unfold get_current_state. by rewrite Hst.
    + exists st, st'. split_and!; try done. apply lookup_store_eq.
  - intros Hdiff.
    destruct (update_state_cases _ _ _ _ _ _ _ Hup)
      as (st & st' & Hst & -> & _ & Hr & Hsame).
    rewrite get_repetitions_store_eq in *.
    unfold get_repetitions in *. rewrite Hst in *.
    split; [|lia]. destruct c; [done|]. rewrite (Hsame eq_refl) in Hdiff. done.
Qed.

Lemma accepted_call_commits_label_witness :
  ∃ self',
    update_state (λ _, 1%float) (__init__ (λ _, 0%float)) "abduction_adduction" "SPREAD"
      = Ok (true, 1, self')
    ∧ get_current_state self' "abduction_adduction" = "SPREAD"
    ∧ get_repetitions self' "abduction_adduction"
        = get_repetitions (__init__ (λ _, 0%float)) "abduction_adduction" + 1.
Proof.
  eexists. split; [vm_compute; reflexivity|].
  match goal with |- get_current_state ?s _ = _ ∧ _ =>
    destruct (accepted_call_commits_label (λ _, 1%float) (__init__ (λ _, 0%float)) s
                "abduction_adduction" "SPREAD" true 1) as [Hacc Hcount];
      [vm_compute; reflexivity|]
  end.
  split; [by apply Hacc|]. apply Hcount. vm_compute. discriminate.
Defined.

(** X7. In thumb_opposition two touches are never accepted in a row: right
    after an accepted TOUCH_ label every label that starts with TOUCH_ is
    rejected, whatever its finger, and a RELEASE or TRANSITION is accepted. *)
Theorem thumb_touch_needs_release (clock clock' : nat → float)
    (self self' : StateManager) (l l' : string) (r : Z) :
  Py.startswith l "TOUCH_" = true →
  update_state clock self "thumb_opposition" l = Ok (true, r, self') →
  (Py.startswith l' "TOUCH_" = true →
     update_state clock' self' "thumb_opposition" l' = Ok (false, r, self'))
  ∧ (l' = "RELEASE" ∨ l' = "TRANSITION" →
     ∃ self'', update_state clock' self' "thumb_opposition" l' = Ok (true, r, self'')).
Proof.
  intros Hpre Hup.
  destruct (update_state_cases _ _ _ _ _ _ _ Hup) as (st & st0 & Hst & _).
  assert (Hacc : ∃ st', self' = store self "thumb_opposition" st'
                  ∧ r = repetitions st'
                  ∧ is_touching st' = Some true
                  ∧ 0 ≤ get_sequence_index st' < 4).
  { unfold update_state in Hup. rewrite Hst in Hup.
    cbn [Py.str_eq String.eqb Ascii.eqb Bool.eqb] in Hup. rewrite Hpre in Hup.
    destruct (Py.getitem _ _) as [expected|]; [|discriminate].
    cbn [mbind result_bind] in Hup.
    destruct (_ && _); [|discriminate]. simplify_eq.
    eexists. split_and!; try done; try by destruct (_ =? _).
    all: unfold get_sequence_index at 1;
      destruct (_ =? 0); simpl; apply Z.mod_pos_bound; lia. }
  destruct Hacc as (st' & -> & -> & Ht & Hc).
  pose proof (lookup_store_eq self "thumb_opposition" st') as Hst'.
  assert (Htouch : get_is_touching st' = true) by (unfold get_is_touching; by rewrite Ht).
  split.
  - intros Hpre'. destruct (cursor_ok_expected st' Hc) as [expected Hexp].
    apply (update_thumb_touch_rejected _ _ st' l' expected); auto.
  - intros Hl'. rewrite (update_thumb_release _ _ st' l' Hst' Hl'), Htouch.
    by eexists.
Qed.

Lemma thumb_touch_needs_release_witness :
  ∃ self',
    update_state (λ _, 1%float) (__init__ (λ _, 0%float)) "thumb_opposition" "TOUCH_INDEX"
      = Ok (true, 0, self')
    ∧ update_state (λ _, 2%float) self' "thumb_opposition" "TOUCH_MIDDLE"
        = Ok (false, 0, self')
    ∧ ∃ self'', update_state (λ _, 2%float) self' "thumb_opposition" "RELEASE"
                  = Ok (true, 0, self'').
Proof.
  eexists. split; [vm_compute; reflexivity|].
  match goal with |- update_state _ ?s _ _ = _ ∧ _ =>
    destruct (thumb_touch_needs_release (λ _, 1%float) (λ _, 2%float)
                (__init__ (λ _, 0%float)) s "TOUCH_INDEX" "TOUCH_MIDDLE" 0) as [Hrej _];
      [reflexivity | vm_compute; reflexivity |];
    destruct (thumb_touch_needs_release (λ _, 1%float) (λ _, 2%float)
                (__init__ (λ _, 0%float)) s "TOUCH_INDEX" "RELEASE" 0) as [_ Hrel];
      [reflexivity | vm_compute; reflexivity |]
  end.
  split; [by apply Hrej | apply Hrel; by left].
Defined.

(** X8. [reset] of thumb_opposition restarts the finger sequence: whatever
    the cursor and the touching flag were, the record it leaves has neither,
    reads as cursor 0 and not touching, and the eight-label cycle run right
    after it returns and brings the count from 0 to exactly 1. *)
Theorem reset_restarts_thumb_sequence (clock : nat → float) (clocks : nat → nat → float)
    (self : StateManager) :
  is_Some (states self !! "thumb_opposition") →
  (∃ st, states (reset clock self "thumb_opposition") !! "thumb_opposition" = Some st
     ∧ get_sequence_index st = 0 ∧ get_is_touching st = false
     ∧ repetitions st = 0)
  ∧ ∃ self', run (Reset clock "thumb_opposition" :: thumb_cycle clocks) self = Ok self'
      ∧ get_repetitions self' "thumb_opposition" = 1.
Proof.
  intros [st0 Hst0].
  assert (Hst : states (reset clock self "thumb_opposition") !! "thumb_opposition"
                = Some (plain_state "OPEN" (clock 0%nat))).
  { unfold reset. rewrite Hst0. apply lookup_store_eq. }
  split; [by eexists|].
  destruct (thumb_cycle_counts_one clocks _ _ Hst) as (self' & Hrun & Hrep); [done..|].
  exists self'. split; [exact Hrun|]. rewrite Hrep. reflexivity.
Qed.

Lemma reset_restarts_thumb_sequence_witness :
  ∃ self',
    run (Reset (λ _, 9%float) "thumb_opposition" :: thumb_cycle (λ _ _, 10%float))
        (__init__ (λ _, 0%float)) = Ok self'
    ∧ get_repetitions self' "thumb_opposition" = 1.
Proof.
  destruct (reset_restarts_thumb_sequence (λ _, 9%float) (λ _ _, 10%float)
              (__init__ (λ _, 0%float))) as [_ H]; [by eexists|].
  exact H.
Defined.

(** One accepted call under the debounce rule. *)
Lemma update_debounced_accept (clock : nat → float) (self : StateManager)
    (e l : string) (st : ExerciseState) :
  e ∈ ["open_close"; "pinch"; "abduction_adduction"] →
  states self !! e = Some st →
  ¬ is_transition l → l ≠ current_state st →
  Py.ge (PrimFloat.sub (clock 0%nat) (last_state_change st)) (MIN_STATE_DURATION self) = true →
  ∃ b : bool,
    update_state clock self e l =
      Ok (true, repetitions st + (if b then 1 else 0),
          store self e
            (commit (current_state st) l (clock 1%nat)
               (if b then count_repetition st else st)))
    ∧ (b = true ↔ closing_edge e (current_state st) l).
Proof.
  intros He Hst Hnt Hne Hel.
  rewrite (update_debounced clock self e l st He Hst). cbv zeta.
  destruct (not_transition_normalized l Hnt) as [-> ->].
  apply str_eq_false in Hne. rewrite Hne, Hel. cbn [negb andb].
  destruct (closing_edge_count e (current_state st) l st He) as (b & -> & Hb).
  exists b. split; [|done]. destruct b; simpl; repeat f_equal; lia.
Qed.

Lemma update_debounced_drop (clock : nat → float) (self : StateManager)
    (e l : string) (st : ExerciseState) :
  e ∈ ["open_close"; "pinch"; "abduction_adduction"] →
  states self !! e = Some st →
  Py.ge (PrimFloat.sub (clock 0%nat) (last_state_change st)) (MIN_STATE_DURATION self) = false →
  update_state clock self e l = Ok (false, repetitions st, self).
Proof.
  intros He Hst Hel.
  rewrite (update_debounced clock self e l st He Hst). cbv zeta.
  rewrite Hel, andb_false_r. by destruct (Py.str_eq _ "TRANSITION").
Qed.

(** X9. One open_close or pinch repetition, with its timing. From a record
    whose label is OPEN, a CLOSED frame at least 0.2 s after the last
    accepted change is committed and stamped with the second clock reading
    of its call; an OPEN frame at least 0.2 s after that stamp then completes
    the repetition, and the count is one more than at the start; an OPEN
    frame sooner than that is dropped, the label stays CLOSED and the count
    is as at the start. *)
Theorem open_close_repetition (c1 c2 : nat → float) (self : StateManager)
    (e : string) (st : ExerciseState) :
  e ∈ ["open_close"; "pinch"] →
  states self !! e = Some st →
  MIN_STATE_DURATION self = 0.2%float →
  current_state st = "OPEN" →
  PrimFloat.leb 0.2 (PrimFloat.sub (c1 0%nat) (last_state_change st)) = true →
  ∃ self',
    run [Update c1 e "CLOSED"; Update c2 e "OPEN"] self = Ok self'
    ∧ (PrimFloat.leb 0.2 (PrimFloat.sub (c2 0%nat) (c1 1%nat)) = true →
         get_current_state self' e = "OPEN"
         ∧ get_repetitions self' e = repetitions st + 1)
    ∧ (PrimFloat.leb 0.2 (PrimFloat.sub (c2 0%nat) (c1 1%nat)) = false →
         get_current_state self' e = "CLOSED"
         ∧ get_repetitions self' e = repetitions st).
Proof.
  intros He Hst Hmin Hopen Hel1.
  assert (He3 : e ∈ ["open_close"; "pinch"; "abduction_adduction"])
    by (revert He; rewrite !elem_of_cons, !elem_of_nil; naive_solver).
  destruct (update_debounced_accept c1 self e "CLOSED" st He3 Hst)
    as (b1 & Hup1 & Hb1).
  { by intros [|]. } { by rewrite Hopen. } { by rewrite Hmin. }
  assert (b1 = false) as ->.
  { destruct b1; [|done]. destruct Hb1 as [Hb1 _].
    destruct (Hb1 eq_refl) as [Hc _]. by rewrite Hopen in Hc. }
  set (st1 := commit (current_state st) "CLOSED" (c1 1%nat) st) in *.
  set (s1 := store self e st1) in *.
  assert (Hst1 : states s1 !! e = Some st1) by apply lookup_store_eq.
  cbn [run]. rewrite Hup1. cbn [mbind result_bind].
  destruct (PrimFloat.leb 0.2 (PrimFloat.sub (c2 0%nat) (c1 1%nat))) eqn:Hel2.
  - destruct (update_debounced_accept c2 s1 e "OPEN" st1 He3 Hst1)
      as (b2 & Hup2 & Hb2).
    { by intros [|]. } { done. } { cbn. by rewrite Hmin. }
    assert (b2 = true) as ->.
    { apply Hb2. split; [done|]. left. split; [|done].
      revert He. rewrite !elem_of_cons, !elem_of_nil. naive_solver. }
    rewrite Hup2. cbn [mbind result_bind]. eexists. split; [reflexivity|].
    split; [|done]. intros _.
    rewrite get_current_state_store_eq, get_repetitions_store_eq. split; [done|].
    simpl. lia.
  - rewrite (update_debounced_drop c2 s1 e "OPEN" st1 He3 Hst1)
      by (cbn; by rewrite Hmin).
    cbn [mbind result_bind]. eexists. split; [reflexivity|].
    split; [done|]. intros _.
    unfold s1. rewrite get_current_state_store_eq, get_repetitions_store_eq.
    split; [done|]. simpl. lia.
Qed.

Lemma open_close_repetition_witness :
  ∃ self',
    run [Update (λ _, 1%float) "pinch" "CLOSED"; Update (λ _, 2%float) "pinch" "OPEN"]
        (__init__ (λ _, 0%float)) = Ok self'
    ∧ get_current_state self' "pinch" = "OPEN"
    ∧ get_repetitions self' "pinch" = 1.
Proof.
  destruct (open_close_repetition (λ _, 1%float) (λ _, 2%float) (__init__ (λ _, 0%float))
              "pinch" (plain_state "OPEN" 0%float))
    as (self' & Hrun & Hheld & _);
    [repeat constructor | reflexivity | reflexivity | reflexivity | reflexivity |].
  exists self'. split; [exact Hrun|]. apply Hheld. reflexivity.
Defined.

(** * Further properties of the detectors *)

Section FloatZero.

Lemma SFeqb_zero (x : spec_float) :
  SFeqb x (S754_zero false) = true → ∃ s, x = S754_zero s.
Proof.
  unfold SFeqb. destruct x as [s|s| |s m e]; simpl; try done.
  - intros _. by exists s.
  - by destruct s.
  - by destruct s.
Qed.

(** A float equal to zero is below 1e-6. *)
Lemma float_zero_lt_epsilon (x : float) :
  PrimFloat.eqb x 0 = true → PrimFloat.ltb x 1e-6 = true.
Proof.
  rewrite FloatAxioms.eqb_spec, FloatAxioms.ltb_spec.
  change (Prim2SF 0) with (S754_zero false).
  intros [s ->]%SFeqb_zero. vm_compute. reflexivity.
Qed.

(** The palm size is never zero, so no division by it raises. *)
Lemma max_epsilon_not_zero (size : float) :
  PrimFloat.eqb (Py.max size 1e-6) 0 = false.
Proof.
  unfold Py.max. destruct (PrimFloat.ltb size 1e-6) eqn:Hlt; [reflexivity|].
  destruct (PrimFloat.eqb size 0) eqn:Hz; [|reflexivity].
  apply float_zero_lt_epsilon in Hz. congruence.
Qed.

End FloatZero.

Section FloatTransitivity.

Ltac cmp_cases :=
  repeat match goal with
  | H : context [Z.compare ?a ?b] |- _ =>
      destruct (Z.compare_spec a b); try subst
  | |- context [Z.compare ?a ?b] =>
      destruct (Z.compare_spec a b); try subst
  | H : context [Pos.compare_cont Eq ?a ?b] |- _ =>
      change (Pos.compare_cont Eq a b) with (Pos.compare a b) in *;
      destruct (Pos.compare_spec a b); try subst
  | |- context [Pos.compare_cont Eq ?a ?b] =>
      change (Pos.compare_cont Eq a b) with (Pos.compare a b) in *;
      destruct (Pos.compare_spec a b); try subst
  end.

Lemma SFcompare_trans (x y z : spec_float) :
  le_code (SFcompare x y) = true → le_code (SFcompare y z) = true →
  le_code (SFcompare x z) = true
  ∧ (lt_code (SFcompare x y) = true ∨ lt_code (SFcompare y z) = true →
     lt_code (SFcompare x z) = true).
Proof.
  destruct x as [[]|[]| |[] mx ex], y as [[]|[]| |[] my ey], z as [[]|[]| |[] mz ez];
    simpl; try (intros; split; [reflexivity|tauto]); try discriminate;
    try (intros; discriminate);
    intros H1 H2.
  all: cmp_cases; simpl in *; try discriminate; try lia;
       try (split; [reflexivity| intros [|]; try reflexivity; try discriminate; try lia]).
Qed.

Lemma leb_code (x y : float) :
  PrimFloat.leb x y = le_code (SFcompare (Prim2SF x) (Prim2SF y)).
Proof. apply FloatAxioms.leb_spec. Qed.

Lemma ltb_code (x y : float) :
  PrimFloat.ltb x y = lt_code (SFcompare (Prim2SF x) (Prim2SF y)).
Proof. apply FloatAxioms.ltb_spec. Qed.

Lemma lt_code_le_code (c : option comparison) : lt_code c = true → le_code c = true.
Proof. by destruct c as [[]|]. Qed.

(** The order of binary64 floats is transitive. *)
Lemma float_le_trans (x y z : float) :
  PrimFloat.leb x y = true → PrimFloat.leb y z = true → PrimFloat.leb x z = true.
Proof.
  rewrite !leb_code. intros H1 H2.
  by destruct (SFcompare_trans _ _ _ H1 H2).
Qed.

Lemma float_lt_trans (x y z : float) :
  PrimFloat.ltb x y = true → PrimFloat.ltb y z = true → PrimFloat.ltb x z = true.
Proof.
  rewrite !ltb_code. intros H1 H2.
  destruct (SFcompare_trans (Prim2SF x) (Prim2SF y) (Prim2SF z)) as [_ H];
    auto using lt_code_le_code.
Qed.

End FloatTransitivity.

(** ** The abduction_adduction detector on full frames *)

Lemma getitem_lookup {A} (t : list A) (i : nat) (a : A) :
  t !! i = Some a → Py.getitem t (Z.of_nat i) = Ok a.
Proof.
  intros Ha. pose proof (lookup_lt_Some _ _ _ Ha) as Hi.
  destruct (getitem_nat_lt t i Hi) as (b & Hb & _).
  apply getitem_nat_Some in Hb as Hb'. congruence.
Qed.

Lemma palm_size_outcome {libm : Libm} (landmarks : list Landmark) (l0 l9 : Landmark) :
  landmarks !! 0%nat = Some l0 → landmarks !! 9%nat = Some l9 →
  match AbductionAdductionDetector._palm_size landmarks with
  | Ok palm => PrimFloat.eqb palm 0 = false ∧ has_xy l0 ∧ has_xy l9
  | Raise ex =>
      missing_coordinate ex ∧ ¬ (has_xy l0 ∧ has_xy l9) ∨ arithmetic_error ex
  end.
Proof.
  intros H0 H9. pose proof (lookup_lt_Some _ _ _ H9) as Hlen.
  unfold AbductionAdductionDetector._palm_size, Py.len_lt.
  destruct (Nat.ltb_spec (length landmarks) 10); [lia|].
  pose proof (getitem_lookup landmarks 0 l0 H0) as E0.
  pose proof (getitem_lookup landmarks 9 l9 H9) as E9.
  change (Z.of_nat 0) with 0 in E0. change (Z.of_nat 9) with 9 in E9.
  rewrite E0, E9. cbn [mbind result_bind].
  pose proof (dist_outcome l0 l9) as Hd.
  destruct (AbductionAdductionDetector._dist l0 l9) as [size|ex];
    cbn [mbind result_bind]; [|destruct Hd as [?|[? _]]; auto].
  split; [apply max_epsilon_not_zero|done].
Qed.

Lemma gap_outcome {libm : Libm}
    (landmarks : list Landmark) (i j : nat) (a b : Landmark) (palm : float) :
  landmarks !! i = Some a → landmarks !! j = Some b →
  PrimFloat.eqb palm 0 = false →
  match AbductionAdductionDetector.gap landmarks (Z.of_nat i) (Z.of_nat j) palm with
  | Ok _ => has_xy a ∧ has_xy b
  | Raise ex => missing_coordinate ex ∧ ¬ (has_xy a ∧ has_xy b) ∨ arithmetic_error ex
  end.
Proof.
  intros Ha Hb Hp. unfold AbductionAdductionDetector.gap.
  rewrite (getitem_lookup landmarks i a Ha), (getitem_lookup landmarks j b Hb).
  cbn [mbind result_bind].
  pose proof (dist_outcome a b) as Hd.
  destruct (AbductionAdductionDetector._dist a b) as [d|ex];
    cbn [mbind result_bind]; [|destruct Hd as [?|[? _]]; auto].
  unfold Py.truediv. by rewrite Hp.
Qed.

(** The points a full frame holds at the places the detector reads. *)
Lemma full_frame_points (landmarks : list Landmark) (i : nat) :
  (21 ≤ length landmarks)%nat → (i < 21)%nat → ∃ p, landmarks !! i = Some p.
Proof. intros Hlen Hi. apply lookup_lt_is_Some_2. lia. Qed.

(** The detector on a frame of at least 21 points. *)
Lemma abduction_full_frame {libm : Libm} (landmarks : list Landmark) :
  (21 ≤ length landmarks)%nat →
  match AbductionAdductionDetector.detect_state landmarks with
  | Ok label =>
      label ∈ ["SPREAD"; "CLOSED"; "TRANSITIONING"]
      ∧ ∀ i p, i ∈ abduction_points → landmarks !! i = Some p → has_xy p
  | Raise ex =>
      missing_coordinate ex
        ∧ (∃ i p, i ∈ abduction_points ∧ landmarks !! i = Some p ∧ ¬ has_xy p)
      ∨ arithmetic_error ex
  end.
Proof.
  intros Hlen.
  destruct (full_frame_points landmarks 0 Hlen) as [l0 H0]; [lia|].
  destruct (full_frame_points landmarks 9 Hlen) as [l9 H9]; [lia|].
  destruct (full_frame_points landmarks 8 Hlen) as [l8 H8]; [lia|].
  destruct (full_frame_points landmarks 12 Hlen) as [l12 H12]; [lia|].
  destruct (full_frame_points landmarks 16 Hlen) as [l16 H16]; [lia|].
  destruct (full_frame_points landmarks 20 Hlen) as [l20 H20]; [lia|].
  assert (Hbad : ∀ i p, i ∈ abduction_points → landmarks !! i = Some p →
            ¬ has_xy p → ∃ i p, i ∈ abduction_points ∧ landmarks !! i = Some p ∧ ¬ has_xy p)
    by eauto.
  assert (Hin : ∀ i : nat, i ∈ abduction_points ↔
            i = 0%nat ∨ i = 9%nat ∨ i = 8%nat ∨ i = 12%nat ∨ i = 16%nat ∨ i = 20%nat).
  { intros i. unfold abduction_points. rewrite !elem_of_cons, elem_of_nil. tauto. }
  unfold AbductionAdductionDetector.detect_state, Py.len_lt, Py.not_list.
  destruct landmarks as [|p0 rest] eqn:Hlm; [simpl in Hlen; lia|]. rewrite <- Hlm in *.
  destruct (Nat.ltb_spec (length landmarks) 21); [lia|]. cbn [orb].
  unfold AbductionAdductionDetector.calculate_finger_spread, Py.len_lt.
  destruct (Nat.ltb_spec (length landmarks) 21); [lia|].
  pose proof (palm_size_outcome landmarks l0 l9 H0 H9) as Hpalm.
  destruct (AbductionAdductionDetector._palm_size landmarks) as [palm|ex];
    cbn [mbind result_bind].
  2:{ destruct Hpalm as [[Hex Hn]|Har]; [left|by right]. split; [done|].
      destruct (decide (has_xy l0)) as [Hx0|Hx0];
        [apply (Hbad 9%nat l9)|apply (Hbad 0%nat l0)]; rewrite ?Hin; tauto. }
  destruct Hpalm as (Hnz & Hx0 & Hx9).
  pose proof (gap_outcome landmarks 8 12 l8 l12 palm H8 H12 Hnz) as Hg1.
  change (Z.of_nat 8) with 8 in Hg1. change (Z.of_nat 12) with 12 in Hg1.
  destruct (AbductionAdductionDetector.gap landmarks 8 12 palm) as [g1|ex];
    cbn [mbind result_bind].
  2:{ destruct Hg1 as [[Hex Hn]|Har]; [left|by right]. split; [done|].
      destruct (decide (has_xy l8)) as [Hx|Hx];
        [apply (Hbad 12%nat l12)|apply (Hbad 8%nat l8)]; rewrite ?Hin; tauto. }
  pose proof (gap_outcome landmarks 12 16 l12 l16 palm H12 H16 Hnz) as Hg2.
  change (Z.of_nat 12) with 12 in Hg2. change (Z.of_nat 16) with 16 in Hg2.
  destruct (AbductionAdductionDetector.gap landmarks 12 16 palm) as [g2|ex];
    cbn [mbind result_bind].
  2:{ destruct Hg2 as [[Hex Hn]|Har]; [left|by right]. split; [done|].
      destruct (decide (has_xy l12)) as [Hx|Hx];
        [apply (Hbad 16%nat l16)|apply (Hbad 12%nat l12)]; rewrite ?Hin; tauto. }
  pose proof (gap_outcome landmarks 16 20 l16 l20 palm H16 H20 Hnz) as Hg3.
  change (Z.of_nat 16) with 16 in Hg3. change (Z.of_nat 20) with 20 in Hg3.
  destruct (AbductionAdductionDetector.gap landmarks 16 20 palm) as [g3|ex];
    cbn [mbind result_bind].
  2:{ destruct Hg3 as [[Hex Hn]|Har]; [left|by right]. split; [done|].
      destruct (decide (has_xy l16)) as [Hx|Hx];
        [apply (Hbad 20%nat l20)|apply (Hbad 16%nat l16)]; rewrite ?Hin; tauto. }
  change (Py.truediv (Py.sum [g1; g2; g3]) (Py.float_of_len (length [g1; g2; g3])))
    with (Ok (PrimFloat.div (Py.sum [g1; g2; g3]) 3) : result float).
  cbn [mbind result_bind].
  assert (Hall : ∀ i p, i ∈ abduction_points → landmarks !! i = Some p → has_xy p).
  { intros i p Hi Hp. apply Hin in Hi.
    destruct Hi as [->|[->|[->|[->|[->| ->]]]]]; simplify_eq; tauto. }
  destruct (Py.ge _ _); [|destruct (Py.le _ _)]; (split; [set_solver|done]).
Qed.


(** ** The finger_lifts detector on full frames *)

Lemma float_lt_irrefl (x : float) : PrimFloat.ltb x x = false.
Proof.
  rewrite ltb_code.
  pose proof (SFcompare_antisym (Prim2SF x) (Prim2SF x)) as H.
  destruct (SFcompare (Prim2SF x) (Prim2SF x)) as [[]|]; simpl in *; congruence.
Qed.

Lemma float_le_lt_trans (x y z : float) :
  PrimFloat.leb x y = true → PrimFloat.ltb y z = true → PrimFloat.ltb x z = true.
Proof.
  rewrite leb_code, !ltb_code. intros H1 H2.
  destruct (SFcompare_trans (Prim2SF x) (Prim2SF y) (Prim2SF z)) as [_ H];
    auto using lt_code_le_code.
Qed.

(** One round of the loop is the score of the finger, then the comparison. *)
Lemma best_of_cons (landmarks : list Landmark) (palm : float) (name : string)
    (tip pip : Z) (items : list (string * (Z * Z))) (best : option string * float) :
  FingerLiftsDetector.best_of landmarks palm ((name, (tip, pip)) :: items) best =
    score ← finger_score landmarks palm tip pip;
    FingerLiftsDetector.best_of landmarks palm items
      (if Py.gt score (snd best) then (Some name, score) else best).
Proof.
  cbn [FingerLiftsDetector.best_of]. unfold finger_score.
  destruct (Py.getitem landmarks tip) as [a|]; cbn [mbind result_bind]; [|done].
  destruct (Py.getitem landmarks pip) as [b|]; cbn [mbind result_bind]; [|done].
  destruct (Py.dict_getitem b "y"); cbn [mbind result_bind]; [|done].
  destruct (Py.dict_getitem a "y"); cbn [mbind result_bind]; [|done].
  reflexivity.
Qed.

(** The score of a finger whose tip and joint are in the frame: it is
    computed unless one of them lacks its y. *)
Lemma finger_score_outcome (landmarks : list Landmark) (palm : float) (tip pip : nat) :
  (tip < length landmarks)%nat → (pip < length landmarks)%nat →
  PrimFloat.eqb palm 0 = false →
  match finger_score landmarks palm (Z.of_nat tip) (Z.of_nat pip) with
  | Ok _ => True
  | Raise ex => ex = KeyError "y"
  end.
Proof.
  intros Ht Hp Hnz. unfold finger_score.
  destruct (getitem_nat_lt landmarks tip Ht) as (a & -> & _).
  destruct (getitem_nat_lt landmarks pip Hp) as (b & -> & _).
  cbn [mbind result_bind]. unfold Py.dict_getitem.
  destruct (b !! "y"); cbn [mbind result_bind]; [|done].
  destruct (a !! "y"); cbn [mbind result_bind]; [|done].
  unfold Py.truediv. by rewrite Hnz.
Qed.

Lemma best_so_far_step (landmarks : list Landmark) (palm : float)
    (seen : list (string * (Z * Z))) (best : option string * float)
    (name : string) (tip pip : Z) (score : float) :
  best_so_far landmarks palm seen best →
  finger_score landmarks palm tip pip = Ok score →
  best_so_far landmarks palm (seen ++ [(name, (tip, pip))])
    (if Py.gt score (snd best) then (Some name, score) else best).
Proof.
  intros (Hpos & Hbest & Hmax) Hscore. unfold Py.gt in *.
  destruct (PrimFloat.ltb (snd best) score) eqn:Hgt; cbn [fst snd].
  - split_and!.
    + destruct (PrimFloat.ltb score 0) eqn:Hneg; [|done].
      by rewrite (float_lt_trans _ _ _ Hgt Hneg) in Hpos.
    + right. exists name, tip, pip. split_and!; try done.
      apply elem_of_app. right. by apply list_elem_of_singleton.
    + intros n t p [Hin|Hin%list_elem_of_singleton]%elem_of_app.
      * destruct (Hmax n t p Hin) as (s & Hs & Hle). exists s. split; [done|].
        destruct (PrimFloat.ltb score s) eqn:Hlt; [|done].
        by rewrite (float_lt_trans _ _ _ Hgt Hlt) in Hle.
      * simplify_eq. exists score. split; [done|]. apply float_lt_irrefl.
  - split_and!; [done| |].
    + destruct Hbest as [Hn|(n & t & p & Hin & Hf & Hs)]; [by left|].
      right. exists n, t, p. split_and!; try done. apply elem_of_app. by left.
    + intros n t p [Hin|Hin%list_elem_of_singleton]%elem_of_app.
      * exact (Hmax n t p Hin).
      * simplify_eq. by exists score.
Qed.

Lemma best_of_outcome (landmarks : list Landmark) (palm : float)
    (items seen : list (string * (Z * Z))) (best : option string * float) :
  PrimFloat.eqb palm 0 = false →
  Forall (λ item, 0 ≤ item.2.1 < Z.of_nat (length landmarks)
                  ∧ 0 ≤ item.2.2 < Z.of_nat (length landmarks)) items →
  best_so_far landmarks palm seen best →
  match FingerLiftsDetector.best_of landmarks palm items best with
  | Ok best' => best_so_far landmarks palm (seen ++ items) best'
  | Raise ex => ex = KeyError "y"
  end.
Proof.
  intros Hnz Hitems. revert seen best.
  induction Hitems as [|[name [tip pip]] items [Ht Hp] _ IH]; intros seen best Hbest.
  - cbn [FingerLiftsDetector.best_of]. by rewrite app_nil_r.
  - rewrite best_of_cons. cbn [fst snd] in Ht, Hp.
    pose proof (finger_score_outcome landmarks palm (Z.to_nat tip) (Z.to_nat pip)) as Hs.
    rewrite !Z2Nat.id in Hs by lia.
    destruct (finger_score landmarks palm tip pip) as [score|ex] eqn:Hscore;
      cbn [mbind result_bind]; [|apply Hs; [lia|lia|done]].
    specialize (IH (seen ++ [(name, (tip, pip))]) _
                  (best_so_far_step _ _ _ _ name _ _ _ Hbest Hscore)).
    by rewrite <- app_assoc in IH.
Qed.

Lemma finger_name_truthy (name : string) (tip pip : Z) :
  (name, (tip, pip)) ∈ FingerLiftsDetector.fingers →
  FingerLiftsDetector.truthy (Some name) = true.
Proof.
  unfold FingerLiftsDetector.fingers.
  rewrite !elem_of_cons, elem_of_nil. intros [H|[H|[H|[H|[]]]]]; by simplify_eq.
Qed.

(** The detector on a frame of at least 21 points. *)
Lemma finger_lifts_full_frame {libm : Libm} (landmarks : list Landmark) :
  (21 ≤ length landmarks)%nat →
  match FingerLiftsDetector.detect_state landmarks with
  | Ok label =>
      ∃ palm, FingerLiftsDetector._palm_size landmarks = Ok palm
        ∧ (∀ name tip pip, (name, (tip, pip)) ∈ FingerLiftsDetector.fingers →
             ∃ s, finger_score landmarks palm tip pip = Ok s)
        ∧ ((∃ name tip pip s,
               (name, (tip, pip)) ∈ FingerLiftsDetector.fingers
               ∧ label = name +:+ "_UP"
               ∧ finger_score landmarks palm tip pip = Ok s
               ∧ Py.ge s 0.055 = true
               ∧ ∀ name' tip' pip' s',
                   (name', (tip', pip')) ∈ FingerLiftsDetector.fingers →
                   finger_score landmarks palm tip' pip' = Ok s' →
                   Py.gt s' s = false)
           ∨ (label = "NONE"
              ∧ ∀ name tip pip s,
                  (name, (tip, pip)) ∈ FingerLiftsDetector.fingers →
                  finger_score landmarks palm tip pip = Ok s →
                  Py.gt s 0.035 = false)
           ∨ label = "TRANSITION")
  | Raise ex => missing_coordinate ex ∨ arithmetic_error ex
  end.
Proof.
  intros Hlen.
  destruct (full_frame_points landmarks 0 Hlen) as [l0 H0]; [lia|].
  destruct (full_frame_points landmarks 9 Hlen) as [l9 H9]; [lia|].
  unfold FingerLiftsDetector.detect_state, Py.len_lt, Py.not_list.
  destruct landmarks as [|p0 rest] eqn:Hlm; [simpl in Hlen; lia|]. rewrite <- Hlm in *.
  destruct (Nat.ltb_spec (length landmarks) 21); [lia|]. cbn [orb].
  pose proof (palm_size_outcome landmarks l0 l9 H0 H9) as Hpalm.
  change (AbductionAdductionDetector._palm_size landmarks)
    with (FingerLiftsDetector._palm_size landmarks) in Hpalm.
  destruct (FingerLiftsDetector._palm_size landmarks) as [palm|ex];
    cbn [mbind result_bind]; [|destruct Hpalm as [[? _]|?]; auto].
  destruct Hpalm as (Hnz & _).
  pose proof (best_of_outcome landmarks palm FingerLiftsDetector.fingers []
                (None, 0%float) Hnz) as Hbest.
  destruct (FingerLiftsDetector.best_of landmarks palm FingerLiftsDetector.fingers
              (None, 0%float)) as [[best_finger best_score]|ex];
    cbn [mbind result_bind].
  2:{ left. right. apply Hbest.
      - unfold FingerLiftsDetector.fingers. repeat constructor; simpl; lia.
      - split_and!; [reflexivity|by left|]. intros n t p Hin.
        by apply elem_of_nil in Hin. }
  destruct Hbest as (Hpos & Hwho & Hmax).
  { unfold FingerLiftsDetector.fingers. repeat constructor; simpl; lia. }
  { split_and!; [reflexivity|by left|]. intros n t p Hin.
    by apply elem_of_nil in Hin. }
  cbn [app fst snd] in *.
  assert (Hscores : ∀ name tip pip, (name, (tip, pip)) ∈ FingerLiftsDetector.fingers →
            ∃ s, finger_score landmarks palm tip pip = Ok s).
  { intros n t p Hin. destruct (Hmax n t p Hin) as (s & Hs & _). by exists s. }
  destruct (FingerLiftsDetector.truthy best_finger && Py.ge best_score _) eqn:Hup.
  + apply andb_true_iff in Hup as [Htruthy Hge].
    exists palm. split; [done|]. split; [exact Hscores|]. left.
    destruct Hwho as [->|(n & t & p & Hin & -> & Hs)]; [discriminate Htruthy|].
    exists n, t, p, best_score. split_and!; try done.
    intros n' t' p' s' Hin' Hs'.
    destruct (Hmax n' t' p' Hin') as (s'' & Hs'' & Hle). congruence.
  + destruct (Py.le best_score _) eqn:Hle;
      (exists palm; split; [done|]; split; [exact Hscores|]); [|by right; right].
    right. left. split; [done|]. intros n t p s Hin Hs.
    destruct (Hmax n t p Hin) as (s' & Hs' & Hnot).
    assert (s' = s) as -> by congruence.
    unfold Py.gt in *. unfold Py.le in Hle.
    destruct (PrimFloat.ltb 0.035 s) eqn:Hlt; [|done].
    pose proof (float_le_lt_trans _ _ _ Hle Hlt) as Habove. congruence.
Qed.

(** X11. The finger_lifts detector answers UNKNOWN on a frame of fewer than
    21 points. On a frame of at least 21 points it raises nothing but the
    [KeyError] of a missing x or y and the errors of the arithmetic of the
    palm size, as the [OverflowError] of a square that overflows; the
    scores themselves, differences of two y divided by the palm size, go
    through no square. When it returns every finger has a
    score and the label is read off the scores: a label <FINGER>_UP names one
    of the four fingers, whose score is at least 0.055 and which no finger
    outscores; NONE is answered only when no finger scores above 0.035; the
    only other label is TRANSITION. *)
Theorem finger_lifts_detect_state_outcome {libm : Libm} (landmarks : list Landmark) :
  ((length landmarks < 21)%nat →
     FingerLiftsDetector.detect_state landmarks = Ok "UNKNOWN")
  ∧ ((21 ≤ length landmarks)%nat →
       match FingerLiftsDetector.detect_state landmarks with
       | Ok label =>
           ∃ palm, FingerLiftsDetector._palm_size landmarks = Ok palm
             ∧ (∀ name tip pip, (name, (tip, pip)) ∈ FingerLiftsDetector.fingers →
                  ∃ s, finger_score landmarks palm tip pip = Ok s)
             ∧ ((∃ name tip pip s,
                    (name, (tip, pip)) ∈ FingerLiftsDetector.fingers
                    ∧ label = name +:+ "_UP"
                    ∧ finger_score landmarks palm tip pip = Ok s
                    ∧ Py.ge s 0.055 = true
                    ∧ ∀ name' tip' pip' s',
                        (name', (tip', pip')) ∈ FingerLiftsDetector.fingers →
                        finger_score landmarks palm tip' pip' = Ok s' →
                        Py.gt s' s = false)
                ∨ (label = "NONE"
                   ∧ ∀ name tip pip s,
                       (name, (tip, pip)) ∈ FingerLiftsDetector.fingers →
                       finger_score landmarks palm tip pip = Ok s →
                       Py.gt s 0.035 = false)
                ∨ label = "TRANSITION")
       | Raise ex => missing_coordinate ex ∨ arithmetic_error ex
       end).
Proof.
  split.
  - intros Hlen. unfold FingerLiftsDetector.detect_state.
    by rewrite (short_frame_guard landmarks Hlen).
  - apply finger_lifts_full_frame.
Qed.

(** ** What the detectors read of a landmark *)

Section Planar.

Context {libm : Libm}.
Variable g : Landmark → Landmark.
Hypothesis g_x : ∀ p, g p !! "x" = p !! "x".
Hypothesis g_y : ∀ p, g p !! "y" = p !! "y".

Lemma getitem_fmap (t : list Landmark) (i : Z) :
  Py.getitem (g <$> t) i =
    match Py.getitem t i with Ok a => Ok (g a) | Raise e => Raise e end.
Proof.
  unfold Py.getitem. rewrite length_fmap, list_lookup_fmap.
  destruct (_ && _); [|done]. by destruct (t !! _).
Qed.

Lemma dist_planar (a b : Landmark) :
  AbductionAdductionDetector._dist (g a) (g b) = AbductionAdductionDetector._dist a b.
Proof using g_x g_y.
  unfold AbductionAdductionDetector._dist, Py.dict_getitem.
  by rewrite !g_x, !g_y.
Qed.

Lemma palm_size_planar (landmarks : list Landmark) :
  AbductionAdductionDetector._palm_size (g <$> landmarks)
  = AbductionAdductionDetector._palm_size landmarks.
Proof using g_x g_y.
  unfold AbductionAdductionDetector._palm_size, Py.len_lt.
  rewrite length_fmap, !getitem_fmap.
  destruct (_ <? _)%nat; [done|].
  destruct (Py.getitem landmarks 0); cbn [mbind result_bind]; [|done].
  destruct (Py.getitem landmarks 9); cbn [mbind result_bind]; [|done].
  by rewrite dist_planar.
Qed.

Lemma gap_planar (landmarks : list Landmark) (i j : Z) (palm : float) :
  AbductionAdductionDetector.gap (g <$> landmarks) i j palm
  = AbductionAdductionDetector.gap landmarks i j palm.
Proof using g_x g_y.
  unfold AbductionAdductionDetector.gap. rewrite !getitem_fmap.
  destruct (Py.getitem landmarks i); cbn [mbind result_bind]; [|done].
  destruct (Py.getitem landmarks j); cbn [mbind result_bind]; [|done].
  by rewrite dist_planar.
Qed.

Lemma guard_fmap (landmarks : list Landmark) (n : nat) :
  Py.not_list (g <$> landmarks) || Py.len_lt (g <$> landmarks) n
  = Py.not_list landmarks || Py.len_lt landmarks n.
Proof. unfold Py.len_lt. rewrite length_fmap. by destruct landmarks. Qed.

Lemma best_of_planar (landmarks : list Landmark) (palm : float)
    (items : list (string * (Z * Z))) (best : option string * float) :
  FingerLiftsDetector.best_of (g <$> landmarks) palm items best
  = FingerLiftsDetector.best_of landmarks palm items best.
Proof using g_y.
  revert best. induction items as [|[name [tip pip]] items IH]; intros best; [done|].
  cbn [FingerLiftsDetector.best_of]. rewrite !getitem_fmap.
  destruct (Py.getitem landmarks tip) as [a|]; cbn [mbind result_bind]; [|done].
  destruct (Py.getitem landmarks pip) as [b|]; cbn [mbind result_bind]; [|done].
  unfold Py.dict_getitem. rewrite !g_y.
  destruct (b !! "y"); cbn [mbind result_bind]; [|done].
  destruct (a !! "y"); cbn [mbind result_bind]; [|done].
  destruct (Py.truediv _ _); cbn [mbind result_bind]; [|done].
  apply IH.
Qed.

Lemma normalized_distance_planar (landmarks : list Landmark) (target_finger : string) :
  ThumbOppositionDetector.normalized_distance (g <$> landmarks) target_finger
  = ThumbOppositionDetector.normalized_distance landmarks target_finger.
Proof using g_x g_y.
  unfold ThumbOppositionDetector.normalized_distance.
  change ThumbOppositionDetector._palm_size with AbductionAdductionDetector._palm_size.
  change ThumbOppositionDetector._dist with AbductionAdductionDetector._dist.
  rewrite palm_size_planar.
  destruct (AbductionAdductionDetector._palm_size landmarks);
    cbn [mbind result_bind]; [|done].
  rewrite getitem_fmap.
  destruct (Py.getitem landmarks _); cbn [mbind result_bind]; [|done].
  destruct (Py.dict_getitem _ _); cbn [mbind result_bind]; [|done].
  rewrite getitem_fmap.
  destruct (Py.getitem landmarks _); cbn [mbind result_bind]; [|done].
  by rewrite dist_planar.
Qed.

Lemma planar_detectors (landmarks : list Landmark) :
  AbductionAdductionDetector.detect_state (g <$> landmarks)
    = AbductionAdductionDetector.detect_state landmarks
  ∧ FingerLiftsDetector.detect_state (g <$> landmarks)
      = FingerLiftsDetector.detect_state landmarks
  ∧ ∀ target_finger,
      ThumbOppositionDetector.detect_touch_target (g <$> landmarks) target_finger
        = ThumbOppositionDetector.detect_touch_target landmarks target_finger
      ∧ ThumbOppositionDetector.detect_released (g <$> landmarks) target_finger
          = ThumbOppositionDetector.detect_released landmarks target_finger.
Proof using g_x g_y.
  split_and!.
  - unfold AbductionAdductionDetector.detect_state. rewrite guard_fmap.
    destruct (_ || _); [done|].
    unfold AbductionAdductionDetector.calculate_finger_spread, Py.len_lt.
    rewrite length_fmap, palm_size_planar.
    destruct (_ <? _)%nat; [done|].
    destruct (AbductionAdductionDetector._palm_size landmarks);
      cbn [mbind result_bind]; [|done].
    by rewrite !gap_planar.
  - unfold FingerLiftsDetector.detect_state. rewrite guard_fmap.
    destruct (_ || _); [done|].
    change FingerLiftsDetector._palm_size with AbductionAdductionDetector._palm_size.
    rewrite palm_size_planar.
    destruct (AbductionAdductionDetector._palm_size landmarks);
      cbn [mbind result_bind]; [|done].
    by rewrite best_of_planar.
  - intros target_finger.
    unfold ThumbOppositionDetector.detect_touch_target,
      ThumbOppositionDetector.detect_released.
    by rewrite normalized_distance_planar.
Qed.

End Planar.

Lemma distance_needs_z (p q : Landmark) :
  match HandOpenCloseDetector.calculate_distance (delete "z" p) (delete "z" q) with
  | Ok _ => False
  | Raise e => caught e
  end
  ∧ match PinchDetector.calculate_distance (delete "z" p) (delete "z" q) with
    | Ok _ => False
    | Raise e => caught e
    end.
Proof.
  unfold HandOpenCloseDetector.calculate_distance, PinchDetector.calculate_distance,
    Py.dict_getitem.
  rewrite !(lookup_delete_ne _ "z" "x"), !(lookup_delete_ne _ "z" "y") by done.
  rewrite !lookup_delete_eq.
  destruct (p !! "x"), (q !! "x"), (p !! "y"), (q !! "y"); cbn [mbind result_bind];
    by split.
Qed.

(** X12. The abduction_adduction, finger_lifts and thumb_opposition
    detectors read only the x and y of a landmark: changing the landmarks in
    any way that keeps their x and y, as dropping every z does, changes none
    of their answers. The open_close and pinch detectors measure in three
    dimensions: on every frame whose landmarks lack their z they answer
    TRANSITION. *)
Theorem planar_detectors_ignore_z {libm : Libm} (landmarks : list Landmark) :
  (∀ g : Landmark → Landmark,
     (∀ p, g p !! "x" = p !! "x") → (∀ p, g p !! "y" = p !! "y") →
     AbductionAdductionDetector.detect_state (g <$> landmarks)
       = AbductionAdductionDetector.detect_state landmarks
     ∧ FingerLiftsDetector.detect_state (g <$> landmarks)
         = FingerLiftsDetector.detect_state landmarks
     ∧ ∀ target_finger,
         ThumbOppositionDetector.detect_touch_target (g <$> landmarks) target_finger
           = ThumbOppositionDetector.detect_touch_target landmarks target_finger
         ∧ ThumbOppositionDetector.detect_released (g <$> landmarks) target_finger
             = ThumbOppositionDetector.detect_released landmarks target_finger)
  ∧ AbductionAdductionDetector.detect_state (delete "z" <$> landmarks)
      = AbductionAdductionDetector.detect_state landmarks
  ∧ HandOpenCloseDetector.detect_state (delete "z" <$> landmarks) = Ok "TRANSITION"
  ∧ PinchDetector.detect_state (delete "z" <$> landmarks) = Ok "TRANSITION".
Proof.
  split_and!.
  - intros g Hx Hy. by apply planar_detectors.
  - apply (planar_detectors (delete "z")); intros p; by apply lookup_delete_ne.
  - unfold HandOpenCloseDetector.detect_state. rewrite guard_fmap.
    destruct (_ || _); [done|].
    unfold HandOpenCloseDetector.detect_state_body.
    rewrite getitem_fmap.
    destruct (Py.getitem landmarks HandOpenCloseDetector.WRIST) as [wrist|e] eqn:Hw;
      cbn [mbind result_bind]; [|by apply getitem_raise in Hw as ->].
    cbn [for_each HandOpenCloseDetector.FINGERTIPS]. rewrite !getitem_fmap.
    destruct (Py.getitem landmarks 8) as [tip|e] eqn:Ht;
      cbn [mbind result_bind]; [|by apply getitem_raise in Ht as ->].
    destruct (distance_needs_z wrist tip) as [Hd _].
    by destruct (HandOpenCloseDetector.calculate_distance _ _) as [|[]].
  - unfold PinchDetector.detect_state. rewrite guard_fmap.
    destruct (_ || _); [done|].
    unfold PinchDetector.detect_state_body. rewrite !getitem_fmap.
    destruct (Py.getitem landmarks PinchDetector.THUMB_TIP) as [thumb|e] eqn:Ht;
      cbn [mbind result_bind]; [|by apply getitem_raise in Ht as ->].
    destruct (Py.getitem landmarks PinchDetector.INDEX_TIP) as [index|e] eqn:Hi;
      cbn [mbind result_bind]; [|by apply getitem_raise in Hi as ->].
    destruct (distance_needs_z thumb index) as [_ Hd].
    by destruct (PinchDetector.calculate_distance _ _) as [|[]].
Qed.

(** ** The touch and release tests, and the probing order *)

(** X13. The touch and the release test of thumb_opposition never both
    answer true for the same target on the same frame, and they raise
    together: between the thresholds 0.22 and 0.28 both answer false. *)
Theorem touch_excludes_release {libm : Libm} (landmarks : list Landmark) (target_finger : string) :
  (ThumbOppositionDetector.detect_touch_target landmarks target_finger = Ok true →
     ThumbOppositionDetector.detect_released landmarks target_finger = Ok false)
  ∧ (ThumbOppositionDetector.detect_released landmarks target_finger = Ok true →
     ThumbOppositionDetector.detect_touch_target landmarks target_finger = Ok false)
  ∧ (∀ ex, ThumbOppositionDetector.detect_touch_target landmarks target_finger = Raise ex
           ↔ ThumbOppositionDetector.detect_released landmarks target_finger = Raise ex).
Proof.
  unfold ThumbOppositionDetector.detect_touch_target,
    ThumbOppositionDetector.detect_released.
  destruct (ThumbOppositionDetector.normalized_distance landmarks target_finger)
    as [d|ex0]; cbn [mbind result_bind]; [|by split_and!].
  assert (Hex : Py.le d ThumbOppositionDetector.touch_threshold = true →
                Py.ge d ThumbOppositionDetector.release_threshold = true → False).
  { unfold Py.le, Py.ge. intros Ht Hr.
    pose proof (float_le_trans _ _ _ Hr Ht) as Habs.
    vm_compute in Habs. discriminate Habs. }
  split_and!.
  - intros [= Ht]. destruct (Py.ge d _) eqn:Hr; [by destruct Hex|done].
  - intros [= Hr]. destruct (Py.le d _) eqn:Ht; [by destruct Hex|done].
  - intros ex. split; discriminate.
Qed.

Lemma touch_excludes_release_witness :
  ThumbOppositionDetector.detect_touch_target frame_coincident "INDEX" = Ok true
  ∧ ThumbOppositionDetector.detect_released frame_coincident "INDEX" = Ok false.
Proof.
  assert (Ht : ThumbOppositionDetector.detect_touch_target frame_coincident "INDEX"
               = Ok true) by (vm_compute; reflexivity).
  split; [exact Ht|].
  by apply (touch_excludes_release frame_coincident "INDEX").
Defined.

Lemma probe_touched_Some {libm : Libm}
    (landmarks : list Landmark) (seq : list string) (f : string) :
  probe_touched landmarks seq = Some f
  ↔ ∃ before after, seq = before ++ f :: after
      ∧ ThumbOppositionDetector.detect_touch_target landmarks f = Ok true
      ∧ ∀ g, g ∈ before →
          ThumbOppositionDetector.detect_touch_target landmarks g ≠ Ok true.
Proof.
  induction seq as [|h seq IH]; cbn [probe_touched].
  - split; [done|]. intros (before & after & Heq & _). by destruct before.
  - destruct (ThumbOppositionDetector.detect_touch_target landmarks h) as [[]|e] eqn:Hh.
    + split.
      * intros [= <-]. exists [], seq. split_and!; try done.
        intros g Hg. by apply elem_of_nil in Hg.
      * intros (before & after & Heq & Hf & Hbefore).
        destruct before as [|b before]; simplify_eq/=; [done|].
        destruct (Hbefore b); [by left|done].
    + rewrite IH. split.
      * intros (before & after & -> & Hf & Hbefore). exists (h :: before), after.
        split_and!; try done.
        intros g [->|Hg]%elem_of_cons; [by rewrite Hh|by apply Hbefore].
      * intros (before & after & Heq & Hf & Hbefore).
        destruct before as [|b before]; simplify_eq/=; [congruence|].
        exists before, after. split_and!; try done.
        intros g Hg. apply Hbefore. by right.
    + rewrite IH. split.
      * intros (before & after & -> & Hf & Hbefore). exists (h :: before), after.
        split_and!; try done.
        intros g [->|Hg]%elem_of_cons; [by rewrite Hh|by apply Hbefore].
      * intros (before & after & Heq & Hf & Hbefore).
        destruct before as [|b before]; simplify_eq/=; [congruence|].
        exists before, after. split_and!; try done.
        intros g Hg. apply Hbefore. by right.
Qed.

Lemma touch_label_not_other (f expected : string) :
  "TOUCH_" +:+ f ≠ "TRANSITION" ∧ "TOUCH_" +:+ f ≠ "RELEASE"
  ∧ ("TOUCH_" +:+ f = "TOUCH_" +:+ expected → f = expected).
Proof.
  split_and!; intros H; vm_compute in H; by simplify_eq.
Qed.

(** X14. The label the thumb-opposition branch composes is one of
    TOUCH_<expected>, TRANSITION and RELEASE, and it is decided by the first
    finger, in the order INDEX, MIDDLE, RING, PINKY, whose touch test answers
    true: TOUCH_<expected> when that finger is the expected one, TRANSITION
    when it is another one, even if the expected finger, later in the order,
    is touched too. *)
Theorem composed_label_rule {libm : Libm} (landmarks : list Landmark) (expected : string) :
  let label := compose_label (probe_touched landmarks finger_sequence) expected in
  label ∈ ["TOUCH_" +:+ expected; "TRANSITION"; "RELEASE"]
  ∧ (label = "TOUCH_" +:+ expected ↔
       ∃ before after, finger_sequence = before ++ expected :: after
         ∧ ThumbOppositionDetector.detect_touch_target landmarks expected = Ok true
         ∧ ∀ g, g ∈ before →
             ThumbOppositionDetector.detect_touch_target landmarks g ≠ Ok true)
  ∧ (label = "TRANSITION" ↔
       ∃ f before after, f ≠ expected ∧ finger_sequence = before ++ f :: after
         ∧ ThumbOppositionDetector.detect_touch_target landmarks f = Ok true
         ∧ ∀ g, g ∈ before →
             ThumbOppositionDetector.detect_touch_target landmarks g ≠ Ok true).
Proof.
  cbv zeta. unfold compose_label.
  destruct (probe_touched landmarks finger_sequence) as [f|] eqn:Hp.
  - apply probe_touched_Some in Hp as Hf.
    destruct (touch_label_not_other f expected) as (Hnt & Hnr & Hinj).
    destruct (touch_label_not_other expected expected) as (Hnt' & _).
    destruct (str_eq_spec f expected) as [->|Hne].
    + split_and!; [set_solver| |].
      * split; [by intros _|done].
      * split; [done|]. intros (f' & before & after & Hne & Hrest).
        assert (probe_touched landmarks finger_sequence = Some f')
          by (apply probe_touched_Some; by exists before, after).
        congruence.
    + split_and!; [set_solver| |].
      * split; [intros H; by destruct Hnt'|].
        intros Hrest%probe_touched_Some. congruence.
      * split; [|done]. intros _. destruct Hf as (before & after & Hrest).
        by exists f, before, after.
  - destruct (touch_label_not_other expected expected) as (_ & Hnr & _).
    split_and!; [set_solver| |].
    + split; [intros H; by destruct Hnr|].
      intros Hrest%probe_touched_Some. congruence.
    + split; [done|]. intros (f & before & after & _ & Hrest).
      assert (probe_touched landmarks finger_sequence = Some f)
        by (apply probe_touched_Some; by exists before, after).
      congruence.
Qed.

(** * Further properties of [analyze] *)

Lemma detector_known {libm : Libm} (e : string) :
  (e ∈ exercise_types → is_Some (detector_detect_state e))
  ∧ (e ∉ exercise_types → detector_detect_state e = None).
Proof.
  unfold detector_detect_state, exercise_types.
  rewrite !elem_of_cons, elem_of_nil.
  repeat match goal with
         | |- context [Py.str_eq e ?s] =>
             destruct (str_eq_spec e s) as [->|?];
             [split; [by eexists|naive_solver]|]
         end.
  split; [naive_solver|reflexivity].
Qed.

(** The two ways [analyze] ends: a failure that leaves the manager alone, or
    a result built from one returning call of [update_state]. *)
Lemma analyze_cases {libm : Libm}
    (clock : nat → float) (state_manager state_manager' : StateManager)
    (landmarks : list Landmark) (e : string) (res : HttpResult) :
  analyze clock state_manager landmarks e = (res, state_manager') →
  (∃ status, res = Failure status ∧ state_manager' = state_manager
     ∧ (status = 400 ∨ status = 500))
  ∨ (∃ label c r,
       res = Success {| state := label; response_repetitions := r; state_changed := c |}
       ∧ update_state clock state_manager e label = Ok (c, r, state_manager')
       ∧ landmarks ≠ [] ∧ e ∈ exercise_types).
Proof.
  unfold analyze. destruct landmarks as [|p rest] eqn:Hlm; cbn [Py.not_list].
  { intros [= <- <-]. left. eexists. split_and!; [done..|by left]. }
  rewrite <- Hlm. destruct (detector_detect_state e) as [detect|] eqn:Hd.
  2:{ intros [= <- <-]. left. eexists. split_and!; [done..|by left]. }
  assert (He : e ∈ exercise_types).
  { destruct (decide (e ∈ exercise_types)) as [|Hn]; [done|].
    apply detector_known in Hn. congruence. }
  destruct (analyze_label state_manager detect landmarks e) as [label|ex].
  2:{ intros [= <- <-]; left; eexists; split_and!; try done; auto. }
  destruct (update_state clock state_manager e label) as [[[c r] sm']|ex] eqn:Hup.
  2:{ destruct ex; intros [= <- <-]; left; eexists; split_and!; try done; auto. }
  intros [= <- <-]. right. exists label, c, r. split_and!; try done.
  by rewrite Hlm.
Qed.

(** X15. Whatever the frame and the selector, [analyze] either fails with
    status 400 or 500 and leaves the state manager exactly as it was, or
    answers with the repetition count that is stored after the call, which is
    no smaller than the count before; an answer with [state_changed = false]
    has changed nothing, one with [state_changed = true] has made the
    answered label the current one, and no answer touches the record of
    another exercise type. *)
Theorem analyze_outcome {libm : Libm}
    (clock : nat → float) (state_manager state_manager' : StateManager)
    (landmarks : list Landmark) (e : string) (res : HttpResult) :
  analyze clock state_manager landmarks e = (res, state_manager') →
  match res with
  | Failure status => state_manager' = state_manager ∧ (status = 400 ∨ status = 500)
  | Success r =>
      response_repetitions r = get_repetitions state_manager' e
      ∧ get_repetitions state_manager e ≤ response_repetitions r
      ∧ (state_changed r = false → state_manager' = state_manager)
      ∧ (state_changed r = true → get_current_state state_manager' e = state r)
      ∧ ∀ e', e' ≠ e → states state_manager' !! e' = states state_manager !! e'
  end.
Proof.
  intros [(status & -> & -> & Hs)|(label & c & r & -> & Hup & _)]%analyze_cases;
    [done|]. cbn [response_repetitions state_changed state].
  destruct (update_state_cases _ _ _ _ _ _ _ Hup)
    as (st & st' & Hst & Hsm & -> & Hr & Hsame).
  split_and!.
  - by rewrite Hsm, get_repetitions_store_eq.
  - unfold get_repetitions. rewrite Hst. lia.
  - intros ->. by rewrite Hsm, (Hsame eq_refl), (store_id _ _ _ Hst).
  - intros ->. destruct (update_state_accepted _ _ _ _ _ _ Hup)
      as (st1 & st1' & _ & -> & _ & Hcur & _).
    by rewrite get_current_state_store_eq.
  - intros e' Hne. rewrite Hsm. by apply lookup_store_ne.
Qed.

Lemma analyze_outcome_witness :
  let state_manager := __init__ (λ _, 0%float) in
  let r := {| state := "CLOSED"; response_repetitions := 0; state_changed := false |} in
  analyze (λ _, 1%float) state_manager frame_between "abduction_adduction"
    = (Success r, state_manager)
  ∧ response_repetitions r = get_repetitions state_manager "abduction_adduction"
  ∧ get_repetitions state_manager "abduction_adduction" ≤ response_repetitions r.
Proof.
  cbv zeta.
  assert (Han : analyze (λ _, 1%float) (__init__ (λ _, 0%float)) frame_between
                  "abduction_adduction"
                = (Success {| state := "CLOSED"; response_repetitions := 0;
                              state_changed := false |}, __init__ (λ _, 0%float)))
    by (vm_compute; reflexivity).
  split; [exact Han|].
  pose proof (analyze_outcome _ _ _ _ _ _ Han) as (Hrep & Hle & _).
  split; [exact Hrep | exact Hle].
Defined.

(** [analyze] on an exercise type that goes through [detect_state]. *)
Lemma analyze_with_detector {libm : Libm} (clock : nat → float) (state_manager : StateManager)
    (landmarks : list Landmark) (e : string)
    (detect : list Landmark → result string) :
  landmarks ≠ [] → e ≠ "thumb_opposition" →
  detector_detect_state e = Some detect →
  analyze clock state_manager landmarks e =
    match detect landmarks with
    | Ok label =>
        match update_state clock state_manager e label with
        | Ok (c, r, state_manager') =>
            (Success {| state := label; response_repetitions := r; state_changed := c |},
             state_manager')
        | Raise (ValueError _) => (Failure 400, state_manager)
        | Raise _ => (Failure 500, state_manager)
        end
    | Raise _ => (Failure 500, state_manager)
    end.
Proof.
  intros Hne Hthumb Hd. unfold analyze.
  assert (Py.not_list landmarks = false) as -> by (by destruct landmarks).
  rewrite Hd. unfold analyze_label.
  apply str_eq_false in Hthumb. by rewrite Hthumb.
Qed.

Lemma open_close_returns (landmarks : list Landmark) :
  ∃ label, HandOpenCloseDetector.detect_state landmarks = Ok label
    ∧ label ∈ ["OPEN"; "CLOSED"; "TRANSITION"].
Proof.
  unfold HandOpenCloseDetector.detect_state.
  destruct (_ || _); [eexists; split; [done|set_solver]|].
  pose proof (open_close_body_outcome landmarks) as Hb.
  destruct (HandOpenCloseDetector.detect_state_body landmarks) as [label|[]];
    try done; eexists; split; try done; set_solver.
Qed.

Lemma pinch_returns (landmarks : list Landmark) :
  ∃ label, PinchDetector.detect_state landmarks = Ok label
    ∧ label ∈ ["OPEN"; "CLOSED"; "TRANSITION"].
Proof.
  unfold PinchDetector.detect_state.
  destruct (_ || _); [eexists; split; [done|set_solver]|].
  pose proof (pinch_body_outcome landmarks) as Hb.
  destruct (PinchDetector.detect_state_body landmarks) as [label|[]];
    try done; eexists; split; try done; set_solver.
Qed.

Lemma planar_raise_kind {libm : Libm} (landmarks : list Landmark) (ex : exn) :
  AbductionAdductionDetector.detect_state landmarks = Raise ex
  ∨ FingerLiftsDetector.detect_state landmarks = Raise ex →
  (missing_coordinate ex ∨ arithmetic_error ex) ∧ (21 ≤ length landmarks)%nat.
Proof.
  destruct (Nat.lt_ge_cases (length landmarks) 21) as [Hlt|Hge].
  - pose proof (short_frame_guard landmarks Hlt) as Hg.
    unfold AbductionAdductionDetector.detect_state, FingerLiftsDetector.detect_state.
    rewrite Hg. by intros [|].
  - pose proof (abduction_full_frame landmarks Hge) as Ha.
    pose proof (finger_lifts_full_frame landmarks Hge) as Hf.
    intros [H|H]; rewrite H in *; [|done].
    split; [|done]. destruct Ha as [[? _]|?]; auto.
Qed.

(** X16. The status of [analyze] on a reachable manager. It is 400 exactly
    when the landmarks are empty or the exercise type is outside the
    enumeration. With landmarks, open_close, pinch and thumb_opposition
    always answer with a result. The status is 500 exactly when the
    detector of abduction_adduction or finger_lifts raises, which it does
    only on a frame of at least 21 points, for a missing x or y or for an
    error of the arithmetic of a distance, as the [OverflowError] of a
    square that overflows. *)
Theorem analyze_status {libm : Libm} (clock : nat → float) (state_manager : StateManager)
    (landmarks : list Landmark) (e : string) :
  reachable state_manager →
  (analyze clock state_manager landmarks e = (Failure 400, state_manager)
     ↔ landmarks = [] ∨ e ∉ exercise_types)
  ∧ (landmarks ≠ [] → e ∈ ["open_close"; "pinch"; "thumb_opposition"] →
       ∃ r state_manager',
         analyze clock state_manager landmarks e = (Success r, state_manager'))
  ∧ (analyze clock state_manager landmarks e = (Failure 500, state_manager)
       ↔ landmarks ≠ []
         ∧ ∃ ex, (missing_coordinate ex ∨ arithmetic_error ex)
             ∧ (21 ≤ length landmarks)%nat
             ∧ (e = "abduction_adduction"
                  ∧ AbductionAdductionDetector.detect_state landmarks = Raise ex
                ∨ e = "finger_lifts"
                  ∧ FingerLiftsDetector.detect_state landmarks = Raise ex)).
Proof.
  intros Hreach. pose proof (reachable_well_formed _ Hreach) as Hwf.
  destruct (decide (landmarks = [])) as [->|Hne].
  { split_and!; [split; [by left|done]|done|]. split; [done|by intros [? _]]. }
  destruct (decide (e ∈ exercise_types)) as [He|Hn].
  2:{ assert (Han : analyze clock state_manager landmarks e = (Failure 400, state_manager)).
      { unfold analyze. destruct landmarks; [done|]. cbn [Py.not_list].
        by rewrite (proj2 (detector_known e) Hn). }
      rewrite Han. split_and!.
      - split; [by right|done].
      - intros _ Hin. destruct Hn. revert Hin. unfold exercise_types.
        rewrite !elem_of_cons, !elem_of_nil. naive_solver.
      - split; [done|]. intros (_ & ex & _ & _ & [[-> _]|[-> _]]); destruct Hn;
          unfold exercise_types; set_solver. }
  assert (Hcases :
    (∃ r sm', analyze clock state_manager landmarks e = (Success r, sm')
       ∧ ¬ (∃ ex, e = "abduction_adduction"
                    ∧ AbductionAdductionDetector.detect_state landmarks = Raise ex
                  ∨ e = "finger_lifts"
                    ∧ FingerLiftsDetector.detect_state landmarks = Raise ex))
    ∨ (analyze clock state_manager landmarks e = (Failure 500, state_manager)
       ∧ (e ∉ ["open_close"; "pinch"; "thumb_opposition"])
       ∧ ∃ ex, (missing_coordinate ex ∨ arithmetic_error ex)
           ∧ (21 ≤ length landmarks)%nat
           ∧ (e = "abduction_adduction"
                ∧ AbductionAdductionDetector.detect_state landmarks = Raise ex
              ∨ e = "finger_lifts"
                ∧ FingerLiftsDetector.detect_state landmarks = Raise ex))).
  { pose proof He as He'. unfold exercise_types in He'.
    rewrite !elem_of_cons, elem_of_nil in He'.
    destruct He' as [->|[->|[->|[->|[->|[]]]]]].
    - left. destruct (open_close_returns landmarks) as (label & Hd & _).
      destruct (update_state_returns clock state_manager "open_close" label Hwf He)
        as (c & r & sm' & Hup).
      rewrite (analyze_with_detector _ _ _ _ HandOpenCloseDetector.detect_state)
        by done.
      rewrite Hd, Hup. eexists _, _. split; [done|]. by intros (ex & [[? _]|[? _]]).
    - left. destruct (pinch_returns landmarks) as (label & Hd & _).
      destruct (update_state_returns clock state_manager "pinch" label Hwf He)
        as (c & r & sm' & Hup).
      rewrite (analyze_with_detector _ _ _ _ PinchDetector.detect_state) by done.
      rewrite Hd, Hup. eexists _, _. split; [done|]. by intros (ex & [[? _]|[? _]]).
    - rewrite (analyze_with_detector _ _ _ _ AbductionAdductionDetector.detect_state)
        by done.
      destruct (AbductionAdductionDetector.detect_state landmarks) as [label|ex] eqn:Hd.
      + left.
        destruct (update_state_returns clock state_manager "abduction_adduction" label
                    Hwf He) as (c & r & sm' & Hup).
        rewrite Hup. eexists _, _. split; [done|].
        by intros (ex & [[_ ?]|[? _]]).
      + right. destruct (planar_raise_kind landmarks ex) as [Hk Hlen]; [by left|].
        split_and!; [done|set_solver|].
        exists ex. split_and!; try done. by left.
    - left. destruct (analyze_thumb clock state_manager landmarks Hwf Hne)
        as (st & expected & c & r & sm' & _ & _ & _ & Han).
      rewrite Han. eexists _, _. split; [done|]. by intros (ex & [[? _]|[? _]]).
    - rewrite (analyze_with_detector _ _ _ _ FingerLiftsDetector.detect_state) by done.
      destruct (FingerLiftsDetector.detect_state landmarks) as [label|ex] eqn:Hd.
      + left.
        destruct (update_state_returns clock state_manager "finger_lifts" label
                    Hwf He) as (c & r & sm' & Hup).
        rewrite Hup. eexists _, _. split; [done|].
        by intros (ex & [[? _]|[_ ?]]).
      + right. destruct (planar_raise_kind landmarks ex) as [Hk Hlen]; [by right|].
        split_and!; [done|set_solver|].
        exists ex. split_and!; try done. by right. }
  destruct Hcases as [(r & sm' & Han & Hnot)|(Han & Hnin & Hex)]; rewrite Han.
  - split_and!.
    + split; [done|]. by intros [|].
    + eauto.
    + split; [done|]. intros (_ & ex & _ & _ & Hraise). destruct Hnot. eauto.
  - split_and!.
    + split; [done|]. by intros [|].
    + done.
    + split; [|done]. by intros _.
Qed.

Lemma analyze_status_witness :
  analyze (λ _, 1%float) (__init__ (λ _, 0%float)) frame_malformed "finger_lifts"
    = (Failure 500, __init__ (λ _, 0%float))
  ∧ analyze (λ _, 1%float) (__init__ (λ _, 0%float)) frame_huge "abduction_adduction"
    = (Failure 500, __init__ (λ _, 0%float))
  ∧ analyze (λ _, 1%float) (__init__ (λ _, 0%float)) frame_malformed "squat"
    = (Failure 400, __init__ (λ _, 0%float))
  ∧ ∃ r state_manager',
      analyze (λ _, 1%float) (__init__ (λ _, 0%float)) frame_malformed "pinch"
        = (Success r, state_manager').
Proof.
  destruct (analyze_status (λ _, 1%float) (__init__ (λ _, 0%float)) frame_malformed
              "finger_lifts") as (_ & _ & H500); [apply reachable_init|].
  destruct (analyze_status (λ _, 1%float) (__init__ (λ _, 0%float)) frame_huge
              "abduction_adduction") as (_ & _ & Hhuge); [apply reachable_init|].
  destruct (analyze_status (λ _, 1%float) (__init__ (λ _, 0%float)) frame_malformed
              "squat") as (H400 & _); [apply reachable_init|].
  destruct (analyze_status (λ _, 1%float) (__init__ (λ _, 0%float)) frame_malformed
              "pinch") as (_ & Hok & _); [apply reachable_init|].
  split_and!.
  - apply H500. split; [discriminate|]. exists (KeyError "x").
    split_and!; [left; by left|vm_compute; lia|]. right. split; [done|].
    vm_compute. reflexivity.
  - apply Hhuge. split; [discriminate|]. exists OverflowError.
    split_and!; [right; by left|vm_compute; lia|]. left. split; [done|].
    vm_compute. reflexivity.
  - apply H400. right. unfold exercise_types. rewrite !elem_of_cons, elem_of_nil.
    intros [H|[H|[H|[H|[H|[]]]]]]; discriminate H.
  - apply Hok; [discriminate|]. set_solver.
Defined.

(** ** Frames of fewer than 21 points *)

Lemma short_frame_labels {libm : Libm} (landmarks : list Landmark) :
  (length landmarks < 21)%nat →
  HandOpenCloseDetector.detect_state landmarks = Ok "TRANSITION"
  ∧ PinchDetector.detect_state landmarks = Ok "TRANSITION"
  ∧ AbductionAdductionDetector.detect_state landmarks = Ok "UNKNOWN"
  ∧ FingerLiftsDetector.detect_state landmarks = Ok "UNKNOWN".
Proof.
  intros Hlen. pose proof (short_frame_guard landmarks Hlen) as Hg.
  unfold HandOpenCloseDetector.detect_state, PinchDetector.detect_state,
    AbductionAdductionDetector.detect_state, FingerLiftsDetector.detect_state.
  by rewrite Hg.
Qed.

(** X17. A non-empty frame of fewer than 21 points is no error for
    [analyze]. For open_close and pinch it is answered TRANSITION and the
    manager stays as it is. For finger_lifts the label UNKNOWN goes through
    the state machine and becomes the current label at once; for
    abduction_adduction it does so once the hold time has passed. In both
    cases the count is kept, and the call that follows counts nothing,
    whatever its label: a lift or a closed hand interrupted by a short frame
    is lost. *)
Theorem short_frame_is_a_label {libm : Libm} (clock : nat → float) (state_manager : StateManager)
    (landmarks : list Landmark) (e : string) (st : ExerciseState) :
  landmarks ≠ [] → (length landmarks < 21)%nat →
  states state_manager !! e = Some st →
  (e ∈ ["open_close"; "pinch"] →
     analyze clock state_manager landmarks e =
       (Success {| state := "TRANSITION"; response_repetitions := repetitions st;
                   state_changed := false |}, state_manager))
  ∧ (e ∈ ["abduction_adduction"; "finger_lifts"] →
     current_state st ≠ "UNKNOWN" →
     (e = "abduction_adduction" →
        Py.ge (PrimFloat.sub (clock 0%nat) (last_state_change st))
          (MIN_STATE_DURATION state_manager) = true) →
     ∃ st',
       analyze clock state_manager landmarks e =
         (Success {| state := "UNKNOWN"; response_repetitions := repetitions st;
                     state_changed := true |}, store state_manager e st')
       ∧ current_state st' = "UNKNOWN"
       ∧ repetitions st' = repetitions st
       ∧ ∀ clock' l, ∃ c state_manager'',
           update_state clock' (store state_manager e st') e l
             = Ok (c, repetitions st, state_manager'')).
Proof.
  intros Hne Hlen Hst.
  destruct (short_frame_labels landmarks Hlen) as (Hoc & Hpi & Hab & Hfl).
  split.
  - intros He.
    assert (Hup : update_state clock state_manager e "TRANSITION"
                  = Ok (false, repetitions st, state_manager)).
    { rewrite (update_debounced clock state_manager e "TRANSITION" st); [done| |done].
      set_solver. }
    rewrite !elem_of_cons, elem_of_nil in He. destruct He as [->|[->|[]]].
    + rewrite (analyze_with_detector _ _ _ _ HandOpenCloseDetector.detect_state)
        by done.
      by rewrite Hoc, Hup.
    + rewrite (analyze_with_detector _ _ _ _ PinchDetector.detect_state) by done.
      by rewrite Hpi, Hup.
  - intros He Hcur Hhold.
    assert (Hnt : ¬ is_transition "UNKNOWN") by (by intros [|]).
    rewrite !elem_of_cons, elem_of_nil in He. destruct He as [->|[->|[]]].
    + destruct (update_debounced_accept clock state_manager "abduction_adduction"
                  "UNKNOWN" st) as (b & Hup & Hb); try done; [set_solver|by apply Hhold|].
      destruct b.
      { destruct (proj1 Hb eq_refl) as (_ & [[_ ?]|[_ ?]]); done. }
      rewrite Z.add_0_r in Hup.
      eexists. split_and!.
      * rewrite (analyze_with_detector _ _ _ _ AbductionAdductionDetector.detect_state)
          by done.
        rewrite Hab, Hup. reflexivity.
      * done.
      * done.
      * intros clock' l.
        rewrite (update_debounced clock' _ "abduction_adduction" l
                   (commit (current_state st) "UNKNOWN" (clock 1%nat) st));
          [|set_solver|by apply lookup_store_eq].
        cbv zeta. cbn [Py.str_in existsb orb Py.str_eq String.eqb Ascii.eqb Bool.eqb
                       commit set_last_state_change set_current_state
                       set_previous_state current_state repetitions andb].
        repeat case_match; eexists _, _; reflexivity.
    + destruct (update_finger_lifts clock state_manager st "UNKNOWN" Hst Hnt)
        as (st' & Hup & Hc' & _ & _ & _ & _ & Hrep).
      assert (Hchg : negb (Py.str_eq "UNKNOWN" (current_state st)) = true).
      { apply negb_true_iff, str_eq_false. congruence. }
      rewrite Hchg in Hup. cbn [Py.str_eq String.eqb Ascii.eqb Bool.eqb] in Hrep.
      rewrite andb_false_r, Z.add_0_r in Hrep.
      exists st'. split_and!; try done.
      * rewrite (analyze_with_detector _ _ _ _ FingerLiftsDetector.detect_state)
          by done.
        rewrite Hfl, Hup. by rewrite Hrep.
      * intros clock' l.
        assert (Hst' : states (store state_manager "finger_lifts" st') !! "finger_lifts"
                       = Some st') by apply lookup_store_eq.
        destruct (decide (is_transition l)) as [Ht|Hnt'].
        -- rewrite (update_finger_lifts_transition clock' _ st' l Hst' Ht).
           rewrite Hrep. by eexists _, _.
        -- destruct (update_finger_lifts clock' _ st' l Hst' Hnt')
             as (st'' & Hup' & _ & _ & _ & _ & _ & Hrep').
           rewrite Hc' in Hrep'. cbn [Py.endswith] in Hrep'.
           rewrite Hup'. eexists _, _. f_equal. f_equal. f_equal.
           revert Hrep'. vm_compute (Py.endswith "UNKNOWN" "_UP"). cbn [andb]. lia.
Qed.

Lemma short_frame_is_a_label_witness :
  ∃ st',
    analyze (λ _, 1%float) (__init__ (λ _, 0%float)) [point 0 0 0] "finger_lifts" =
      (Success {| state := "UNKNOWN"; response_repetitions := 0; state_changed := true |},
       store (__init__ (λ _, 0%float)) "finger_lifts" st')
    ∧ current_state st' = "UNKNOWN".
Proof.
  destruct (short_frame_is_a_label (λ _, 1%float) (__init__ (λ _, 0%float))
              [point 0 0 0] "finger_lifts" (plain_state "NONE" 0%float))
    as (_ & H); [discriminate|simpl; lia|reflexivity|].
  destruct H as (st' & Han & Hc & _); [set_solver|discriminate|discriminate|].
  exists st'. split; [exact Han|exact Hc].
Defined.

(** ** The thumb-opposition branch on frames that lack a fingertip *)

Lemma getitem_out_of_range {A} (t : list A) (i : Z) :
  Z.of_nat (length t) ≤ i → Py.getitem t i = Raise IndexError.
Proof.
  intros Hi. unfold Py.getitem.
  destruct (Z.ltb_spec i 0); [lia|].
  destruct (Z.leb_spec 0 i); [|lia].
  destruct (Z.ltb_spec i (Z.of_nat (length t))); [lia|]. done.
Qed.

Lemma touch_test_needs_tip {libm : Libm} (landmarks : list Landmark) (f : string) (idx : Z) :
  ThumbOppositionDetector.finger_tips !! f = Some idx →
  Z.of_nat (length landmarks) ≤ idx →
  ∃ ex, ThumbOppositionDetector.detect_touch_target landmarks f = Raise ex.
Proof.
  intros Hf Hlen.
  unfold ThumbOppositionDetector.detect_touch_target,
    ThumbOppositionDetector.normalized_distance.
  destruct (ThumbOppositionDetector._palm_size landmarks) as [palm|ex];
    cbn [mbind result_bind]; [|by eexists].
  destruct (Py.getitem landmarks ThumbOppositionDetector.thumb_tip) as [thumb|ex];
    cbn [mbind result_bind]; [|by eexists].
  unfold Py.dict_getitem. rewrite Hf. cbn [mbind result_bind].
  rewrite (getitem_out_of_range landmarks idx Hlen). by eexists.
Qed.

(** X18. The thumb-opposition branch of [analyze] has no 21-point guard of
    its own: it probes whatever frame it gets. A finger whose tip index lies
    beyond the frame is never reported as touched, so a non-empty frame of
    fewer than 9 points is answered RELEASE by a reachable manager, and a
    frame of fewer than 21 points never completes the sequence at PINKY. *)
Theorem thumb_branch_short_frame {libm : Libm} (clock : nat → float)
    (state_manager : StateManager)
    (landmarks : list Landmark) :
  reachable state_manager → landmarks ≠ [] → (length landmarks < 21)%nat →
  (∀ f idx, ThumbOppositionDetector.finger_tips !! f = Some idx →
     Z.of_nat (length landmarks) ≤ idx →
     probe_touched landmarks finger_sequence ≠ Some f)
  ∧ (∀ r state_manager',
       analyze clock state_manager landmarks "thumb_opposition"
         = (Success r, state_manager') → state r ≠ "TOUCH_PINKY")
  ∧ ((length landmarks < 9)%nat →
     ∃ c r state_manager',
       analyze clock state_manager landmarks "thumb_opposition"
         = (Success {| state := "RELEASE"; response_repetitions := r;
                       state_changed := c |}, state_manager')).
Proof.
  intros Hreach Hne Hlen.
  assert (Hprobe : ∀ f idx, ThumbOppositionDetector.finger_tips !! f = Some idx →
            Z.of_nat (length landmarks) ≤ idx →
            probe_touched landmarks finger_sequence ≠ Some f).
  { intros f idx Hf Hidx Hp. apply probe_touched_Some in Hp
      as (before & after & _ & Htouch & _).
    destruct (touch_test_needs_tip landmarks f idx Hf Hidx) as [ex Hex]. congruence. }
  destruct (analyze_thumb clock state_manager landmarks
              (reachable_well_formed _ Hreach) Hne)
    as (st & expected & c & r & sm' & _ & Hexp & _ & Han).
  split_and!; [exact Hprobe| |].
  - intros r' sm'' Han'. rewrite Han in Han'.
    assert (r' = {| state := compose_label (probe_touched landmarks finger_sequence)
                               expected;
                    response_repetitions := r; state_changed := c |}) as ->
      by congruence.
    cbn [state].
    destruct (probe_touched landmarks finger_sequence) as [f|] eqn:Hp;
      cbn [compose_label]; [|done].
    destruct (str_eq_spec f expected) as [->|_]; [|done].
    intros Heq. injection Heq as Heq. change (expected = "PINKY") in Heq.
    apply (Hprobe "PINKY" 20); [done|lia|by rewrite Heq].
  - intros Hlen9.
    assert (Hnone : probe_touched landmarks finger_sequence = None).
    { apply probe_touched_None. intros f Hf.
      unfold finger_sequence in Hf. rewrite !elem_of_cons, elem_of_nil in Hf.
      assert (∃ idx, ThumbOppositionDetector.finger_tips !! f = Some idx ∧ 8 ≤ idx)
        as (idx & Hidx & Hge).
      { destruct Hf as [->|[->|[->|[->|[]]]]]; eexists; (split; [reflexivity|lia]). }
      destruct (touch_test_needs_tip landmarks f idx Hidx) as [ex Hex]; [lia|].
      congruence. }
    rewrite Hnone in Han. eauto.
Qed.

Lemma thumb_branch_short_frame_witness :
  ∃ c r state_manager',
    analyze (λ _, 1%float) (__init__ (λ _, 0%float)) (replicate 8 (point 0 0 0))
      "thumb_opposition"
      = (Success {| state := "RELEASE"; response_repetitions := r;
                    state_changed := c |}, state_manager').
Proof.
  destruct (thumb_branch_short_frame (λ _, 1%float) (__init__ (λ _, 0%float))
              (replicate 8 (point 0 0 0))) as (_ & _ & H);
    [apply reachable_init|discriminate|simpl; lia|].
  apply H. simpl. lia.
Defined.

(** On the frame whose palm-size square overflows, every touch test raises
    and the probing loop skips it: the answer is RELEASE, not a touch. *)
Lemma thumb_probe_skips_overflow :
  Forall (λ f, ThumbOppositionDetector.detect_touch_target frame_huge f
               = Raise OverflowError) finger_sequence
  ∧ ∃ state_manager',
      analyze (λ _, 1%float) (__init__ (λ _, 0%float)) frame_huge "thumb_opposition"
        = (Success {| state := "RELEASE"; response_repetitions := 0;
                      state_changed := false |}, state_manager').
Proof.
  split; [repeat constructor; vm_compute; reflexivity|].
  eexists. vm_compute. reflexivity.
Qed.

(** ** The feedback text of the response *)

(** X19. The feedback of an open_close or pinch response. It is the empty
    string exactly when [state_changed] is false, and a change is only ever
    reported for OPEN or CLOSED: the text of the TRANSITION entry of
    [feedback_messages] is never sent. *)
Theorem transition_feedback_never_sent {libm : Libm}
    (clock : nat → float) (state_manager : StateManager)
    (landmarks : list Landmark) (e fb : string) :
  e ∈ ["open_close"; "pinch"] →
  analyze_feedback clock state_manager landmarks e = Some fb →
  fb ≠ "Ipagpatuloy..."
  ∧ ∃ r state_manager',
      analyze clock state_manager landmarks e = (Success r, state_manager')
      ∧ (fb = "" ↔ state_changed r = false)
      ∧ (state_changed r = true → state r ∈ ["OPEN"; "CLOSED"]).
Proof.
  intros He. unfold analyze_feedback.
  destruct (decide (landmarks = [])) as [->|Hne]; [done|].
  assert (Hlabel : ∃ detect label, detector_detect_state e = Some detect
            ∧ detect landmarks = Ok label
            ∧ label ∈ ["OPEN"; "CLOSED"; "TRANSITION"]).
  { rewrite !elem_of_cons, elem_of_nil in He. destruct He as [->|[->|[]]].
    - destruct (open_close_returns landmarks) as (label & Hd & Hin).
      by exists HandOpenCloseDetector.detect_state, label.
    - destruct (pinch_returns landmarks) as (label & Hd & Hin).
      by exists PinchDetector.detect_state, label. }
  destruct Hlabel as (detect & label & Hdet & Hd & Hin).
  assert (Hth : e ≠ "thumb_opposition") by (intros ->; set_solver).
  rewrite (analyze_with_detector _ _ _ _ detect Hne Hth Hdet), Hd.
  destruct (update_state clock state_manager e label) as [[[c r] sm']|ex] eqn:Hup.
  2:{ by destruct ex. }
  cbn [state state_changed].
  assert (Hc : c = true → label ∈ ["OPEN"; "CLOSED"]).
  { intros ->. destruct (update_state_accepted _ _ _ _ _ _ Hup)
      as (st & st' & _ & _ & _ & _ & _ & _ & Hplain).
    destruct (Hplain Hth) as (Hnt & _).
    rewrite !elem_of_cons, elem_of_nil in Hin. rewrite !elem_of_cons, elem_of_nil.
    destruct Hin as [->|[->|[->|[]]]]; auto. destruct Hnt. by left. }
  assert (Hfb : ∀ fb', (if Py.str_eq e "thumb_opposition" then None
                        else if has_get_feedback e then None
                        else if Py.str_eq e "open_close"
                          then Some (open_close_generate_feedback label c)
                          else Some (pinch_generate_feedback label c)) = Some fb' →
            fb' ≠ "Ipagpatuloy..." ∧ (fb' = "" ↔ c = false)).
  { intros fb'. destruct c.
    - specialize (Hc eq_refl). rewrite !elem_of_cons, elem_of_nil in Hc, He.
      destruct He as [->|[->|[]]]; destruct Hc as [->|[->|[]]];
        vm_compute; intros [= <-]; (split; [discriminate|split; discriminate]).
    - rewrite !elem_of_cons, elem_of_nil in He.
      destruct He as [->|[->|[]]]; vm_compute; intros [= <-]; done. }
  apply str_eq_false in Hth as Hth'. rewrite Hth' in Hfb |- *.
  assert (Hg : has_get_feedback e = false).
  { rewrite !elem_of_cons, elem_of_nil in He. by destruct He as [->|[->|[]]]. }
  rewrite Hg in Hfb |- *.
  intros Hsome. destruct (Hfb fb) as [Hno Hiff].
  { by destruct (Py.str_eq e "open_close"). }
  split; [done|]. eexists _, _. split; [reflexivity|]. cbn [state state_changed].
  split; [done|]. exact Hc.
Qed.

Lemma transition_feedback_never_sent_witness :
  analyze_feedback (λ _, 1%float) (__init__ (λ _, 0%float)) frame_malformed "pinch"
    = Some ""
  ∧ "" ≠ "Ipagpatuloy...".
Proof.
  assert (Hfb : analyze_feedback (λ _, 1%float) (__init__ (λ _, 0%float))
                  frame_malformed "pinch" = Some "") by (vm_compute; reflexivity).
  split; [exact Hfb|].
  refine (proj1 (transition_feedback_never_sent _ _ _ "pinch" "" _ Hfb)).
  set_solver.
Defined.

Lemma finger_lifts_labels {libm : Libm} (landmarks : list Landmark) (label : string) :
  (21 ≤ length landmarks)%nat →
  FingerLiftsDetector.detect_state landmarks = Ok label →
  label ∈ ["INDEX_UP"; "MIDDLE_UP"; "RING_UP"; "PINKY_UP"; "NONE"; "TRANSITION"].
Proof.
  intros Hlen Hd. pose proof (finger_lifts_full_frame landmarks Hlen) as H.
  rewrite Hd in H. destruct H as (palm & _ & _ & [Hup|[[-> _]| ->]]);
    [|set_solver..].
  destruct Hup as (name & tip & pip & s & Hin & -> & _).
  unfold FingerLiftsDetector.fingers in Hin. rewrite !elem_of_cons, elem_of_nil in Hin.
  destruct Hin as [[= -> _ _]|[[= -> _ _]|[[= -> _ _]|[[= -> _ _]|[]]]]];
    vm_compute; set_solver.
Qed.

(** X20. The "hand not detected" text of abduction_adduction and
    finger_lifts. A reachable manager sends it exactly for a non-empty
    frame of fewer than 21 points: a full frame never gets it, whatever its
    coordinates are, and neither does a request that fails. *)
Theorem hand_not_detected_feedback {libm : Libm}
    (clock : nat → float) (state_manager : StateManager)
    (landmarks : list Landmark) (e : string) :
  reachable state_manager →
  e ∈ ["abduction_adduction"; "finger_lifts"] →
  analyze_feedback clock state_manager landmarks e
    = Some (if Py.str_eq e "finger_lifts" then "Hand not detected."
            else "Hindi mahanap ang kamay.")
  ↔ landmarks ≠ [] ∧ (length landmarks < 21)%nat.
Proof.
  intros Hreach He. pose proof (reachable_well_formed _ Hreach) as Hwf.
  unfold analyze_feedback.
  destruct (decide (landmarks = [])) as [->|Hne].
  { split; [done|]. by intros [? _]. }
  assert (Hty : e ∈ exercise_types) by (unfold exercise_types; set_solver).
  assert (Hth : e ≠ "thumb_opposition") by (intros ->; set_solver).
  assert (Hdet : ∃ detect, detector_detect_state e = Some detect
            ∧ (e = "abduction_adduction"
                 ∧ detect = AbductionAdductionDetector.detect_state
               ∨ e = "finger_lifts" ∧ detect = FingerLiftsDetector.detect_state)).
  { rewrite !elem_of_cons, elem_of_nil in He.
    destruct He as [->|[->|[]]]; eexists; (split; [reflexivity|]); auto. }
  destruct Hdet as (detect & Hdet & Hwhich).
  rewrite (analyze_with_detector _ _ _ _ detect Hne Hth Hdet).
  destruct (Nat.lt_ge_cases (length landmarks) 21) as [Hlt|Hge].
  - destruct (short_frame_labels landmarks Hlt) as (_ & _ & Hab & Hfl).
    assert (Hd : detect landmarks = Ok "UNKNOWN")
      by (by destruct Hwhich as [[_ ->]|[_ ->]]).
    rewrite Hd.
    destruct (update_state_returns clock state_manager e "UNKNOWN" Hwf Hty)
      as (c & r & sm' & Hup).
    rewrite Hup. split; [done|]. intros _.
    by destruct Hwhich as [[-> _]|[-> _]].
  - split; [|intros [_ ?]; lia]. intros Hfb. exfalso. revert Hfb.
    destruct (detect landmarks) as [label|ex] eqn:Hd.
    2:{ by destruct ex. }
    destruct (update_state clock state_manager e label) as [[[c r] sm']|ex].
    2:{ by destruct ex. }
    cbn [state]. destruct Hwhich as [[-> ->]|[-> ->]].
    + pose proof (abduction_full_frame landmarks Hge) as H. rewrite Hd in H.
      destruct H as [Hin _]. rewrite !elem_of_cons, elem_of_nil in Hin.
      by destruct Hin as [->|[->|[->|[]]]].
    + pose proof (finger_lifts_labels landmarks label Hge Hd) as Hin.
      rewrite !elem_of_cons, elem_of_nil in Hin.
      by destruct Hin as [->|[->|[->|[->|[->|[->|[]]]]]]].
Qed.

Lemma hand_not_detected_feedback_witness :
  analyze_feedback (λ _, 1%float) (__init__ (λ _, 0%float)) [point 0 0 0]
    "abduction_adduction" = Some "Hindi mahanap ang kamay.".
Proof.
  apply (hand_not_detected_feedback (λ _, 1%float) (__init__ (λ _, 0%float))
           [point 0 0 0] "abduction_adduction");
    [apply reachable_init|set_solver|split; [discriminate|simpl; lia]].
Defined.

(** ** The landmarks a detector reads *)

Lemma getitem_agree (landmarks landmarks' : list Landmark) (i : nat) :
  (21 ≤ length landmarks)%nat → (21 ≤ length landmarks')%nat → (i < 21)%nat →
  landmarks !! i = landmarks' !! i →
  Py.getitem landmarks (Z.of_nat i) = Py.getitem landmarks' (Z.of_nat i).
Proof.
  intros Hlen Hlen' Hi Heq.
  destruct (full_frame_points landmarks i Hlen Hi) as [p Hp].
  rewrite (getitem_lookup landmarks i p Hp).
  rewrite Heq in Hp. by rewrite (getitem_lookup landmarks' i p Hp).
Qed.

Lemma full_frame_guards (landmarks : list Landmark) :
  (21 ≤ length landmarks)%nat →
  Py.not_list landmarks || Py.len_lt landmarks 21 = false
  ∧ Py.len_lt landmarks 21 = false ∧ Py.len_lt landmarks 10 = false.
Proof.
  intros Hlen. unfold Py.len_lt.
  assert (Py.not_list landmarks = false) as ->
    by (destruct landmarks; [simpl in Hlen; lia|done]).
  destruct (Nat.ltb_spec (length landmarks) 21); [lia|].
  destruct (Nat.ltb_spec (length landmarks) 10); [lia|]. done.
Qed.

(** The lookup of a named point, the same in both frames. *)
Ltac same_point Hlen Hlen' Hag i :=
  let E := fresh "E" in
  pose proof (getitem_agree _ _ i Hlen Hlen' ltac:(lia) (Hag i ltac:(set_solver))) as E;
  let z := eval cbv in (Z.of_nat i) in
  change (Z.of_nat i) with z in E.

(** X21. Each detector reads only the landmarks it names. Two frames of at
    least 21 points that hold the same landmarks at these indices get the
    same outcome, label or exception, whatever their other points are. *)
Theorem detectors_read_named_points {libm : Libm} (landmarks landmarks' : list Landmark) :
  (21 ≤ length landmarks)%nat → (21 ≤ length landmarks')%nat →
  (agree_on open_close_points landmarks landmarks' →
     HandOpenCloseDetector.detect_state landmarks
       = HandOpenCloseDetector.detect_state landmarks')
  ∧ (agree_on pinch_points landmarks landmarks' →
     PinchDetector.detect_state landmarks = PinchDetector.detect_state landmarks')
  ∧ (agree_on abduction_points landmarks landmarks' →
     AbductionAdductionDetector.detect_state landmarks
       = AbductionAdductionDetector.detect_state landmarks')
  ∧ (agree_on finger_lifts_points landmarks landmarks' →
     FingerLiftsDetector.detect_state landmarks
       = FingerLiftsDetector.detect_state landmarks').
Proof.
  intros Hlen Hlen'.
  destruct (full_frame_guards landmarks Hlen) as (G & G21 & G10).
  destruct (full_frame_guards landmarks' Hlen') as (G' & G21' & G10').
  split_and!; intros Hag.
  - unfold open_close_points in Hag.
    same_point Hlen Hlen' Hag 0%nat. same_point Hlen Hlen' Hag 8%nat.
    same_point Hlen Hlen' Hag 12%nat. same_point Hlen Hlen' Hag 16%nat.
    same_point Hlen Hlen' Hag 20%nat.
    unfold HandOpenCloseDetector.detect_state, HandOpenCloseDetector.detect_state_body,
      HandOpenCloseDetector.WRIST, HandOpenCloseDetector.FINGERTIPS.
    cbn [for_each]. by rewrite G, G', E, E0, E1, E2, E3.
  - unfold pinch_points in Hag.
    same_point Hlen Hlen' Hag 4%nat. same_point Hlen Hlen' Hag 8%nat.
    unfold PinchDetector.detect_state, PinchDetector.detect_state_body,
      PinchDetector.THUMB_TIP, PinchDetector.INDEX_TIP.
    by rewrite G, G', E, E0.
  - unfold abduction_points in Hag.
    same_point Hlen Hlen' Hag 0%nat. same_point Hlen Hlen' Hag 9%nat.
    same_point Hlen Hlen' Hag 8%nat. same_point Hlen Hlen' Hag 12%nat.
    same_point Hlen Hlen' Hag 16%nat. same_point Hlen Hlen' Hag 20%nat.
    unfold AbductionAdductionDetector.detect_state,
      AbductionAdductionDetector.calculate_finger_spread,
      AbductionAdductionDetector._palm_size, AbductionAdductionDetector.gap.
    by rewrite G, G', G21, G21', G10, G10', E, E0, E1, E2, E3, E4.
  - unfold finger_lifts_points in Hag.
    same_point Hlen Hlen' Hag 0%nat. same_point Hlen Hlen' Hag 9%nat.
    same_point Hlen Hlen' Hag 8%nat. same_point Hlen Hlen' Hag 6%nat.
    same_point Hlen Hlen' Hag 12%nat. same_point Hlen Hlen' Hag 10%nat.
    same_point Hlen Hlen' Hag 16%nat. same_point Hlen Hlen' Hag 14%nat.
    same_point Hlen Hlen' Hag 20%nat. same_point Hlen Hlen' Hag 18%nat.
    unfold FingerLiftsDetector.detect_state, FingerLiftsDetector._palm_size,
      FingerLiftsDetector.fingers.
    cbn [FingerLiftsDetector.best_of].
    by rewrite G, G', G10, G10', E, E0, E1, E2, E3, E4, E5, E6, E7, E8.
Qed.

Lemma detectors_read_named_points_witness :
  PinchDetector.detect_state frame_between
    = PinchDetector.detect_state (<[0%nat := point 1 1 1]> frame_between).
Proof.
  refine (proj1 (proj2 (detectors_read_named_points frame_between
            (<[0%nat := point 1 1 1]> frame_between) _ _)) _).
  - vm_compute. lia.
  - vm_compute. lia.
  - intros i Hi. unfold pinch_points in Hi. rewrite !elem_of_cons, elem_of_nil in Hi.
    by destruct Hi as [->|[->|[]]].
Defined.

(** X22. The feedback of a thumb-opposition response. A reachable manager
    answers every non-empty frame with a feedback text, and the text follows
    the label: a touch of the expected finger names that finger in lower
    case, the finger the cursor pointed at before the call; RELEASE and
    TRANSITION have their fixed texts. *)
Theorem thumb_feedback_follows_label {libm : Libm}
    (clock : nat → float) (state_manager : StateManager)
    (landmarks : list Landmark) :
  reachable state_manager → landmarks ≠ [] →
  ∃ st expected r state_manager' fb,
    states state_manager !! "thumb_opposition" = Some st
    ∧ finger_sequence !! Z.to_nat (get_sequence_index st) = Some expected
    ∧ analyze clock state_manager landmarks "thumb_opposition"
        = (Success r, state_manager')
    ∧ analyze_feedback clock state_manager landmarks "thumb_opposition" = Some fb
    ∧ (state r = "TOUCH_" +:+ expected
         ↔ fb = "Good! Thumb to " +:+ str_lower expected +:+ " finger.")
    ∧ (state r = "RELEASE" ↔ fb = "Release, then go to the next finger.")
    ∧ (state r = "TRANSITION" ↔ fb = "Move slowly and touch each finger in order.").
Proof.
  intros Hreach Hne. pose proof (reachable_well_formed _ Hreach) as Hwf.
  destruct (analyze_thumb clock state_manager landmarks Hwf Hne)
    as (st & expected & c & r & sm' & Hst & Hexp & _ & Han).
  destruct Hwf as (_ & Hthumb & _). destruct (Hthumb st Hst) as [Hcur _].
  pose proof (getitem_finger_sequence _ _ Hcur Hexp) as Hget.
  eexists st, expected, _, sm', _. split_and!; [done|done|exact Han| |..].
  - unfold analyze_feedback. rewrite Han.
    change (Py.str_eq "thumb_opposition" "thumb_opposition") with true. cbv iota.
    unfold Py.dict_getitem at 1. rewrite Hst. cbn [mbind result_bind].
    rewrite Hget. reflexivity.
  - cbn [state].
    assert (Hin : expected ∈ finger_sequence) by (by eapply list_elem_of_lookup_2).
    unfold finger_sequence in Hin. rewrite !elem_of_cons, elem_of_nil in Hin.
    destruct (probe_touched landmarks finger_sequence) as [f|];
      cbn [compose_label compose_phase].
    + destruct (str_eq_spec f expected) as [->|Hf].
      * split; [intros _|done].
        destruct Hin as [->|[->|[->|[->|[]]]]]; vm_compute; reflexivity.
      * split; [done|].
        destruct Hin as [->|[->|[->|[->|[]]]]]; vm_compute; discriminate.
    + split; [intros H; vm_compute in H; discriminate H|].
      destruct Hin as [->|[->|[->|[->|[]]]]]; vm_compute; discriminate.
  - cbn [state].
    destruct (probe_touched landmarks finger_sequence) as [f|];
      cbn [compose_label compose_phase]; [|done].
    destruct (str_eq_spec f expected) as [->|Hf].
    + split; [intros H; by apply touch_label_not_other in H|].
      assert (Hin : expected ∈ finger_sequence) by (by eapply list_elem_of_lookup_2).
      unfold finger_sequence in Hin. rewrite !elem_of_cons, elem_of_nil in Hin.
      destruct Hin as [->|[->|[->|[->|[]]]]]; vm_compute; discriminate.
    + split; [discriminate|vm_compute; discriminate].
  - cbn [state].
    destruct (probe_touched landmarks finger_sequence) as [f|];
      cbn [compose_label compose_phase]; [|split; [discriminate|vm_compute; discriminate]].
    destruct (str_eq_spec f expected) as [->|Hf]; [|done].
    split; [intros H; by apply touch_label_not_other in H|].
    assert (Hin : expected ∈ finger_sequence) by (by eapply list_elem_of_lookup_2).
    unfold finger_sequence in Hin. rewrite !elem_of_cons, elem_of_nil in Hin.
    destruct Hin as [->|[->|[->|[->|[]]]]]; vm_compute; discriminate.
Qed.

Lemma thumb_feedback_follows_label_witness :
  ∃ fb, analyze_feedback (λ _, 1%float) (__init__ (λ _, 0%float)) frame_coincident
          "thumb_opposition" = Some fb.
Proof.
  destruct (thumb_feedback_follows_label (λ _, 1%float) (__init__ (λ _, 0%float))
              frame_coincident) as (st & expected & r & sm' & fb & _ & _ & _ & Hfb & _);
    [apply reachable_init|discriminate|].
  exists fb. exact Hfb.
Defined.
